(** * Housing-vacancy choropleth: the fetch-and-reconcile pipeline

    A shallow embedding of the pipeline of [src/App.jsx] (the [HousingStats]
    component), of [esriToGeoJSON] from the map utilities and of the map
    component, with the properties the specification states about them and
    further properties of the code: how the selectors are loaded, what a
    selection leaves behind when it fails, and how a rate that has been
    printed is read back and coloured.

    Conventions.
    - JavaScript strings are [string]s; every identifier, header and count
      the two upstream services send is ASCII, so a character is one code
      unit.
    - A JavaScript object used as a bag of named fields (feature
      [properties], ESRI [attributes]) is a [gmap string value].
    - React state is an explicit record; an [async] handler is split at its
      [await] into the part that runs at once and the part that runs when
      the awaited promise settles.
    - Exceptions are values of [result]. *)

From Stdlib Require Import ZArith NArith Lia String Ascii List Bool Sorted Permutation.
From Stdlib Require Import Floats.SpecFloat.
From stdpp Require Import base strings gmap list pretty.

#[local] Open Scope string_scope.

(** ** Strings *)

Module Str.

(** [s.repeat(n)]. *)
Fixpoint repeat (n : nat) (s : string) : string :=
  match n with
  | O => ""
  | S n' => s +:+ repeat n' s
  end.

(** [String.prototype.padStart(targetLength, padString)]: nothing happens
    when the string is long enough or the filler is empty; otherwise the
    filler is repeated and cut to the missing length. *)
Definition padStart (targetLength : nat) (padString s : string) : string :=
  if (targetLength <=? String.length s)%nat then s
  else if decide (padString = "") then s
  else
    let fillLen := (targetLength - String.length s)%nat in
    substring 0 fillLen (repeat fillLen padString) +:+ s.

Definition is_digit (c : ascii) : bool :=
  (48 <=? nat_of_ascii c)%nat && (nat_of_ascii c <=? 57)%nat.

Fixpoint all_digits (s : string) : bool :=
  match s with
  | EmptyString => true
  | String c s' => is_digit c && all_digits s'
  end.

End Str.

(** ** Identifier formatting

    [loadStates], [loadCounties] and [handleCountySelect] bring state ids to
    two characters and county ids to three with [padStart]. *)

Definition formattedStateId (stateId : string) : string :=
  Str.padStart 2 "0" stateId.

Definition formattedCountyId (countyId : string) : string :=
  Str.padStart 3 "0" countyId.

(** ** Numbers

    A JavaScript number is an IEEE 754 binary64 value.  Every finite one is
    a whole multiple of [2^-1074], so a finite number is kept as a sign and
    that multiple (its count of units in the last place of the subnormal
    range).  Order is then the order of integers, and every operation is
    the exact result rounded to nearest, ties to even. *)

Module Number.
#[local] Open Scope N_scope.

Inductive number : Type :=
| NaN
| Infinity (negative : bool)
| Finite (negative : bool) (ulps : N).

(** The number 1, and the first magnitude that no longer fits. *)
Definition one_ulps : N := 2 ^ 1074.
Definition overflow_ulps : N := 2 ^ 2098.

(** [p / q] units, rounded to 53 significant bits.  Below [2^53] units
    every integer is representable; above, the spacing is [2^s] with
    [2^(52+s) <= p/q < 2^(53+s)]. *)
Definition round_ulps (p q : N) : option N :=
  let s := N.log2 (p / q) - 52 in
  let d := q * 2 ^ s in
  let m := p / d in
  let r := p mod d in
  let m' := match 2 * r ?= d with
            | Lt => m
            | Eq => if N.even m then m else m + 1
            | Gt => m + 1
            end in
  let k := m' * 2 ^ s in
  if overflow_ulps <=? k then None else Some k.

Definition rounded (negative : bool) (p q : N) : number :=
  match round_ulps p q with
  | Some k => Finite negative k
  | None => Infinity negative
  end.

(** The number value of a mathematical integer. *)
Definition of_Z (z : Z) : number :=
  rounded (z <? 0)%Z (Z.abs_N z * one_ulps) 1.

Definition signed (negative : bool) (k : N) : Z :=
  if negative then (- Z.of_N k)%Z else Z.of_N k.

Definition neg (x : number) : number :=
  match x with
  | NaN => NaN
  | Infinity s => Infinity (negb s)
  | Finite s k => Finite (negb s) k
  end.

Definition add (x y : number) : number :=
  match x, y with
  | NaN, _ | _, NaN => NaN
  | Infinity s1, Infinity s2 => if Bool.eqb s1 s2 then Infinity s1 else NaN
  | Infinity s, Finite _ _ | Finite _ _, Infinity s => Infinity s
  | Finite s1 a, Finite s2 b =>
      let z := (signed s1 a + signed s2 b)%Z in
      if (z =? 0)%Z then Finite (s1 && s2) 0
      else rounded (z <? 0)%Z (Z.abs_N z) 1
  end.

Definition sub (x y : number) : number := add x (neg y).

Definition mul (x y : number) : number :=
  match x, y with
  | NaN, _ | _, NaN => NaN
  | Infinity s1, Infinity s2 => Infinity (xorb s1 s2)
  | Infinity s1, Finite s2 k | Finite s1 k, Infinity s2 =>
      if k =? 0 then NaN else Infinity (xorb s1 s2)
  | Finite s1 a, Finite s2 b => rounded (xorb s1 s2) (a * b) one_ulps
  end.

Definition div (x y : number) : number :=
  match x, y with
  | NaN, _ | _, NaN => NaN
  | Infinity _, Infinity _ => NaN
  | Infinity s1, Finite s2 _ => Infinity (xorb s1 s2)
  | Finite s1 _, Infinity s2 => Finite (xorb s1 s2) 0
  | Finite s1 a, Finite s2 b =>
      if b =? 0 then (if a =? 0 then NaN else Infinity (xorb s1 s2))
      else rounded (xorb s1 s2) (a * one_ulps) b
  end.

(** Comparison; [None] when an operand is [NaN]. *)
Definition compare (x y : number) : option comparison :=
  match x, y with
  | NaN, _ | _, NaN => None
  | Infinity s1, Infinity s2 =>
      Some (if s1 then (if s2 then Eq else Lt) else (if s2 then Gt else Eq))
  | Infinity s, Finite _ _ => Some (if s then Lt else Gt)
  | Finite _ _, Infinity s => Some (if s then Gt else Lt)
  | Finite s1 a, Finite s2 b => Some (signed s1 a ?= signed s2 b)%Z
  end.

(** [x > y] and [x >= y]. *)
Definition gtb (x y : number) : bool :=
  match compare x y with Some Gt => true | _ => false end.
Definition geb (x y : number) : bool :=
  match compare x y with Some Gt | Some Eq => true | _ => false end.

(** [x === y] on numbers. *)
Definition eqb (x y : number) : bool :=
  match compare x y with Some Eq => true | _ => false end.

(** [ToBoolean]: [NaN] and both zeros are falsy. *)
Definition truthy (x : number) : bool :=
  match x with
  | NaN => false
  | Infinity _ => true
  | Finite _ k => negb (k =? 0)
  end.

Definition zero : number := Finite false 0.

(** [x || 0]. *)
Definition or_zero (x : number) : number := if truthy x then x else zero.

(** The same number in the Standard Library's specification of binary64. *)
Definition to_spec_float (x : number) : spec_float :=
  match x with
  | NaN => S754_nan
  | Infinity s => S754_infinity s
  | Finite s k => binary_normalize 53 1024 (signed s k) (-1074) s
  end.

End Number.

Export Number(number, NaN, Infinity, Finite).

Arguments Number.round_ulps : simpl never.
Arguments Number.rounded : simpl never.
Arguments Number.of_Z : simpl never.


(** ** Numbers and text

    [Number.prototype.toFixed], [parseInt] and [parseFloat], after ECMA-262.
    White space is the ASCII part of the standard's set. *)

Module NumText.
Import Number.
#[local] Open Scope N_scope.

Definition is_space (c : ascii) : bool :=
  let n := nat_of_ascii c in
  ((9 <=? n)%nat && (n <=? 13)%nat) || (n =? 32)%nat.

Fixpoint skip_spaces (s : string) : string :=
  match s with
  | String c s' => if is_space c then skip_spaces s' else s
  | EmptyString => s
  end.

(** The value of a character as a digit in the given radix. *)
Definition digit_value (radix : N) (c : ascii) : option N :=
  let n := N_of_ascii c in
  let v := if (48 <=? n) && (n <=? 57) then Some (n - 48)
           else if (97 <=? n) && (n <=? 122) then Some (n - 87)
           else if (65 <=? n) && (n <=? 90) then Some (n - 55)
           else None in
  match v with
  | Some d => if d <? radix then Some d else None
  | None => None
  end.

(** The longest prefix of digits: how many there are, their value, and what
    follows them. *)
Fixpoint digits_from (radix : N) (count acc : N) (s : string) : N * N * string :=
  match s with
  | String c s' =>
      match digit_value radix c with
      | Some d => digits_from radix (count + 1) (acc * radix + d) s'
      | None => (count, acc, s)
      end
  | EmptyString => (count, acc, s)
  end.

Definition leading_digits (radix : N) (s : string) : N * N * string :=
  digits_from radix 0 0 s.

Definition strip_sign (s : string) : bool * string :=
  match s with
  | String "-" s' => (true, s')
  | String "+" s' => (false, s')
  | _ => (false, s)
  end.

(** [parseInt(string)] with no radix argument: leading white space, a sign,
    a [0x] prefix that selects radix 16, then the longest run of digits;
    [NaN] when that run is empty. *)
Definition parseInt (input : string) : number :=
  let '(negative, s) := strip_sign (skip_spaces input) in
  let '(radix, s) :=
    match s with
    | String "0" (String "x" s') | String "0" (String "X" s') => (16, s')
    | _ => (10, s)
    end in
  let '(count, v, _) := leading_digits radix s in
  if count =? 0 then NaN else rounded negative (v * one_ulps) 1.

(** An exponent part, [e] or [E] with a signed run of digits, counts only
    when it has a digit. *)
Definition exponent_part (s : string) : Z :=
  match s with
  | String "e" s' | String "E" s' =>
      let '(negative, s'') := strip_sign s' in
      let '(count, v, _) := leading_digits 10 s'' in
      if count =? 0 then 0%Z else signed negative v
  | _ => 0%Z
  end.

(** [parseFloat(string)]: leading white space, a sign, then [Infinity] or the
    longest decimal literal (digits, an optional fraction, an optional
    exponent); [NaN] when there is none. *)
Definition parseFloat (input : string) : number :=
  let '(negative, s) := strip_sign (skip_spaces input) in
  if String.prefix "Infinity" s then Infinity negative
  else
    let '(icount, ival, s1) := leading_digits 10 s in
    let '(fcount, mant, s2) :=
      match s1 with
      | String "." s' => digits_from 10 0 ival s'
      | _ => (0, ival, s1)
      end in
    if (icount =? 0) && (fcount =? 0) then NaN
    else
      let e := (exponent_part s2 - Z.of_N fcount)%Z in
      if (0 <=? e)%Z
      then rounded negative (mant * 10 ^ Z.to_N e * one_ulps) 1
      else rounded negative (mant * one_ulps) (10 ^ Z.to_N (- e)).

(** *** [Number::toString] for integers of 22 digits and more

    The shortest decimal [s * 10^(n-k)] that reads back as the same number,
    closest to it when several have the same length, printed in exponent
    form. *)

Definition reads_back (x : N) (s e : N) : bool :=
  match round_ulps (s * 10 ^ e * one_ulps) 1 with
  | Some k => k =? x * one_ulps
  | None => false
  end.

Definition distance (a b : N) : N := if a <=? b then b - a else a - b.

(** The candidates with [k] digits: for each place [n], the two multiples of
    [10^(n-k)] around [x]. *)
Definition candidates (x : N) (k : N) : list (N * N) :=
  let d := N.of_nat (String.length (pretty x)) in
  flat_map (fun n =>
    let e := n - k in
    let s0 := x / 10 ^ e in
    filter (fun '(s, _) =>
              (10 ^ (k - 1) <=? s) && (s <? 10 ^ k) && reads_back x s e)
           [(s0, n); (s0 + 1, n)])
    [d; d + 1].

Definition closer (x k : N) (c1 c2 : N * N) : N * N :=
  let d1 := distance (fst c1 * 10 ^ (snd c1 - k)) x in
  let d2 := distance (fst c2 * 10 ^ (snd c2 - k)) x in
  if d1 <? d2 then c1
  else if d2 <? d1 then c2
  else if N.even (fst c1) then c1 else c2.

Fixpoint shortest (x : N) (k : N) (fuel : nat) : option (N * N * N) :=
  match fuel with
  | O => None
  | S fuel' =>
      match candidates x k with
      | c :: cs => let '(s, n) := fold_left (closer x k) cs c in Some (s, n, k)
      | [] => shortest x (k + 1) fuel'
      end
  end.

Definition toString_exponent (x : N) : string :=
  match shortest x 1 17 with
  | Some (s, n, k) =>
      let digits := pretty s in
      let mantissa :=
        match digits with
        | String c EmptyString => digits
        | String c rest => String c ("." +:+ rest)
        | EmptyString => digits
        end in
      mantissa +:+ "e+" +:+ pretty (n - 1)
  | None => ""
  end.

(** *** [Number.prototype.toFixed(fractionDigits)]

    For a finite number below [10^21] in magnitude: the integer [n] for
    which [n / 10^f] is nearest to the number, the larger one of two, printed
    with [f] digits after the point. *)

Definition nearest_scaled (f : nat) (k : N) : N :=
  (2 * k * 10 ^ N.of_nat f + one_ulps) / (2 * one_ulps).

Definition fixed_digits (f : nat) (n : N) : string :=
  let m := pretty n in
  if (f =? 0)%nat then m
  else
    let m := Str.padStart (f + 1) "0" m in
    let k := String.length m in
    substring 0 (k - f) m +:+ "." +:+ substring (k - f) f m.

Definition toFixed (fractionDigits : nat) (x : number) : string :=
  match x with
  | NaN => "NaN"
  | Infinity negative => if negative then "-Infinity" else "Infinity"
  | Finite negative k =>
      let sign := if negative && negb (k =? 0) then "-" else "" in
      if 10 ^ 21 * one_ulps <=? k
      then sign +:+ toString_exponent (k / one_ulps)
      else sign +:+ fixed_digits fractionDigits (nearest_scaled fractionDigits k)
  end.

End NumText.

Arguments NumText.parseInt : simpl never.
Arguments NumText.parseFloat : simpl never.
Arguments NumText.toFixed : simpl never.


(** ** Values, exceptions and arrays *)

Module Js.

(** What the two services put in a table cell or an attribute: a string or
    [null]; [undefined] is what reading a missing index or field gives. *)
Inductive value : Type :=
| VUndefined
| VNull
| VString (s : string).

#[global] Instance value_eq_dec : EqDecision value.
Proof. solve_decision. Defined.

Definition ToString (v : value) : string :=
  match v with
  | VUndefined => "undefined"
  | VNull => "null"
  | VString s => s
  end.

Definition ToBoolean (v : value) : bool :=
  match v with
  | VString s => negb (bool_decide (s = ""))
  | _ => false
  end.

(** [a === b]. *)
Definition strict_eq (a b : value) : bool := bool_decide (a = b).

(** [a || b]. *)
Definition or (a b : value) : value := if ToBoolean a then a else b.

Inductive exn : Type :=
| Error (message : string)
| TypeError (message : string)
| SyntaxError (message : string).

Definition message (e : exn) : string :=
  match e with
  | Error m | TypeError m | SyntaxError m => m
  end.

Inductive result (A : Type) : Type :=
| Ok (a : A)
| Throw (e : exn).
Arguments Ok {A} a.
Arguments Throw {A} e.

Definition bind {A B} (r : result A) (k : A -> result B) : result B :=
  match r with
  | Ok a => k a
  | Throw e => Throw e
  end.

(** [try { ... } catch (err) { throw new Error(prefix + err.message) }]. *)
Definition rethrow {A} (prefix : string) (r : result A) : result A :=
  match r with
  | Ok a => Ok a
  | Throw e => Throw (Error (prefix +:+ message e))
  end.

Fixpoint mapM {A B} (f : A -> result B) (l : list A) : result (list B) :=
  match l with
  | [] => Ok []
  | x :: l' => bind (f x) (fun y => bind (mapM f l') (fun ys => Ok (y :: ys)))
  end.

Fixpoint filterM {A} (f : A -> result bool) (l : list A) : result (list A) :=
  match l with
  | [] => Ok []
  | x :: l' =>
      bind (f x) (fun keep =>
      bind (filterM f l') (fun ys => Ok (if keep then x :: ys else ys)))
  end.

(** The engine's text for a read through [undefined], and for one through
    [null]. *)
Definition cannot_read (field : string) : exn :=
  TypeError ("Cannot read properties of undefined (reading '" +:+ field +:+ "')").

Definition cannot_read_null (field : string) : exn :=
  TypeError ("Cannot read properties of null (reading '" +:+ field +:+ "')").

(** [o.field] where [o] may be [undefined]. *)
Definition field_of {A B} (name : string) (o : option A) (get : A -> B) : result B :=
  match o with
  | Some a => Ok (get a)
  | None => Throw (cannot_read name)
  end.

(** [body.field] where [body], parsed from JSON, may be [null]. *)
Definition field_of_body {A B} (name : string) (body : option A) (get : A -> B)
  : result B :=
  match body with
  | Some a => Ok (get a)
  | None => Throw (cannot_read_null name)
  end.

(** [array[i]] for a number [i]. *)
Definition item (l : list value) (i : Z) : value :=
  if (i <? 0)%Z then VUndefined else default VUndefined (l !! Z.to_nat i).

Fixpoint indexOf_from (i : Z) (l : list value) (v : value) : Z :=
  match l with
  | [] => (-1)%Z
  | x :: l' => if strict_eq x v then i else indexOf_from (i + 1)%Z l' v
  end.

(** [array.indexOf(v)]. *)
Definition indexOf (l : list value) (v : value) : Z := indexOf_from 0 l v.

(** [array.find(p)], and the same with a callback that may throw. *)
Definition find {A} (p : A -> bool) (l : list A) : option A := List.find p l.

Fixpoint findM {A} (p : A -> result bool) (l : list A) : result (option A) :=
  match l with
  | [] => Ok None
  | x :: l' => bind (p x) (fun found => if found then Ok (Some x) else findM p l')
  end.

(** [object.field] on a bag of named values. *)
Definition get (o : gmap string value) (name : string) : value :=
  default VUndefined (o !! name).

(** [s.split(',')[0]]: the text before the first comma. *)
Fixpoint before_comma (s : string) : string :=
  match s with
  | EmptyString => ""
  | String c s' => if Ascii.eqb c "," then "" else String c (before_comma s')
  end.

(** [Array.prototype.sort(comparefn)].  The standard fixes the outcome for a
    consistent comparator: the elements in comparator order, equal ones in
    their original order; inserting each element in front of the sorted
    rest, past the elements it compares greater than, computes it.  A [NaN]
    from the comparator counts as [+0]. *)
Definition SortCompare {A} (comparefn : A -> A -> number) (x y : A) : number :=
  match comparefn x y with
  | NaN => Number.zero
  | v => v
  end.

Fixpoint insert {A} (comparefn : A -> A -> number) (x : A) (l : list A) : list A :=
  match l with
  | [] => [x]
  | y :: l' =>
      if Number.gtb (SortCompare comparefn x y) Number.zero
      then y :: insert comparefn x l'
      else x :: l
  end.

Fixpoint sort {A} (comparefn : A -> A -> number) (l : list A) : list A :=
  match l with
  | [] => []
  | x :: l' => insert comparefn x (sort comparefn l')
  end.

End Js.

Export Js(value, VUndefined, VNull, VString, result, Ok, Throw, Error, TypeError,
          SyntaxError).

Notation "x <- r ;; k" := (Js.bind r (fun x => k))
  (at level 100, r at next level, right associativity).


(** ** The data model *)

Abbreviation Bag := (gmap string value).

Definition Coordinates : Type := list (list (list number)).

(** A geometry in either dialect: GeoJSON has [coordinates], the boundary
    service has [rings]. *)
Record Geometry : Type := {
  geometry_type : value;
  rings : option Coordinates;
  coordinates : option Coordinates
}.

(** A feature in either dialect: GeoJSON has [properties], the boundary
    service has [attributes]. *)
Record Feature : Type := {
  feature_type : value;
  geometry : option Geometry;
  properties : option Bag;
  attributes : option Bag
}.

(** A geometry document; [features] may be missing. *)
Record GeoDoc : Type := {
  doc_type : value;
  features : option (list Feature)
}.

(** One row of [vacancyData]. *)
Record AreaStatistic : Type := {
  name : value;
  geoid : value;
  totalHousing : number;
  vacant : number;
  vacancyRate : string
}.

(** [stateStats] and [countyStats]. *)
Record Summary : Type := {
  summary_name : value;
  summary_totalHousing : number;
  summary_vacant : number;
  occupied : number;
  summary_vacancyRate : string
}.

(** ** The network

    [fetch] answers a request by rejecting, or with a response whose body
    [json()] parses or not.  A parsed body that is no table (respectively no
    object) is [None]. *)

Record Request : Type := {
  url : string;
  params : list (string * string)
}.

Inductive Fetched (Body : Type) : Type :=
| Rejected (e : Js.exn)
| Response (ok : bool) (status : N) (body : result Body).
Arguments Rejected {Body} e.
Arguments Response {Body} ok status body.

Definition Table : Type := list (list value).

Record Network : Type := {
  statistics : Request -> Fetched (option Table);
  boundaries : Request -> Fetched (option GeoDoc)
}.

(** [URLSearchParams.set] and [URLSearchParams.append]. *)
Fixpoint params_set (key v : string) (ps : list (string * string)) : list (string * string) :=
  match ps with
  | [] => [(key, v)]
  | (k, w) :: ps' =>
      if bool_decide (k = key) then (key, v) :: ps' else (k, w) :: params_set key v ps'
  end.

Definition params_append (key v : string) (ps : list (string * string)) : list (string * string) :=
  ps ++ [(key, v)].

(** ** The component *)

Module HousingStats.
Import Number NumText Js.

Definition baseUrl : string := "https://api.census.gov/data/2022/acs/acs5".
Definition tigerUrl : string :=
  "https://tigerweb.geo.census.gov/arcgis/rest/services/TIGERweb".
Definition statesUrl : string :=
  "https://raw.githubusercontent.com/PublicaMundi/MappingAPI/master/data/geojson/us-states.json".

Definition variables_totalHousing : string := "B25002_001E".
Definition variables_vacant : string := "B25002_003E".

(** Color function for vacancy rates. *)
Definition getColor (rate : number) : string :=
  if geb rate (of_Z 25) then "#a50f15" else
  if geb rate (of_Z 20) then "#de2d26" else
  if geb rate (of_Z 15) then "#fb6a4a" else
  if geb rate (of_Z 10) then "#fcae91" else
  if geb rate (of_Z 7) then "#fee5d9" else
  if geb rate (of_Z 5) then "#edf8e9" else
  if geb rate (of_Z 3) then "#bae4b3" else
  if geb rate (of_Z 1) then "#74c476" else
  "#238b45".

(** *** fetchGeoJSON *)

Definition initialParams : list (string * string) :=
  [("outFields", "*"); ("f", "json"); ("outSR", "4326"); ("returnGeometry", "true")].

(** [feature.properties.id === stateId]. *)
Definition hasStateId (stateId : string) (feature : Feature) : result bool :=
  id <- field_of "id" (properties feature) (fun p => get p "id");;
  Ok (strict_eq id (VString stateId)).

(** The query of the boundary service that follows the [switch] for the
    levels that leave it with [break]. *)
Definition queryBoundaries (net : Network) (request : Request) : result (option GeoDoc) :=
  match boundaries net request with
  | Rejected e => Throw e
  | Response ok status body =>
      if negb ok then Throw (Error ("HTTP error! status: " +:+ pretty status))
      else body
  end.

Definition fetchGeoJSON (net : Network) (level stateId countyId : string)
  : result (option GeoDoc) :=
  rethrow "Failed to fetch GeoJSON: "
    (if bool_decide (level = "state") then
       match boundaries net {| url := statesUrl; params := [] |} with
       | Rejected e => Throw e
       | Response _ _ body =>
           stateData <- body;;
           if bool_decide (stateId = "") then Ok stateData
           else
             all <- (fs <- field_of_body "features" stateData features;;
                     field_of "filter" fs id);;
             kept <- filterM (hasStateId stateId) all;;
             Ok (option_map (fun doc =>
                   {| doc_type := doc_type doc; features := Some kept |}) stateData)
       end
     else if bool_decide (level = "county") then
       let where_ :=
         if bool_decide (countyId = "") then "STATE='" +:+ stateId +:+ "'"
         else "STATE='" +:+ stateId +:+ "' AND COUNTY='" +:+ countyId +:+ "'" in
       queryBoundaries net
         {| url := tigerUrl +:+ "/State_County/MapServer/0/query";
            params := params_set "where" where_ initialParams |}
     else if bool_decide (level = "tract") then
       queryBoundaries net
         {| url := tigerUrl +:+ "/Tracts_Blocks/MapServer/2/query";
            params := params_set "where"
                        ("STATE='" +:+ stateId +:+ "' AND COUNTY='" +:+ countyId +:+ "'")
                        initialParams |}
     else Throw (Error "Invalid geography level")).

(** *** fetchVacancyData *)

Definition vacancyRateOf (totalHousing vacant : number) : string :=
  if gtb totalHousing zero
  then toFixed 1 (mul (div vacant totalHousing) (of_Z 100))
  else "0.0".

(** The callback of [rows.map]. *)
Definition rowToStatistic (headers row : list value) : AreaStatistic :=
  let totalHousing :=
    or_zero (parseInt (ToString
      (item row (indexOf headers (VString variables_totalHousing))))) in
  let vacant :=
    or_zero (parseInt (ToString
      (item row (indexOf headers (VString variables_vacant))))) in
  let vacancyRate := vacancyRateOf totalHousing vacant in
  {| name := item row 0;
     geoid := item row (Z.of_nat (length row) - 1);
     totalHousing := totalHousing;
     vacant := vacant;
     vacancyRate := vacancyRate |}.

Definition vacancyRequest (level stateId countyId : string) : Request :=
  let ps := [("get", "NAME," +:+ variables_totalHousing +:+ "," +:+ variables_vacant);
             ("for", level +:+ ":*")] in
  let ps :=
    if bool_decide (level = "state") then ps
    else
      let ps := params_append "in" ("state:" +:+ stateId) ps in
      if (bool_decide (level = "tract") || bool_decide (level = "block"))
         && negb (bool_decide (countyId = ""))
      then params_append "in" ("county:" +:+ countyId) ps
      else ps in
  {| url := baseUrl; params := ps |}.

Definition fetchVacancyData (net : Network) (level stateId countyId : string)
  : result (list AreaStatistic) :=
  rethrow "Failed to fetch vacancy data: "
    match statistics net (vacancyRequest level stateId countyId) with
    | Rejected e => Throw e
    | Response _ _ body =>
        parsed <- body;;
        match parsed with
        | None => Throw (TypeError "(intermediate value) is not iterable")
        | Some [] => Ok []
        | Some (headers :: rows) => Ok (map (rowToStatistic headers) rows)
        end
    end.

(** *** Component state

    The lists [states] and [counties] behind the two selectors take no part
    in what follows and are left out. *)

Record State : Type := {
  selectedState : string;
  selectedCounty : string;
  geoLevel : string;
  geoJsonData : option GeoDoc;
  vacancyData : list AreaStatistic;
  loading : bool;
  error : option string;
  stateStats : option Summary;
  countyStats : option Summary
}.

Definition initialState : State :=
  {| selectedState := ""; selectedCounty := ""; geoLevel := "state";
     geoJsonData := None; vacancyData := []; loading := false; error := None;
     stateStats := None; countyStats := None |}.

Definition setSelectedCounty (v : string) (st : State) : State :=
  {| selectedState := selectedState st; selectedCounty := v;
     geoLevel := geoLevel st; geoJsonData := geoJsonData st;
     vacancyData := vacancyData st; loading := loading st; error := error st;
     stateStats := stateStats st; countyStats := countyStats st |}.

Definition setGeoLevel (v : string) (st : State) : State :=
  {| selectedState := selectedState st; selectedCounty := selectedCounty st;
     geoLevel := v; geoJsonData := geoJsonData st;
     vacancyData := vacancyData st; loading := loading st; error := error st;
     stateStats := stateStats st; countyStats := countyStats st |}.

Definition setGeoJsonData (v : option GeoDoc) (st : State) : State :=
  {| selectedState := selectedState st; selectedCounty := selectedCounty st;
     geoLevel := geoLevel st; geoJsonData := v;
     vacancyData := vacancyData st; loading := loading st; error := error st;
     stateStats := stateStats st; countyStats := countyStats st |}.

Definition setVacancyData (v : list AreaStatistic) (st : State) : State :=
  {| selectedState := selectedState st; selectedCounty := selectedCounty st;
     geoLevel := geoLevel st; geoJsonData := geoJsonData st;
     vacancyData := v; loading := loading st; error := error st;
     stateStats := stateStats st; countyStats := countyStats st |}.

Definition setLoading (v : bool) (st : State) : State :=
  {| selectedState := selectedState st; selectedCounty := selectedCounty st;
     geoLevel := geoLevel st; geoJsonData := geoJsonData st;
     vacancyData := vacancyData st; loading := v; error := error st;
     stateStats := stateStats st; countyStats := countyStats st |}.

Definition setError (v : option string) (st : State) : State :=
  {| selectedState := selectedState st; selectedCounty := selectedCounty st;
     geoLevel := geoLevel st; geoJsonData := geoJsonData st;
     vacancyData := vacancyData st; loading := loading st; error := v;
     stateStats := stateStats st; countyStats := countyStats st |}.

Definition setCountyStats (v : option Summary) (st : State) : State :=
  {| selectedState := selectedState st; selectedCounty := selectedCounty st;
     geoLevel := geoLevel st; geoJsonData := geoJsonData st;
     vacancyData := vacancyData st; loading := loading st; error := error st;
     stateStats := stateStats st; countyStats := v |}.

(** *** Handler bodies

    A handler body changes the state as it goes and may stop by throwing;
    what it changed before the throw stays changed. *)

Definition Act (A : Type) : Type := State -> State * result A.

Definition ret {A} (a : A) : Act A := fun st => (st, Ok a).

Definition andThen {A B} (m : Act A) (k : A -> Act B) : Act B :=
  fun st =>
    match m st with
    | (st', Ok a) => k a st'
    | (st', Throw e) => (st', Throw e)
    end.

Definition set (f : State -> State) : Act unit := fun st => (f st, Ok tt).

Definition throw {A} (e : exn) : Act A := fun st => (st, Throw e).

Definition await {A} (r : result A) : Act A := fun st => (st, r).

(** [try { body } catch (err) { handler } finally { cleanup }], for a
    handler that does not throw, as none of the component's does. *)
Definition tryCatchFinally (body : Act unit) (handler : exn -> State -> State)
    (cleanup : State -> State) : State -> State :=
  fun st =>
    match body st with
    | (st', Ok _) => cleanup st'
    | (st', Throw e) => cleanup (handler e st')
    end.

Notation "'let*' x ':=' m 'in' k" := (andThen m (fun x => k))
  (at level 10, x name, m at level 100, k at level 200).
Notation "m ;;; k" := (andThen m (fun _ => k))
  (at level 100, right associativity).

(** [Promise.all] of two promises.  When both reject, the one the network
    fails first decides; the geometry's is taken. *)
Definition promiseAll {A B} (a : result A) (b : result B) : result (A * B) :=
  match a, b with
  | Ok x, Ok y => Ok (x, y)
  | Throw e, _ => Throw e
  | Ok _, Throw e => Throw e
  end.

(** A fetch cycle: what one call of the two fetchers was given. *)
Record Cycle : Type := {
  level : string;
  stateId : string;
  countyId : string
}.

(** What the awaited [Promise.all] of a cycle settles to. *)
Definition cycleOutcome (net : Network) (c : Cycle)
  : result (option GeoDoc * list AreaStatistic) :=
  promiseAll (fetchGeoJSON net (level c) (stateId c) (countyId c))
             (fetchVacancyData net (level c) (stateId c) (countyId c)).

(** *** updateMap *)

Definition updateMap_start (st : State) : State * option Cycle :=
  if bool_decide (selectedState st = "") then (st, None)
  else
    (setError None (setLoading true st),
     Some {| level := geoLevel st; stateId := selectedState st;
             countyId := selectedCounty st |}).

Definition hasFeatures (geoData : option GeoDoc) : bool :=
  match geoData with
  | Some doc => bool_decide (is_Some (features doc))
  | None => false
  end.

Definition updateMap_settle
    (outcome : result (option GeoDoc * list AreaStatistic)) : State -> State :=
  tryCatchFinally
    (let* both := await outcome in
     let '(geoData, vacData) := both in
     (if hasFeatures geoData then ret tt
      else throw (Error "Invalid GeoJSON data received"));;;
     set (setGeoJsonData geoData);;;
     set (setVacancyData vacData))
    (fun err => setError (Some (message err)))
    (setLoading false).

(** *** style *)

Record PathStyle : Type := {
  fillColor : string;
  weight : Z;
  opacity : Z;
  color : string;
  dashArray : string;
  fillOpacity : number
}.

(** [feature.properties.GEOID || feature.properties.id]. *)
Definition featureKey (feature : Feature) : result value :=
  field_of "GEOID" (properties feature) (fun p => or (get p "GEOID") (get p "id")).

Definition style (vacancyData : list AreaStatistic) (feature : Feature)
  : result PathStyle :=
  data <- findM (fun d => key <- featureKey feature;; Ok (strict_eq (geoid d) key))
            vacancyData;;
  let rate :=
    match data with
    | Some d => parseFloat (vacancyRate d)
    | None => zero
    end in
  Ok {| fillColor := getColor rate; weight := 1; opacity := 1; color := "#666";
        dashArray := ""; fillOpacity := parseFloat "0.7" |}.

(** *** handleCountySelect *)

Record CountyCycle : Type := {
  county_formattedStateId : string;
  county_formattedCountyId : string
}.

Definition handleCountySelect_start (countyId : string) (st : State)
  : State * option CountyCycle :=
  if loading st then (st, None)
  else
    let st' := setGeoLevel "county" (setCountyStats None (setSelectedCounty countyId st)) in
    if bool_decide (countyId = "") || bool_decide (selectedState st = "")
    then (st', None)
    else
      (setError None (setLoading true st'),
       Some {| county_formattedStateId := formattedStateId (selectedState st);
               county_formattedCountyId := formattedCountyId countyId |}).

Definition countyStatsRequest (c : CountyCycle) : Request :=
  {| url := baseUrl;
     params := [("get", "NAME," +:+ variables_totalHousing +:+ "," +:+ variables_vacant);
                ("for", "county:" +:+ county_formattedCountyId c);
                ("in", "state:" +:+ county_formattedStateId c)] |}.

Definition countyGeoRequest (c : CountyCycle) : Request :=
  {| url := tigerUrl +:+ "/arcgis/rest/services/Census2020/State_County/MapServer/1/query";
     params := [("where", "STATEFP='" +:+ county_formattedStateId c +:+
                          "' AND COUNTYFP='" +:+ county_formattedCountyId c +:+ "'");
                ("outFields", "STATEFP,COUNTYFP,NAME,GEOID");
                ("f", "json"); ("outSR", "4326"); ("returnGeometry", "true");
                ("spatialRel", "esriSpatialRelIntersects")] |}.

(** [await fetch(...)], giving the response's [ok] and its parsed body. *)
Definition responseOf {Body} (f : Fetched Body) : result (bool * result Body) :=
  match f with
  | Rejected e => Throw e
  | Response ok _ body => Ok (ok, body)
  end.

(** [countyRow[0].split(',')[0]]. *)
Definition beforeComma (v : value) : result value :=
  match v with
  | VString s => Ok (VString (before_comma s))
  | VNull => Throw (cannot_read_null "split")
  | VUndefined => Throw (cannot_read "split")
  end.

(** The callback of [geoData.features.map] in [handleCountySelect]. *)
Definition countyFeature (c : CountyCycle) (feature : Feature) : result Feature :=
  g <- field_of "type" (geometry feature) id;;
  Ok {| feature_type := VString "Feature";
        geometry := Some
          {| geometry_type :=
               if strict_eq (geometry_type g) (VString "esriGeometryPolygon")
               then VString "Polygon" else geometry_type g;
             rings := None;
             coordinates := match rings g with
                            | Some r => Some r
                            | None => coordinates g
                            end |};
        properties := Some
          (<["GEOID" := VString (county_formattedStateId c +:+ county_formattedCountyId c)]>
             (default ∅ (attributes feature)));
        attributes := None |}.

Definition handleCountySelect_settle (c : CountyCycle)
    (statsFetched : Fetched (option Table)) (geoFetched : Fetched (option GeoDoc))
  : State -> State :=
  tryCatchFinally
    (let* responses :=
       await (promiseAll (responseOf statsFetched) (responseOf geoFetched)) in
     let '(statsResponse, geoResponse) := responses in
     (if negb (fst statsResponse) || negb (fst geoResponse)
      then throw (Error "Failed to fetch county data") else ret tt);;;
     let* bodies :=
       await (promiseAll (snd statsResponse) (snd geoResponse)) in
     let '(statsData, geoData) := bodies in
     match statsData with
     | Some (headers :: countyRow :: _) =>
         match geoData with
         | Some {| features := Some (f :: fs) |} =>
             let totalHousing :=
               or_zero (parseInt (ToString
                 (item countyRow (indexOf headers (VString variables_totalHousing))))) in
             let vacant :=
               or_zero (parseInt (ToString
                 (item countyRow (indexOf headers (VString variables_vacant))))) in
             let vacancyRate := vacancyRateOf totalHousing vacant in
             let* statsName := await (beforeComma (item countyRow 0)) in
             set (setCountyStats (Some
               {| summary_name := statsName;
                  summary_totalHousing := totalHousing;
                  summary_vacant := vacant;
                  occupied := sub totalHousing vacant;
                  summary_vacancyRate := vacancyRate |}));;;
             let* converted := await (mapM (countyFeature c) (f :: fs)) in
             set (setGeoJsonData (Some
               {| doc_type := VString "FeatureCollection";
                  features := Some converted |}));;;
             let* areaName := await (beforeComma (item countyRow 0)) in
             set (setVacancyData
               [{| name := areaName;
                   geoid := VString (county_formattedStateId c +:+ county_formattedCountyId c);
                   totalHousing := totalHousing;
                   vacant := vacant;
                   vacancyRate := vacancyRate |}])
         | _ => throw (Error "Invalid geometry data received")
         end
     | _ => throw (Error "Invalid statistics data received")
     end)
    (fun err st =>
       setVacancyData [] (setGeoJsonData None (setCountyStats None
         (setError (Some ("Failed to load county data: " +:+ message err)) st))))
    (setLoading false).

(** *** handleGeoLevelChange *)

Definition handleGeoLevelChange_start (newLevel : string) (st : State)
  : State * option Cycle :=
  if bool_decide (newLevel = "tract") && bool_decide (selectedCounty st = "")
  then (setError (Some "Please select a county first") st, None)
  else
    (setError None (setLoading true (setGeoLevel newLevel st)),
     Some {| level := newLevel; stateId := selectedState st;
             countyId := selectedCounty st |}).

Definition handleGeoLevelChange_settle
    (outcome : result (option GeoDoc * list AreaStatistic)) : State -> State :=
  tryCatchFinally
    (let* both := await outcome in
     let '(geoData, vacData) := both in
     set (setGeoJsonData geoData);;;
     set (setVacancyData vacData))
    (fun err => setError (Some ("Failed to update geography level: " +:+ message err)))
    (setLoading false).

(** *** The statistics table *)

Definition byVacancyRateDescending (a b : AreaStatistic) : number :=
  sub (parseFloat (vacancyRate b)) (parseFloat (vacancyRate a)).

(** The rows of the table: [[...vacancyData].sort(...).slice(0, 10)]. *)
Definition tableRows (vacancyData : list AreaStatistic) : list AreaStatistic :=
  take 10 (sort byVacancyRateDescending vacancyData).

End HousingStats.

(** ** Map utilities *)

Module MapUtils.
Import Js.

(** The callback of [esriData.features.map]. *)
Definition esriFeature (feature : Feature) : result Feature :=
  g <- field_of "rings" (geometry feature) id;;
  a <- field_of "GEOID" (attributes feature) id;;
  Ok {| feature_type := VString "Feature";
        geometry := Some
          {| geometry_type := VString "Polygon";
             rings := None;
             coordinates := match rings g with
                            | Some r => Some r
                            | None => coordinates g
                            end |};
        properties := Some
          (<["id" := or (get a "GEOID")
                        (VString (ToString (or (get a "STATE") (VString "")) +:+
                                  ToString (or (get a "COUNTY") (VString "")) +:+
                                  ToString (or (get a "TRACT") (VString ""))))]> a);
        attributes := None |}.

Definition esriToGeoJSON (esriData : option GeoDoc) : result GeoDoc :=
  match esriData with
  | Some {| features := Some fs |} =>
      converted <- mapM esriFeature fs;;
      Ok {| doc_type := VString "FeatureCollection"; features := Some converted |}
  | _ => Throw (Error "Invalid ESRI JSON data")
  end.

End MapUtils.

(** The specification's reading of the conversion. *)

Module EsriSpec.

(** An identifier part: the attribute's text, empty when the attribute is
    missing. *)
Definition attributeText (a : Bag) (key : string) : string :=
  match a !! key with
  | Some (VString s) => s
  | _ => ""
  end.

(** The GeoJSON feature for an ESRI feature with geometry [g] and
    attributes [a]. *)
Definition converted (g : Geometry) (a : Bag) : Feature :=
  {| feature_type := VString "Feature";
     geometry := Some {| geometry_type := VString "Polygon"; rings := None;
                         coordinates := match rings g with
                                        | Some r => Some r
                                        | None => coordinates g
                                        end |};
     properties := Some
       (<["id" := Js.or (Js.get a "GEOID")
                     (VString (attributeText a "STATE" +:+ attributeText a "COUNTY"
                               +:+ attributeText a "TRACT"))]> a);
     attributes := None |}.

End EsriSpec.

(** ** A session at the geography-level selector

    The selector is disabled while [loading] is set.  A change of level runs
    [handleGeoLevelChange] up to its [await]; the render that follows sees a
    new [geoLevel], so the effect calls [updateMap], which runs up to its own
    [await].  Both cycles are then in flight and settle on their own. *)

Module Session.
Import HousingStats.

Inductive Origin : Type := ByHandler | ByEffect.

Record Pending : Type := {
  origin : Origin;
  request : Cycle;
  settled : bool
}.

Record World : Type := {
  app : State;
  cycles : list Pending
}.

Inductive Event : Type :=
| ChangeGeoLevel (newLevel : string)
| Settle (n : nat).

Definition started (o : Origin) (c : option Cycle) : list Pending :=
  match c with
  | Some c => [{| origin := o; request := c; settled := false |}]
  | None => []
  end.

Definition changeGeoLevel (newLevel : string) (w : World) : World :=
  if loading (app w) then w
  else
    let '(st1, c1) := handleGeoLevelChange_start newLevel (app w) in
    let '(st2, c2) :=
      if bool_decide (geoLevel st1 = geoLevel (app w)) then (st1, None)
      else updateMap_start st1 in
    {| app := st2; cycles := cycles w ++ started ByHandler c1 ++ started ByEffect c2 |}.

Definition settle (net : Network) (n : nat) (w : World) : World :=
  match cycles w !! n with
  | Some p =>
      if settled p then w
      else
        let outcome := cycleOutcome net (request p) in
        {| app := match origin p with
                  | ByHandler => handleGeoLevelChange_settle outcome (app w)
                  | ByEffect => updateMap_settle outcome (app w)
                  end;
           cycles := <[n := {| origin := origin p; request := request p;
                               settled := true |}]> (cycles w) |}
  | None => w
  end.

Definition step (net : Network) (w : World) (ev : Event) : World :=
  match ev with
  | ChangeGeoLevel newLevel => changeGeoLevel newLevel w
  | Settle n => settle net n w
  end.

Definition run (net : Network) (evs : list Event) (w : World) : World :=
  fold_left (step net) evs w.

(** The view model: what the map and the table show. *)
Definition viewModel (st : State) : option GeoDoc * list AreaStatistic :=
  (geoJsonData st, vacancyData st).

End Session.

(** ** Sample data *)

Module Sample.
Import HousingStats.

(** A state is selected, no county. *)
Definition stateOnly : State :=
  {| selectedState := "06"; selectedCounty := "";
     geoLevel := "state"; geoJsonData := None;
     vacancyData := []; loading := false;
     error := None; stateStats := None;
     countyStats := None |}.

(** A state and a county are selected. *)
Definition countyChosen : State :=
  setGeoLevel "county" (setSelectedCounty "037" stateOnly).

(** The header row of the statistical service and two of its rows. *)
Definition headers (area : string) : list value :=
  [VString "NAME"; VString "B25002_001E"; VString "B25002_003E"; VString area].

Definition california : list value :=
  [VString "California"; VString "1000"; VString "100"; VString "06"].

Definition losAngeles : list value :=
  [VString "Los Angeles County, California"; VString "3591981"; VString "209743";
   VString "06"; VString "037"].

(** A polygon of the boundary service. *)
Definition square : Coordinates :=
  [[[Number.of_Z 0; Number.of_Z 0]; [Number.of_Z 0; Number.of_Z 1];
    [Number.of_Z 1; Number.of_Z 1]; [Number.of_Z 0; Number.of_Z 0]]].

Definition esriCounty : Feature :=
  {| feature_type := VUndefined;
     geometry := Some {| geometry_type := VUndefined; rings := Some square;
                         coordinates := None |};
     properties := None;
     attributes := Some (<["STATE" := VString "06"]> (<["COUNTY" := VString "037"]>
                          (<["NAME" := VString "Los Angeles"]> ∅))) |}.

(** A view model on screen: one feature and its statistic. *)
Definition shownFeature : Feature :=
  {| feature_type := VString "Feature";
     geometry := Some {| geometry_type := VString "Polygon"; rings := None;
                         coordinates := Some square |};
     properties := Some (<["GEOID" := VString "06037"]> ∅);
     attributes := None |}.

Definition shownStatistic : AreaStatistic :=
  {| name := VString "Los Angeles County"; geoid := VString "06037";
     totalHousing := Number.of_Z 80; vacant := Number.of_Z 23;
     vacancyRate := "28.7" |}.

Definition ready : State :=
  setVacancyData [shownStatistic]
    (setGeoJsonData (Some {| doc_type := VString "FeatureCollection";
                             features := Some [shownFeature] |}) countyChosen).

(** A county cycle for Los Angeles. *)
Definition losAngelesCycle : CountyCycle :=
  {| county_formattedStateId := "06"; county_formattedCountyId := "037" |}.

(** The boundary service answering with no feature. *)
Definition noFeatures : Fetched (option GeoDoc) :=
  Response true 200 (Ok (Some {| doc_type := VUndefined; features := Some [] |})).

Definition countyTable : Fetched (option Table) :=
  Response true 200 (Ok (Some [headers "county"; losAngeles])).

End Sample.

(** ** A sample network

    The boundary service answers every query with one feature and names the
    queried layer in the document; the statistical service answers with one
    row named after the queried level. *)

Module SampleNetwork.
Import HousingStats.

Definition param (key : string) (r : Request) : string :=
  match List.find (fun p => bool_decide (fst p = key)) (params r) with
  | Some p => snd p
  | None => ""
  end.

Definition net : Network :=
  {| statistics := fun r =>
       Response true 200 (Ok (Some
         [Sample.headers "area";
          [VString (param "for" r); VString "80"; VString "23"; VString "037"]]));
     boundaries := fun r =>
       Response true 200 (Ok (Some
         {| doc_type := VString (url r); features := Some [Sample.shownFeature] |})) |}.

(** State and county chosen, level [county], nothing in flight. *)
Definition idle : Session.World :=
  {| Session.app := Sample.countyChosen; Session.cycles := [] |}.

(** The level is changed to [tract]; the handler's cycle settles, which
    enables the selector again; the level is changed back to [county] and
    both of that change's cycles settle; only then does the [updateMap]
    cycle of the first change settle. *)
Definition overtaken : list Session.Event :=
  [Session.ChangeGeoLevel "tract"; Session.Settle 0;
   Session.ChangeGeoLevel "county"; Session.Settle 2; Session.Settle 3;
   Session.Settle 1].

Definition tractCycle : Cycle :=
  {| level := "tract"; stateId := "06"; countyId := "037" |}.

Definition countyCycle : Cycle :=
  {| level := "county"; stateId := "06"; countyId := "037" |}.

(** What the two cycles fetch. *)
Definition viewOf (layer forLevel : string) : option GeoDoc * list AreaStatistic :=
  (Some {| doc_type := VString (tigerUrl +:+ layer);
           features := Some [Sample.shownFeature] |},
   [rowToStatistic (Sample.headers "area")
      [VString forLevel; VString "80"; VString "23"; VString "037"]]).

Definition tractView : option GeoDoc * list AreaStatistic :=
  viewOf "/Tracts_Blocks/MapServer/2/query" "tract:*".

Definition countyView : option GeoDoc * list AreaStatistic :=
  viewOf "/State_County/MapServer/0/query" "county:*".

(** The session up to the point where the [updateMap] cycles of both
    changes are in flight. *)
Definition bothInFlight : Session.World :=
  Session.run net
    [Session.ChangeGeoLevel "tract"; Session.Settle 0;
     Session.ChangeGeoLevel "county"; Session.Settle 2] idle.

End SampleNetwork.

(** Statistics with tied rates. *)

Module SampleTable.

Definition area (areaName rate : string) : AreaStatistic :=
  {| name := VString areaName; geoid := VString areaName;
     totalHousing := Number.of_Z 1000; vacant := Number.of_Z 0;
     vacancyRate := rate |}.

Definition tied : list AreaStatistic :=
  [area "a" "5.0"; area "b" "12.5"; area "c" "5.0"; area "d" "12.5"; area "e" "0.0"].

End SampleTable.

(** The statistical service answering a state query with the row for
    California. *)
Definition censusStates : Network :=
  {| statistics := fun _ =>
       Response true 200 (Ok (Some [Sample.headers "state"; Sample.california]));
     boundaries := fun _ => Rejected (TypeError "Failed to fetch") |}.

(** ** The selectors: loading the lists and choosing a state

    [loadStates], [loadCounties] and [handleStateSelect] of [src/App.jsx],
    on the component state widened by the two lists behind the selectors. *)

Module Selection.
Import Number NumText Js.
Import -(notations) HousingStats.

(** [String.prototype.trim], for ASCII white space. *)
Definition trim (s : string) : string :=
  String.rev (skip_spaces (String.rev (skip_spaces s))).

(** [v.method(...)] on a cell: only a string has the method. *)
Definition text_of (method : string) (v : value) : result string :=
  match v with
  | VString s => Ok s
  | VNull =>
      Throw (TypeError ("Cannot read properties of null (reading '" +:+ method +:+ "')"))
  | VUndefined => Throw (cannot_read method)
  end.

(** What [response.json()] of the statistical service parses to: [null], a
    table, or an object that is no array. *)
Inductive Parsed : Type :=
| NullBody
| ObjectBody
| TableBody (t : Table).

(** An entry of [states] and an entry of [counties]. *)
Record StateOption : Type := {
  state_name : string;
  state_id : string
}.

Record CountyOption : Type := {
  county_name : string;
  county_id : string;
  county_stateId : string
}.

(** The component state with its two lists. *)
Record Page : Type := {
  component : State;
  states : list StateOption;
  counties : list CountyOption
}.

Definition initialPage : Page :=
  {| component := initialState; states := []; counties := [] |}.

Definition onComponent (f : State -> State) (pg : Page) : Page :=
  {| component := f (component pg); states := states pg; counties := counties pg |}.

Definition setStates (v : list StateOption) (pg : Page) : Page :=
  {| component := component pg; states := v; counties := counties pg |}.

Definition setCounties (v : list CountyOption) (pg : Page) : Page :=
  {| component := component pg; states := states pg; counties := v |}.

Definition setSelectedState (v : string) (st : State) : State :=
  {| selectedState := v; selectedCounty := selectedCounty st;
     geoLevel := geoLevel st; geoJsonData := geoJsonData st;
     vacancyData := vacancyData st; loading := loading st; error := error st;
     stateStats := stateStats st; countyStats := countyStats st |}.

Definition setStateStats (v : option Summary) (st : State) : State :=
  {| selectedState := selectedState st; selectedCounty := selectedCounty st;
     geoLevel := geoLevel st; geoJsonData := geoJsonData st;
     vacancyData := vacancyData st; loading := loading st; error := error st;
     stateStats := v; countyStats := countyStats st |}.

(** Handler bodies over the widened state. *)

Definition Task (A : Type) : Type := Page -> Page * result A.

Definition ret {A} (a : A) : Task A := fun pg => (pg, Ok a).

Definition andThen {A B} (m : Task A) (k : A -> Task B) : Task B :=
  fun pg =>
    match m pg with
    | (pg', Ok a) => k a pg'
    | (pg', Throw e) => (pg', Throw e)
    end.

Definition set (f : Page -> Page) : Task unit := fun pg => (f pg, Ok tt).

Definition throw {A} (e : exn) : Task A := fun pg => (pg, Throw e).

Definition await {A} (r : result A) : Task A := fun pg => (pg, r).

Definition tryCatchFinally (body : Task unit) (handler : exn -> Page -> Page)
    (cleanup : Page -> Page) : Page -> Page :=
  fun pg =>
    match body pg with
    | (pg', Ok _) => cleanup pg'
    | (pg', Throw e) => cleanup (handler e pg')
    end.

Notation "'let*' x ':=' m 'in' k" := (andThen m (fun x => k))
  (at level 10, x name, m at level 100, k at level 200).
Notation "m ;;; k" := (andThen m (fun _ => k))
  (at level 100, right associativity).

(** [await fetch(...)], the test of [response.ok] that both loaders make,
    and [await response.json()]. *)
Definition okBody {Body} (f : Fetched Body) : result Body :=
  match f with
  | Rejected e => Throw e
  | Response ok status body =>
      if negb ok then Throw (Error ("HTTP error! status: " +:+ pretty status))
      else body
  end.

(** [await fetch(...)], giving the response's [ok], its [status] and its
    parsed body. *)
Definition responded {Body} (f : Fetched Body) : result (bool * N * result Body) :=
  match f with
  | Rejected e => Throw e
  | Response ok status body => Ok (ok, status, body)
  end.

Definition statesRequest : Request :=
  {| url := baseUrl; params := [("get", "NAME"); ("for", "state:*")] |}.

Definition countiesRequest (stateId : string) : Request :=
  {| url := baseUrl;
     params := [("get", "NAME"); ("for", "county:*");
                ("in", "state:" +:+ formattedStateId stateId)] |}.

Definition stateStatsRequest (stateId : string) : Request :=
  {| url := baseUrl;
     params := [("get", "NAME," +:+ variables_totalHousing +:+ "," +:+ variables_vacant);
                ("for", "state:" +:+ stateId)] |}.

Definition statesGeoRequest : Request := {| url := statesUrl; params := [] |}.

(** The callback of [data.slice(1).map] in [loadStates]. *)
Definition stateOption (row : list value) : result StateOption :=
  name <- text_of "trim" (item row 0);;
  id <- text_of "padStart" (item row 1);;
  Ok {| state_name := trim name; state_id := formattedStateId id |}.

(** The callback of [data.slice(1).map] in [loadCounties]. *)
Definition countyOption (row : list value) : result CountyOption :=
  name <- text_of "split" (item row 0);;
  id <- text_of "padStart" (item row 2);;
  stateId <- text_of "padStart" (item row 1);;
  Ok {| county_name := trim (before_comma name);
        county_id := formattedCountyId id;
        county_stateId := formattedStateId stateId |}.

Section Collation.

(** [String.prototype.localeCompare] depends on the host's locale. *)
Variable localeCompare : string -> string -> number.

Definition byStateName (a b : StateOption) : number :=
  localeCompare (state_name a) (state_name b).

Definition byCountyName (a b : CountyOption) : number :=
  localeCompare (county_name a) (county_name b).

(** *** loadStates *)

Definition loadStates_start (pg : Page) : Page * option Request :=
  if loading (component pg) then (pg, None)
  else
    (onComponent (setError None) (onComponent (setLoading true) pg), Some statesRequest).

Definition loadStates_settle (fetched : Fetched Parsed) : Page -> Page :=
  tryCatchFinally
    (let* data := await (okBody fetched) in
     let* statesData :=
       await (rows <- match data with
                      | TableBody t => Ok (tail t)
                      | NullBody =>
                          Throw (TypeError "Cannot read properties of null (reading 'slice')")
                      | ObjectBody => Throw (TypeError "data.slice is not a function")
                      end;;
              options <- mapM stateOption rows;;
              Ok (sort byStateName options)) in
     set (setStates statesData))
    (fun err =>
       onComponent (setError (Some ("Failed to load states: " +:+ message err))))
    (onComponent (setLoading false)).

(** *** loadCounties *)

Definition loadCounties_start (stateId : string) (pg : Page) : Page * option Request :=
  if bool_decide (stateId = "") then (pg, None)
  else
    (onComponent (setError None) (onComponent (setLoading true) pg),
     Some (countiesRequest stateId)).

Definition loadCounties_settle (fetched : Fetched Parsed) : Page -> Page :=
  tryCatchFinally
    (let* data := await (okBody fetched) in
     let* rows :=
       await match data with
             | NullBody => Throw (Error "Invalid county data received")
             | TableBody t =>
                 if (length t <? 2)%nat
                 then Throw (Error "Invalid county data received")
                 else Ok (tail t)
             | ObjectBody => Throw (TypeError "data.slice is not a function")
             end in
     let* countiesData :=
       await (options <- mapM countyOption rows;;
              Ok (sort byCountyName options)) in
     set (setCounties countiesData))
    (fun err pg =>
       setCounties []
         (onComponent (setError (Some ("Failed to load counties: " +:+ message err))) pg))
    (onComponent (setLoading false)).

(** *** handleStateSelect

    The handler runs up to [await loadCounties(stateId)], that is up to the
    [await] inside [loadCounties]; [loadCounties] then runs to its end, and
    the handler goes on to the two fetches and to what follows them. *)

Definition handleStateSelect_start (stateId : string) (pg : Page)
  : Page * option Request :=
  let pg :=
    onComponent (setVacancyData [])
      (onComponent (setGeoJsonData None)
        (onComponent (setError None)
          (onComponent (setCountyStats None)
            (onComponent (setStateStats None)
              (setCounties []
                (onComponent (setSelectedCounty "") pg)))))) in
  if bool_decide (stateId = "") then (onComponent (setSelectedState "") pg, None)
  else
    loadCounties_start stateId
      (onComponent (setGeoLevel "state")
        (onComponent (setSelectedState stateId)
          (onComponent (setLoading true) pg))).

Definition handleStateSelect_settle (stateId : string)
    (statsFetched : Fetched Parsed) (geoFetched : Fetched (option GeoDoc))
  : Page -> Page :=
  tryCatchFinally
    (let* responses :=
       await (promiseAll (responded statsFetched) (responded geoFetched)) in
     let '(statsResponse, geoResponse) := responses in
     (if negb (fst (fst statsResponse))
      then throw (Error ("Failed to load state data: " +:+ pretty (snd (fst statsResponse))))
      else ret tt);;;
     let* bodies :=
       await (promiseAll (snd statsResponse) (snd geoResponse)) in
     let '(statsData, geoData) := bodies in
     let* table :=
       await match statsData with
             | NullBody => Throw (Error "Invalid state data received")
             | TableBody (headers :: stateRow :: _) => Ok (headers, stateRow)
             | TableBody _ => Throw (Error "Invalid state data received")
             | ObjectBody => Throw (TypeError "statsData is not iterable")
             end in
     let '(headers, stateRow) := table in
     let totalHousing :=
       or_zero (parseInt (ToString
         (item stateRow (indexOf headers (VString variables_totalHousing))))) in
     let vacant :=
       or_zero (parseInt (ToString
         (item stateRow (indexOf headers (VString variables_vacant))))) in
     let vacancyRate := vacancyRateOf totalHousing vacant in
     set (onComponent (setStateStats (Some
       {| summary_name := item stateRow 0;
          summary_totalHousing := totalHousing;
          summary_vacant := vacant;
          occupied := sub totalHousing vacant;
          summary_vacancyRate := vacancyRate |})));;;
     let* kept :=
       await (all <- (fs <- field_of_body "features" geoData features;;
                      field_of "filter" fs id);;
              filterM (hasStateId stateId) all) in
     set (onComponent (setGeoJsonData (Some
       {| doc_type := VString "FeatureCollection"; features := Some kept |})));;;
     set (onComponent (setVacancyData
       [{| name := item stateRow 0;
           geoid := VString stateId;
           totalHousing := totalHousing;
           vacant := vacant;
           vacancyRate := vacancyRate |}])))
    (fun err pg =>
       onComponent (setSelectedState "")
         (onComponent (setError (Some ("Failed to load state data: " +:+ message err))) pg))
    (onComponent (setLoading false)).

(** The two services as the selectors use them. *)
Record Services : Type := {
  census : Request -> Fetched Parsed;
  geography : Request -> Fetched (option GeoDoc)
}.

(** The two loaders run from their call to their end; neither writes a
    dependency of the effect. *)
Definition loadStates (svc : Services) (pg : Page) : Page :=
  match loadStates_start pg with
  | (pg', Some request) => loadStates_settle (census svc request) pg'
  | (pg', None) => pg'
  end.


End Collation.

(** *** What the effect does while a handler awaits

    A handler that writes the selection or the level makes the effect call
    [updateMap], which runs up to its [await]; its cycle settles on its
    own, before, between or after the continuations of the handler. *)

Inductive EffectEvent : Type :=
| EffectStarts
| EffectSettles (outcome : result (option GeoDoc * list AreaStatistic)).

Definition effectEvent (ev : EffectEvent) : Page -> Page :=
  match ev with
  | EffectStarts => onComponent (fun st => fst (updateMap_start st))
  | EffectSettles outcome => onComponent (updateMap_settle outcome)
  end.

Definition meanwhile (evs : list EffectEvent) (pg : Page) : Page :=
  fold_left (fun pg ev => effectEvent ev pg) evs pg.

End Selection.

(** ** Popups and hovering

    [createPopupContent] and [onEachFeature] of [src/App.jsx].  What
    [onEachFeature] does to the layer it is given is kept as the calls it
    makes on it, and the two handlers it registers as the calls they make
    when they run. *)

Module Popups.
Import Number NumText Js HousingStats.

Definition newline : string := String "010" "".

(** An attribute value between double quotes. *)
Definition quoted (s : string) : string := String "034" (s +:+ String "034" "").

Definition line (indent : nat) (s : string) : string :=
  newline +:+ Str.repeat indent " " +:+ s.

(** The options a call of [setStyle] names. *)
Record PathOptions : Type := {
  set_fillColor : option string;
  set_weight : option Z;
  set_opacity : option Z;
  set_color : option string;
  set_dashArray : option string;
  set_fillOpacity : option number
}.

Definition allOf (s : PathStyle) : PathOptions :=
  {| set_fillColor := Some (fillColor s); set_weight := Some (weight s);
     set_opacity := Some (opacity s); set_color := Some (color s);
     set_dashArray := Some (dashArray s); set_fillOpacity := Some (fillOpacity s) |}.

Inductive LayerCall : Type :=
| bindPopup (content : string)
| setStyle (options : PathOptions)
| bringToFront.

Record Handlers : Type := {
  mouseover : list LayerCall;
  mouseout : result (list LayerCall)
}.

Section Locale.

(** [Number.prototype.toLocaleString] depends on the host's locale. *)
Variable toLocaleString : number -> string.

Definition createPopupContent (data : option AreaStatistic) : string :=
  match data with
  | None => ""
  | Some data =>
      let occupiedUnits := sub (totalHousing data) (vacant data) in
      let occupancyRate := toFixed 1 (sub (of_Z 100) (parseFloat (vacancyRate data))) in
      line 6 ("<div class=" +:+ quoted "p-4" +:+ ">")
      +:+ line 8 ("<h3 class=" +:+ quoted "text-lg font-bold mb-2" +:+ ">"
                  +:+ ToString (name data) +:+ "</h3>")
      +:+ line 8 ("<div class=" +:+ quoted "grid grid-cols-2 gap-2" +:+ ">")
      +:+ line 10 "<div>"
      +:+ line 12 ("<div class=" +:+ quoted "text-sm font-medium" +:+ ">Vacancy Rate</div>")
      +:+ line 12 ("<div class=" +:+ quoted "text-xl font-bold" +:+ ">"
                   +:+ vacancyRate data +:+ "%</div>")
      +:+ line 10 "</div>"
      +:+ line 10 "<div>"
      +:+ line 12 ("<div class=" +:+ quoted "text-sm font-medium" +:+ ">Total Units</div>")
      +:+ line 12 ("<div class=" +:+ quoted "text-xl font-bold" +:+ ">"
                   +:+ toLocaleString (totalHousing data) +:+ "</div>")
      +:+ line 10 "</div>"
      +:+ line 8 "</div>"
      +:+ line 6 "</div>"
      +:+ line 4 ""
  end.

Definition onEachFeature (vacancyData : list AreaStatistic) (feature : Feature)
  : result (list LayerCall * Handlers) :=
  data <- findM (fun d => key <- featureKey feature;; Ok (strict_eq (geoid d) key))
            vacancyData;;
  Ok (match data with
      | Some _ => [bindPopup (createPopupContent data)]
      | None => []
      end,
      {| mouseover :=
           [setStyle {| set_fillColor := None; set_weight := Some 2%Z;
                        set_opacity := None; set_color := Some "#666";
                        set_dashArray := Some "";
                        set_fillOpacity := Some (parseFloat "0.9") |};
            bringToFront];
         mouseout := s <- style vacancyData feature;; Ok [setStyle (allOf s)] |}).

End Locale.

End Popups.

(** ** The map component

    [MapComponent] and [MapUpdater] of the map component's file: which
    children are rendered, and what the effect of [MapUpdater] does with
    the map library. *)

Module MapComponent.
Import Js.

Inductive Child : Type :=
| GeoJSON (data : GeoDoc)
| MapUpdaterOf (geoJsonData : GeoDoc).

(** The children rendered besides the controls and the tile layers. *)
Definition MapComponent (geoJsonData : option GeoDoc) : list Child :=
  match geoJsonData with
  | Some doc =>
      match features doc with
      | Some _ => [GeoJSON doc; MapUpdaterOf doc]
      | None => []
      end
  | None => []
  end.

(** How the effect of [MapUpdater] ends: it did nothing, it fitted the map
    to the bounds of the data, or it caught a failure and wrote it to the
    console. *)
Inductive Fit : Type :=
| Skipped
| Fitted
| Logged (label : string) (err : exn).

Section Leaflet.

(** [L.geoJSON], [getBounds] and [map.fitBounds] are the map library's;
    each may throw. *)
Variables Layer Bounds : Type.
Variable geoJSON : GeoDoc -> result Layer.
Variable getBounds : Layer -> result Bounds.
Variable fitBounds : Bounds -> Z * Z -> result unit.

Definition MapUpdater (geoJsonData : option GeoDoc) : Fit :=
  match geoJsonData with
  | Some doc =>
      match features doc with
      | Some (_ :: _) =>
          match (geoJsonLayer <- geoJSON doc;;
                 bounds <- getBounds geoJsonLayer;;
                 fitBounds bounds (50, 50)%Z) with
          | Ok _ => Fitted
          | Throw err => Logged "Error fitting bounds:" err
          end
      | _ => Skipped
      end
  | None => Skipped
  end.

End Leaflet.

Arguments MapUpdater {Layer Bounds} geoJSON getBounds fitBounds geoJsonData.

End MapComponent.

(** The selectors' sample data. *)

Module SampleSelection.
Import Selection.

(** Strings compared by their first code units, as [localeCompare] does for
    capital letters. *)
Definition byCodeUnit (a b : string) : number :=
  match a, b with
  | String x _, String y _ =>
      Number.of_Z (Z.of_nat (nat_of_ascii x) - Z.of_nat (nat_of_ascii y))
  | String _ _, EmptyString => Number.of_Z 1
  | EmptyString, String _ _ => Number.of_Z (-1)
  | EmptyString, EmptyString => Number.zero
  end.

Definition stateTable : Table :=
  [[VString "NAME"; VString "state"];
   [VString "California"; VString "6"];
   [VString " Alabama "; VString "01"]].

Definition countyTable : Table :=
  [[VString "NAME"; VString "state"; VString "county"];
   [VString "Los Angeles County, California"; VString "6"; VString "37"];
   [VString "Alameda County, California"; VString "06"; VString "001"]].

Definition statsTable : Table :=
  [Sample.headers "state"; Sample.california].

(** A state of the boundary file with its id among the properties. *)
Definition californiaFeature : Feature :=
  {| feature_type := VString "Feature";
     geometry := Some {| geometry_type := VString "Polygon"; rings := None;
                         coordinates := Some Sample.square |};
     properties := Some (<["id" := VString "06"]> (<["name" := VString "California"]> ∅));
     attributes := None |}.

Definition alabamaFeature : Feature :=
  {| feature_type := VString "Feature";
     geometry := Some {| geometry_type := VString "Polygon"; rings := None;
                         coordinates := Some Sample.square |};
     properties := Some (<["id" := VString "01"]> (<["name" := VString "Alabama"]> ∅));
     attributes := None |}.

Definition services : Services :=
  {| census := fun r =>
       if bool_decide (SampleNetwork.param "for" r = "county:*")
       then Response true 200 (Ok (TableBody countyTable))
       else if bool_decide (SampleNetwork.param "for" r = "state:*")
       then Response true 200 (Ok (TableBody stateTable))
       else Response true 200 (Ok (TableBody statsTable));
     geography := fun _ =>
       Response true 200 (Ok (Some
         {| doc_type := VString "FeatureCollection";
            features := Some [alabamaFeature; californiaFeature] |})) |}.

End SampleSelection.

(** ** The legend

    The swatches of [Legend] of [src/App.jsx], from the top of the legend
    to its bottom; the labels beside them are left out. *)

Module Display.

Definition Legend : list string :=
  ["#a50f15"; "#de2d26"; "#fb6a4a"; "#fcae91"; "#fee5d9"; "#edf8e9"; "#bae4b3";
   "#74c476"; "#238b45"].

End Display.

(** ** The older copy of the component

    [fetchGeoJSON] as the older copy of the component has it.  At the level
    [state] the promise of the fetch is returned without being awaited, so
    the [catch] around it does not see its failure. *)

Module Legacy.
Import Js.

Definition queryParams (stateId countyId : string) : list (string * string) :=
  [("outFields", "*"); ("f", "geojson");
   ("where", "STATE='" +:+ stateId +:+ "'" +:+
             (if bool_decide (countyId = "") then ""
              else " AND COUNTY='" +:+ countyId +:+ "'"))].

(** [await fetch(url)] and [await response.json()]. *)
Definition fetched (net : Network) (request : Request) : result (option GeoDoc) :=
  match boundaries net request with
  | Rejected e => Throw e
  | Response _ _ body => body
  end.

Definition fetchGeoJSON (net : Network) (level stateId countyId : string)
  : result (option GeoDoc) :=
  if bool_decide (level = "state")
  then fetched net {| url := HousingStats.statesUrl; params := [] |}
  else
    rethrow "Failed to fetch GeoJSON: "
      (if bool_decide (level = "county") then
         fetched net {| url := HousingStats.tigerUrl +:+ "/State_County/MapServer/0/query";
                        params := queryParams stateId countyId |}
       else if bool_decide (level = "tract") then
         fetched net {| url := HousingStats.tigerUrl +:+ "/Tracts_Blocks/MapServer/2/query";
                        params := queryParams stateId countyId |}
       else if bool_decide (level = "block") then
         fetched net {| url := HousingStats.tigerUrl +:+ "/Tracts_Blocks/MapServer/1/query";
                        params := queryParams stateId countyId |}
       else Throw (Error "Invalid geography level")).

End Legacy.

(** * Properties *)

(** ** Identifier formatting *)

Module StrFacts.
Import Str.

Lemma length_append (s t : string) :
  String.length (s +:+ t) = (String.length s + String.length t)%nat.
Proof. induction s as [|c s IH]; simpl; [reflexivity | now rewrite IH]. Qed.

Lemma all_digits_append (s t : string) :
  all_digits (s +:+ t) = all_digits s && all_digits t.
Proof.
  induction s as [|c s IH]; simpl; [reflexivity|].
  now rewrite IH, andb_assoc.
Qed.

Lemma padStart_long n p s :
  (n <= String.length s)%nat -> padStart n p s = s.
Proof.
  intros H. unfold padStart.
  destruct (Nat.leb_spec n (String.length s)); [reflexivity | lia].
Qed.

Lemma substring_whole (s : string) : substring 0 (String.length s) s = s.
Proof. induction s as [|c s IH]; simpl; [reflexivity | now rewrite IH]. Qed.

Lemma length_repeat_char (n : nat) (c : ascii) :
  String.length (repeat n (String c "")) = n.
Proof. induction n as [|n IH]; simpl; [reflexivity | f_equal; exact IH]. Qed.

Lemma substring_repeat_char (n : nat) (c : ascii) :
  substring 0 n (repeat n (String c "")) = repeat n (String c "").
Proof.
  pose proof (substring_whole (repeat n (String c ""))) as H.
  now rewrite length_repeat_char in H.
Qed.

(** Padding with a one-character filler brings any shorter string to the
    target length, and never shortens. *)
Lemma padStart_char (n : nat) (c : ascii) (s : string) :
  padStart n (String c "") s = repeat (n - String.length s) (String c "") +:+ s.
Proof.
  unfold padStart.
  destruct (Nat.leb_spec n (String.length s)) as [Hle|Hlt].
  - replace (n - String.length s)%nat with 0%nat by lia. reflexivity.
  - destruct (decide (String c "" = "")) as [Hc|_]; [discriminate Hc|].
    now rewrite substring_repeat_char.
Qed.

Lemma length_padStart_char (n : nat) (c : ascii) (s : string) :
  String.length (padStart n (String c "") s) = Nat.max n (String.length s).
Proof.
  rewrite padStart_char, length_append, length_repeat_char. lia.
Qed.

Lemma padStart_idempotent (n : nat) (c : ascii) (s : string) :
  padStart n (String c "") (padStart n (String c "") s) = padStart n (String c "") s.
Proof.
  apply padStart_long. rewrite length_padStart_char. lia.
Qed.

Lemma all_digits_repeat_zero (n : nat) : all_digits (repeat n "0") = true.
Proof. induction n as [|n IH]; simpl; [reflexivity | exact IH]. Qed.

End StrFacts.

(** C9.  For every raw state id of one or two digits, [formattedStateId]
    gives a string of exactly two characters, all digits, which is the raw
    id with zeros put in front; formatting an already formatted id returns
    it unchanged. *)
Theorem formattedStateId_two_digits (raw : string) :
  (1 <= String.length raw <= 2)%nat ->
  Str.all_digits raw = true ->
  String.length (formattedStateId raw) = 2%nat
  /\ Str.all_digits (formattedStateId raw) = true
  /\ formattedStateId raw = Str.repeat (2 - String.length raw) "0" +:+ raw
  /\ formattedStateId (formattedStateId raw) = formattedStateId raw.
Proof.
  intros Hlen Hdig. unfold formattedStateId.
  split; [|split; [|split]].
  - rewrite StrFacts.length_padStart_char. lia.
  - rewrite StrFacts.padStart_char, StrFacts.all_digits_append,
      StrFacts.all_digits_repeat_zero, Hdig. reflexivity.
  - apply StrFacts.padStart_char.
  - apply StrFacts.padStart_idempotent.
Qed.

Lemma formattedStateId_two_digits_witness :
  String.length (formattedStateId "6") = 2%nat
  /\ Str.all_digits (formattedStateId "6") = true
  /\ formattedStateId "6" = Str.repeat (2 - String.length "6") "0" +:+ "6"
  /\ formattedStateId (formattedStateId "6") = formattedStateId "6".
Proof.
  apply (formattedStateId_two_digits "6"); [simpl; lia | reflexivity].
Defined.

Example formattedStateId_examples :
  formattedStateId "6" = "06" /\ formattedStateId "06" = "06"
  /\ formattedStateId "" = "00" /\ formattedCountyId "37" = "037".
Proof. repeat split. Qed.

(** ** The geometry fetcher and its levels *)

Module GeometryFacts.
Import Js HousingStats.

(** Any level other than the three the [switch] names reaches [default]. *)
Lemma fetchGeoJSON_default (net : Network) (level stateId countyId : string) :
  level <> "state" -> level <> "county" -> level <> "tract" ->
  fetchGeoJSON net level stateId countyId
  = Throw (Error "Failed to fetch GeoJSON: Invalid geography level").
Proof.
  intros Hs Hc Ht. unfold fetchGeoJSON.
  rewrite !bool_decide_eq_false_2 by assumption. reflexivity.
Qed.

(** With the boundary service answering, the three named levels give its
    document back. *)
Lemma fetchGeoJSON_county (net : Network) (stateId countyId : string) status doc :
  (forall r, boundaries net r = Response true status (Ok doc)) ->
  fetchGeoJSON net "county" stateId countyId = Ok doc
  /\ fetchGeoJSON net "tract" stateId countyId = Ok doc
  /\ fetchGeoJSON net "state" "" countyId = Ok doc.
Proof.
  intros Hnet. unfold fetchGeoJSON, queryBoundaries. cbn.
  rewrite !Hnet. repeat split.
Qed.

End GeometryFacts.

(** C5.  The level [block], which the selector offers and the attribute
    fetcher handles, is not among the cases of [fetchGeoJSON]: whatever the
    network does, the call is rejected with the message for an invalid
    level. *)
Theorem fetchGeoJSON_block_rejected (net : Network) (stateId countyId : string) :
  HousingStats.fetchGeoJSON net "block" stateId countyId
  = Throw (Error "Failed to fetch GeoJSON: Invalid geography level").
Proof. apply GeometryFacts.fetchGeoJSON_default; discriminate. Qed.

(** ** The attribute fetcher *)

Module AttributeFacts.
Import Js HousingStats.

Lemma item_last (cells : list value) (v : value) :
  item (cells ++ [v]) (Z.of_nat (length (cells ++ [v])) - 1) = v.
Proof.
  unfold item. rewrite length_app. simpl.
  destruct (Z.ltb_spec (Z.of_nat (length cells + 1) - 1) 0) as [H|H]; [lia|].
  replace (Z.to_nat (Z.of_nat (length cells + 1) - 1)) with (length cells) by lia.
  rewrite lookup_app_r by lia. now rewrite Nat.sub_diag.
Qed.

End AttributeFacts.

(** C6 as stated fails: a state row whose last column is the unpadded id
    ["1"] keeps ["1"] as its geoid, which is not its two-digit form. *)
Lemma rowToStatistic_geoid_not_formatted :
  let headers := [VString "NAME"; VString "B25002_001E"; VString "B25002_003E";
                  VString "state"] in
  let row := [VString "Alabama"; VString "100"; VString "10"; VString "1"] in
  geoid (HousingStats.rowToStatistic headers row) = VString "1"
  /\ geoid (HousingStats.rowToStatistic headers row) <> VString (formattedStateId "1").
Proof. split; [reflexivity | discriminate]. Qed.

(** C6, amended.  The geoid of a row's statistic is the value of the row's
    last column, exactly as received. *)
Theorem rowToStatistic_geoid_last_column (headers cells : list value) (last : value) :
  geoid (HousingStats.rowToStatistic headers (cells ++ [last])) = last.
Proof. unfold HousingStats.rowToStatistic. simpl. apply AttributeFacts.item_last. Qed.

(** ** The geography-level selector *)

(** C4 as stated fails for [block]: with no county selected the change goes
    through, [geoLevel] becomes ["block"] and a cycle is started. *)
Lemma handleGeoLevelChange_block_not_guarded :
  let after := HousingStats.handleGeoLevelChange_start "block" Sample.stateOnly in
  HousingStats.selectedCounty Sample.stateOnly = ""
  /\ HousingStats.geoLevel (fst after) = "block"
  /\ HousingStats.geoLevel (fst after) <> HousingStats.geoLevel Sample.stateOnly
  /\ snd after = Some {| HousingStats.level := "block"; HousingStats.stateId := "06";
                         HousingStats.countyId := "" |}.
Proof. repeat split. discriminate. Qed.

(** C4, amended.  A change to [tract] with no county selected only sets the
    message asking for a county: no cycle is started and [geoLevel], like
    everything else, stays as it was.  With a county selected, a change to
    any level records the new level, raises [loading], clears the error
    and starts a cycle for the new level with the selected state and county
    ids. *)
Theorem handleGeoLevelChange_precondition (newLevel : string) (st : HousingStats.State) :
  let after := HousingStats.handleGeoLevelChange_start newLevel st in
  (newLevel = "tract" -> HousingStats.selectedCounty st = "" ->
     snd after = None
     /\ fst after = HousingStats.setError (Some "Please select a county first") st
     /\ HousingStats.geoLevel (fst after) = HousingStats.geoLevel st)
  /\ (HousingStats.selectedCounty st <> "" ->
     snd after = Some {| HousingStats.level := newLevel;
                         HousingStats.stateId := HousingStats.selectedState st;
                         HousingStats.countyId := HousingStats.selectedCounty st |}
     /\ HousingStats.geoLevel (fst after) = newLevel
     /\ HousingStats.loading (fst after) = true
     /\ HousingStats.error (fst after) = None
     /\ HousingStats.selectedState (fst after) = HousingStats.selectedState st
     /\ HousingStats.selectedCounty (fst after) = HousingStats.selectedCounty st).
Proof.
  unfold HousingStats.handleGeoLevelChange_start. split.
  - intros -> Hc. rewrite Hc. cbn. repeat split.
  - intros Hc. rewrite (bool_decide_eq_false_2 _ Hc), andb_false_r.
    cbn. repeat split.
Qed.

Lemma handleGeoLevelChange_precondition_witness :
  (snd (HousingStats.handleGeoLevelChange_start "tract" Sample.stateOnly) = None
   /\ fst (HousingStats.handleGeoLevelChange_start "tract" Sample.stateOnly)
      = HousingStats.setError (Some "Please select a county first") Sample.stateOnly
   /\ HousingStats.geoLevel (fst (HousingStats.handleGeoLevelChange_start "tract" Sample.stateOnly))
      = HousingStats.geoLevel Sample.stateOnly)
  /\ snd (HousingStats.handleGeoLevelChange_start "tract" Sample.countyChosen)
     = Some {| HousingStats.level := "tract"; HousingStats.stateId := "06";
               HousingStats.countyId := "037" |}.
Proof.
  split.
  - apply (proj1 (handleGeoLevelChange_precondition "tract" Sample.stateOnly));
      reflexivity.
  - apply (proj2 (handleGeoLevelChange_precondition "tract" Sample.countyChosen)).
    discriminate.
Defined.

(** ** The county handler *)

(** C3 as stated fails: a view model is on screen, the county cycle gets a
    geometry answer with no feature, and the view model is emptied. *)
Lemma handleCountySelect_failure_clears_view :
  let after := HousingStats.handleCountySelect_settle Sample.losAngelesCycle
                 Sample.countyTable Sample.noFeatures Sample.ready in
  Session.viewModel after = (None, [])
  /\ Session.viewModel after <> Session.viewModel Sample.ready
  /\ HousingStats.error after
     = Some "Failed to load county data: Invalid geometry data received".
Proof. repeat split. discriminate. Qed.

(** C3, amended.  A county cycle whose geometry answer has no feature fails:
    the error message is set (the one for invalid geometry when the
    statistics answer is a table of two rows or more), [loading] is
    lowered, and the view model and the county summary are emptied,
    whatever was shown before. *)
Theorem handleCountySelect_no_features
    (c : HousingStats.CountyCycle) (statsFetched : Fetched (option Table))
    (status : N) (doc : GeoDoc) (st : HousingStats.State) :
  features doc = Some [] ->
  let after := HousingStats.handleCountySelect_settle c statsFetched
                 (Response true status (Ok (Some doc))) st in
  HousingStats.geoJsonData after = None
  /\ HousingStats.vacancyData after = []
  /\ HousingStats.countyStats after = None
  /\ HousingStats.loading after = false
  /\ (exists msg, HousingStats.error after = Some ("Failed to load county data: " +:+ msg))
  /\ (forall status' headers countyRow rest,
        statsFetched = Response true status' (Ok (Some (headers :: countyRow :: rest))) ->
        HousingStats.error after
        = Some "Failed to load county data: Invalid geometry data received").
Proof.
  intros Hf. destruct doc as [ty fs]. simpl in Hf. subst fs.
  unfold HousingStats.handleCountySelect_settle, HousingStats.tryCatchFinally.
  destruct statsFetched as [e|ok status' [[[|headers [|countyRow rest]]|]|e]];
    try destruct ok; cbn;
    repeat apply conj; try reflexivity; try (eexists; reflexivity);
    intros; first [reflexivity | discriminate].
Qed.

Lemma handleCountySelect_no_features_witness :
  HousingStats.geoJsonData
    (HousingStats.handleCountySelect_settle Sample.losAngelesCycle Sample.countyTable
       Sample.noFeatures Sample.ready) = None.
Proof.
  apply (handleCountySelect_no_features Sample.losAngelesCycle Sample.countyTable 200
           {| doc_type := VUndefined; features := Some [] |} Sample.ready).
  reflexivity.
Defined.

(** ** Cycles that overtake one another *)

Module SessionFacts.
Import HousingStats Session.

Lemma updateMap_settle_ok (geoData : option GeoDoc) (vacData : list AreaStatistic)
    (st : State) :
  hasFeatures geoData = true ->
  updateMap_settle (Ok (geoData, vacData)) st
  = setLoading false (setVacancyData vacData (setGeoJsonData geoData st)).
Proof.
  intros H. unfold updateMap_settle, tryCatchFinally, andThen, await.
  rewrite H. reflexivity.
Qed.

(** A cycle that fails writes its message over whatever error is shown and
    leaves the view model alone. *)
Lemma updateMap_settle_throw (e : Js.exn) (st : State) :
  updateMap_settle (Throw e) st = setLoading false (setError (Some (Js.message e)) st).
Proof. reflexivity. Qed.

Lemma settle_effect (net : Network) (n : nat) (w : World) (p : Pending)
    (geoData : option GeoDoc) (vacData : list AreaStatistic) :
  cycles w !! n = Some p -> settled p = false -> origin p = ByEffect ->
  cycleOutcome net (request p) = Ok (geoData, vacData) ->
  hasFeatures geoData = true ->
  viewModel (app (settle net n w)) = (geoData, vacData)
  /\ forall m, m <> n -> cycles (settle net n w) !! m = cycles w !! m.
Proof.
  intros Hn Hs Ho Hout Hf. unfold settle. rewrite Hn, Hs, Ho, Hout. cbn.
  rewrite updateMap_settle_ok by assumption. split; [reflexivity|].
  intros m Hm. now apply list_lookup_insert_ne.
Qed.

End SessionFacts.

(** C1 as stated fails.  The level goes to [tract] and back to [county]; the
    [updateMap] cycle for [tract] was started first and settles last, and
    the view model ends up with its result although the selection says
    [county]. *)
Lemma stale_cycle_overwrites_view :
  let w := Session.run SampleNetwork.net SampleNetwork.overtaken SampleNetwork.idle in
  HousingStats.geoLevel (Session.app w) = "county"
  /\ Session.request <$> Session.cycles w !! 1%nat = Some SampleNetwork.tractCycle
  /\ Session.request <$> Session.cycles w !! 3%nat = Some SampleNetwork.countyCycle
  /\ HousingStats.cycleOutcome SampleNetwork.net SampleNetwork.tractCycle
     = Ok SampleNetwork.tractView
  /\ HousingStats.cycleOutcome SampleNetwork.net SampleNetwork.countyCycle
     = Ok SampleNetwork.countyView
  /\ Session.viewModel (Session.app w) = SampleNetwork.tractView
  /\ Session.viewModel (Session.app w) <> SampleNetwork.countyView.
Proof.
  vm_compute. repeat split. discriminate.
Qed.

(** C1, amended.  No commit is gated on the cycle being the latest: of two
    [updateMap] cycles in flight whose fetches succeed, the one that settles
    last leaves its result in the view model, in whichever order they were
    started. *)
Theorem last_settled_cycle_wins (net : Network) (w : Session.World) (a b : nat)
    (pa pb : Session.Pending)
    (geoA geoB : option GeoDoc) (vacA vacB : list AreaStatistic) :
  a <> b ->
  Session.cycles w !! a = Some pa -> Session.cycles w !! b = Some pb ->
  Session.settled pa = false -> Session.settled pb = false ->
  Session.origin pa = Session.ByEffect -> Session.origin pb = Session.ByEffect ->
  HousingStats.cycleOutcome net (Session.request pa) = Ok (geoA, vacA) ->
  HousingStats.hasFeatures geoA = true ->
  HousingStats.cycleOutcome net (Session.request pb) = Ok (geoB, vacB) ->
  HousingStats.hasFeatures geoB = true ->
  Session.viewModel (Session.app (Session.run net [Session.Settle a; Session.Settle b] w))
  = (geoB, vacB)
  /\ Session.viewModel (Session.app (Session.run net [Session.Settle b; Session.Settle a] w))
     = (geoA, vacA).
Proof.
  intros Hab Ha Hb Hsa Hsb Hoa Hob HA HfA HB HfB. unfold Session.run. simpl.
  destruct (SessionFacts.settle_effect net a w pa geoA vacA Ha Hsa Hoa HA HfA)
    as [_ Hkeep_a].
  destruct (SessionFacts.settle_effect net b w pb geoB vacB Hb Hsb Hob HB HfB)
    as [_ Hkeep_b].
  split.
  - apply (SessionFacts.settle_effect net b _ pb); try assumption.
    rewrite Hkeep_a by congruence. exact Hb.
  - apply (SessionFacts.settle_effect net a _ pa); try assumption.
    rewrite Hkeep_b by congruence. exact Ha.
Qed.

Lemma last_settled_cycle_wins_witness :
  Session.viewModel (Session.app (Session.run SampleNetwork.net
    [Session.Settle 1; Session.Settle 3] SampleNetwork.bothInFlight))
  = SampleNetwork.countyView
  /\ Session.viewModel (Session.app (Session.run SampleNetwork.net
    [Session.Settle 3; Session.Settle 1] SampleNetwork.bothInFlight))
  = SampleNetwork.tractView.
Proof.
  apply (last_settled_cycle_wins SampleNetwork.net SampleNetwork.bothInFlight 1 3
           {| Session.origin := Session.ByEffect;
              Session.request := SampleNetwork.tractCycle;
              Session.settled := false |}
           {| Session.origin := Session.ByEffect;
              Session.request := SampleNetwork.countyCycle;
              Session.settled := false |});
    solve [lia | vm_compute; reflexivity].
Defined.

(** ** Styling the features *)

Module StyleFacts.
Import Js HousingStats.

Lemma find_none {A} (p : A -> bool) (l : list A) :
  Forall (fun x => p x = false) l -> find p l = None.
Proof.
  unfold find. induction 1 as [|x l Hx _ IH]; simpl; [reflexivity|].
  now rewrite Hx.
Qed.

Lemma find_first {A} (p : A -> bool) (before after : list A) (x : A) :
  Forall (fun y => p y = false) before -> p x = true ->
  find p (before ++ x :: after)%list = Some x.
Proof.
  unfold find. induction 1 as [|y l Hy _ IH]; simpl; intros Hx.
  - now rewrite Hx.
  - rewrite Hy. now apply IH.
Qed.

Lemma findM_pure {A} (p : A -> bool) (l : list A) :
  findM (fun x => Ok (p x)) l = Ok (find p l).
Proof.
  unfold find. induction l as [|x l IH]; simpl; [reflexivity|].
  destruct (p x); [reflexivity | exact IH].
Qed.

Lemma strict_eq_false (a b : value) : a <> b -> strict_eq a b = false.
Proof. intros H. unfold strict_eq. now apply bool_decide_eq_false_2. Qed.

Lemma strict_eq_true (a b : value) : a = b -> strict_eq a b = true.
Proof. intros H. unfold strict_eq. now apply bool_decide_eq_true_2. Qed.

Lemma getColor_zero : getColor Number.zero = "#238b45".
Proof. vm_compute. reflexivity. Qed.

(** For a feature with properties [style] does not throw. *)
Lemma style_with_properties (vacancyData : list AreaStatistic) (feature : Feature)
    (props : Bag) :
  properties feature = Some props ->
  style vacancyData feature
  = Ok {| fillColor :=
            getColor
              match find (fun d => strict_eq (geoid d)
                                     (or (get props "GEOID") (get props "id")))
                      vacancyData with
              | Some d => NumText.parseFloat (vacancyRate d)
              | None => Number.zero
              end;
          weight := 1; opacity := 1; color := "#666"; dashArray := "";
          fillOpacity := NumText.parseFloat "0.7" |}.
Proof.
  intros Hp. unfold style, featureKey, field_of. rewrite Hp. cbn [bind].
  rewrite (findM_pure (fun d => strict_eq (geoid d)
                                  (or (get props "GEOID") (get props "id")))).
  reflexivity.
Qed.

(** Styling a list of features that all have properties gives one style per
    feature. *)
Lemma styles_for_all (vacancyData : list AreaStatistic) (fs : list Feature) :
  Forall (fun f => is_Some (properties f)) fs ->
  exists styles, mapM (style vacancyData) fs = Ok styles /\ length styles = length fs.
Proof.
  induction 1 as [|f fs [props Hp] _ (styles & Hs & Hlen)].
  - exists []. split; reflexivity.
  - cbn [mapM]. rewrite (style_with_properties _ _ _ Hp), Hs. cbn [bind].
    eexists. split; [reflexivity|]. simpl. now rewrite Hlen.
Qed.

End StyleFacts.

(** C7.  A feature is never dropped by the join: [style] answers for every
    feature that has properties, so a list of such features gets one style
    per feature.  When no statistic has the feature's identifier the fill
    colour is the one for rate 0; otherwise it is the colour for the vacancy
    rate of the first statistic with that identifier. *)
Theorem style_joins_by_identifier
    (vacancyData : list AreaStatistic) (feature : Feature) (props : Bag) :
  properties feature = Some props ->
  let key := Js.or (Js.get props "GEOID") (Js.get props "id") in
  (Forall (fun d => geoid d <> key) vacancyData ->
     exists s, HousingStats.style vacancyData feature = Ok s
       /\ HousingStats.fillColor s = HousingStats.getColor Number.zero
       /\ HousingStats.fillColor s = "#238b45")
  /\ (forall (before : list AreaStatistic) d after,
        vacancyData = (before ++ d :: after)%list ->
        Forall (fun d' => geoid d' <> key) before ->
        geoid d = key ->
        exists s, HousingStats.style vacancyData feature = Ok s
          /\ HousingStats.fillColor s
             = HousingStats.getColor (NumText.parseFloat (vacancyRate d)))
  /\ (forall fs : list Feature,
        Forall (fun f => is_Some (properties f)) fs ->
        exists styles,
          Js.mapM (HousingStats.style vacancyData) fs = Ok styles
          /\ length styles = length fs).
Proof.
  intros Hp key. rewrite (StyleFacts.style_with_properties _ _ _ Hp). fold key.
  split; [|split].
  - intros Hnone. rewrite StyleFacts.find_none.
    + eexists. split; [reflexivity|]. split; [reflexivity|].
      apply StyleFacts.getColor_zero.
    + eapply Forall_impl; [exact Hnone|]. intros d Hd.
      now apply StyleFacts.strict_eq_false.
  - intros before d after -> Hbefore Hd. rewrite (StyleFacts.find_first _ before after d).
    + eexists. split; reflexivity.
    + eapply Forall_impl; [exact Hbefore|]. intros d' Hd'.
      now apply StyleFacts.strict_eq_false.
    + now apply StyleFacts.strict_eq_true.
  - apply StyleFacts.styles_for_all.
Qed.

Lemma style_joins_by_identifier_witness :
  (exists s, HousingStats.style [] Sample.shownFeature = Ok s
     /\ HousingStats.fillColor s = HousingStats.getColor Number.zero
     /\ HousingStats.fillColor s = "#238b45")
  /\ (exists s, HousingStats.style [Sample.shownStatistic] Sample.shownFeature = Ok s
     /\ HousingStats.fillColor s = HousingStats.getColor (NumText.parseFloat "28.7")).
Proof.
  split.
  - apply (proj1 (style_joins_by_identifier [] Sample.shownFeature
                    (<["GEOID" := VString "06037"]> ∅) eq_refl)).
    constructor.
  - apply (proj1 (proj2 (style_joins_by_identifier [Sample.shownStatistic]
                           Sample.shownFeature (<["GEOID" := VString "06037"]> ∅) eq_refl))
             [] Sample.shownStatistic [] eq_refl).
    + constructor.
    + vm_compute. reflexivity.
Defined.

Example style_colours :
  HousingStats.getColor (NumText.parseFloat "28.7") = "#a50f15"
  /\ HousingStats.getColor (NumText.parseFloat "10.0") = "#fcae91"
  /\ HousingStats.getColor (NumText.parseFloat "0.9") = "#238b45".
Proof. vm_compute. repeat split. Qed.

(** ** The ESRI dialect *)

Module EsriFacts.
Import Js MapUtils EsriSpec.

(** [x || ''] inside a template literal. *)
Lemma text_or_empty (a : Bag) (key : string) :
  ToString (or (get a key) (VString "")) = attributeText a key.
Proof.
  unfold attributeText, get, or.
  destruct (a !! key) as [[| |s]|]; cbn; try reflexivity.
  destruct (decide (s = "")) as [->|Hs]; [reflexivity|].
  now rewrite bool_decide_eq_false_2.
Qed.

Lemma esriFeature_converted (f : Feature) (g : Geometry) (a : Bag) :
  geometry f = Some g -> attributes f = Some a ->
  esriFeature f = Ok (converted g a).
Proof.
  intros Hg Ha. unfold esriFeature, field_of. rewrite Hg, Ha. cbn [bind].
  unfold converted. now rewrite !text_or_empty.
Qed.

(** Over features that all have geometry and attributes the conversion goes
    through, position by position. *)
Lemma mapM_esriFeature (fs : list Feature) :
  Forall (fun f => is_Some (geometry f) /\ is_Some (attributes f)) fs ->
  exists out, mapM esriFeature fs = Ok out
    /\ length out = length fs
    /\ forall i f g a, fs !! i = Some f -> geometry f = Some g ->
         attributes f = Some a -> out !! i = Some (converted g a).
Proof.
  induction 1 as [|f fs [[g Hg] [a Ha]] _ (out & Hout & Hlen & Hat)].
  - exists []. repeat split. intros i f g a Hi. discriminate Hi.
  - exists (converted g a :: out). cbn [mapM].
    rewrite (esriFeature_converted f g a Hg Ha), Hout. cbn [bind].
    split; [reflexivity|]. split; [simpl; now rewrite Hlen|].
    intros [|i] f' g' a' Hi Hg' Ha'; simpl in *.
    + injection Hi as <-. congruence.
    + now apply (Hat i f').
Qed.

End EsriFacts.

(** C10 as stated fails for a [GEOID] that is present but empty or [null]:
    the [id] is then not the [GEOID] but the [STATE], [COUNTY] and [TRACT]
    texts put together. *)
Lemma esriToGeoJSON_empty_GEOID_not_id :
  let id_of := fun r : result GeoDoc =>
                 match r with
                 | Ok {| features := Some [f] |} => (fun p => p !! "id") <$> properties f
                 | _ => None
                 end in
  let esri := fun a : Bag =>
                Some {| doc_type := VUndefined;
                        features := Some
                          [{| feature_type := VUndefined;
                              geometry := Some {| geometry_type := VString "esriGeometryPolygon";
                                                  rings := Some []; coordinates := None |};
                              properties := None;
                              attributes := Some a |}] |} in
  let emptyGeoid : Bag := <["GEOID" := VString ""]>
                            (<["STATE" := VString "06"]> (<["COUNTY" := VString "037"]> ∅)) in
  let nullGeoid : Bag := <["GEOID" := VNull]> (<["STATE" := VString "06"]> ∅) in
  emptyGeoid !! "GEOID" = Some (VString "")
  /\ id_of (MapUtils.esriToGeoJSON (esri emptyGeoid)) = Some (Some (VString "06037"))
  /\ id_of (MapUtils.esriToGeoJSON (esri emptyGeoid)) <> Some (emptyGeoid !! "GEOID")
  /\ nullGeoid !! "GEOID" = Some VNull
  /\ id_of (MapUtils.esriToGeoJSON (esri nullGeoid)) = Some (Some (VString "06"))
  /\ id_of (MapUtils.esriToGeoJSON (esri nullGeoid)) <> Some (nullGeoid !! "GEOID").
Proof. vm_compute. repeat split; discriminate. Qed.

(** C10, amended.  For an input whose features all have geometry and
    attributes, [esriToGeoJSON] gives a [FeatureCollection] with one
    feature per input feature, in order; each has geometry type [Polygon],
    keeps every attribute as a property, and has a property [id] which is
    the [GEOID] attribute when that is a non-empty string and otherwise,
    the [GEOID] being absent, [undefined], [null] or the empty string, the
    [STATE], [COUNTY] and [TRACT] texts put together, a missing, [null] or
    empty one counting as empty.  An input that is missing, or has no
    features, is rejected. *)
Theorem esriToGeoJSON_polygons_with_id :
  (forall (doc : GeoDoc) (fs : list Feature),
     features doc = Some fs ->
     Forall (fun f => is_Some (geometry f) /\ is_Some (attributes f)) fs ->
     exists out,
       MapUtils.esriToGeoJSON (Some doc)
       = Ok {| doc_type := VString "FeatureCollection"; features := Some out |}
       /\ length out = length fs
       /\ forall i f a, fs !! i = Some f -> attributes f = Some a ->
            exists o g p,
              out !! i = Some o
              /\ geometry o = Some g
              /\ geometry_type g = VString "Polygon"
              /\ properties o = Some p
              /\ (forall s, a !! "GEOID" = Some (VString s) -> s <> "" ->
                    p !! "id" = Some (VString s))
              /\ (a !! "GEOID" = None \/ a !! "GEOID" = Some VUndefined
                  \/ a !! "GEOID" = Some VNull \/ a !! "GEOID" = Some (VString "") ->
                    p !! "id" = Some (VString (EsriSpec.attributeText a "STATE"
                                               +:+ EsriSpec.attributeText a "COUNTY"
                                               +:+ EsriSpec.attributeText a "TRACT")))
              /\ (forall k, k <> "id" -> p !! k = a !! k))
  /\ MapUtils.esriToGeoJSON None = Throw (Error "Invalid ESRI JSON data")
  /\ (forall doc : GeoDoc, features doc = None ->
        MapUtils.esriToGeoJSON (Some doc) = Throw (Error "Invalid ESRI JSON data")).
Proof.
  split; [|split].
  - intros [ty ofs] fs Hfs Hall. simpl in Hfs. subst ofs.
    destruct (EsriFacts.mapM_esriFeature fs Hall) as (out & Hout & Hlen & Hat).
    exists out. unfold MapUtils.esriToGeoJSON. rewrite Hout. cbn [Js.bind].
    split; [reflexivity|]. split; [exact Hlen|].
    intros i f a Hi Ha.
    assert (exists g, geometry f = Some g) as [g Hg].
    { rewrite Forall_lookup in Hall. destruct (Hall i f Hi) as [[g Hg] _]. now exists g. }
    rewrite (Hat i f g a Hi Hg Ha). unfold EsriSpec.converted.
    eexists _, _, _. split; [reflexivity|]. split; [reflexivity|].
    split; [reflexivity|]. split; [reflexivity|]. split; [|split].
    + intros s Hs Hne. rewrite lookup_insert_eq. unfold Js.get, Js.or. rewrite Hs. cbn.
      now rewrite bool_decide_eq_false_2.
    + intros Hfalsy. rewrite lookup_insert_eq. unfold Js.get, Js.or.
      destruct Hfalsy as [-> | [-> | [-> | ->]]]; reflexivity.
    + intros k Hk. now rewrite lookup_insert_ne.
  - reflexivity.
  - intros [ty ofs] Hnone. simpl in Hnone. now subst ofs.
Qed.

Lemma esriToGeoJSON_polygons_with_id_witness :
  exists out,
    MapUtils.esriToGeoJSON
      (Some {| doc_type := VUndefined; features := Some [Sample.esriCounty] |})
    = Ok {| doc_type := VString "FeatureCollection"; features := Some out |}
    /\ length out = 1%nat.
Proof.
  destruct (proj1 esriToGeoJSON_polygons_with_id
              {| doc_type := VUndefined; features := Some [Sample.esriCounty] |}
              [Sample.esriCounty] eq_refl) as (out & Hout & Hlen & _).
  - repeat constructor; eexists; reflexivity.
  - exists out. split; [exact Hout | exact Hlen].
Defined.

Example esriToGeoJSON_county_id :
  (fun r => match r with
            | Ok {| features := Some [f] |} =>
                (fun p => p !! "id") <$> properties f
            | _ => None
            end)
    (MapUtils.esriToGeoJSON
       (Some {| doc_type := VUndefined; features := Some [Sample.esriCounty] |}))
  = Some (Some (VString "06037")).
Proof. vm_compute. reflexivity. Qed.

(** ** Numbers against the Standard Library's binary64

    On sample operands the operations give what [SFdiv], [SFmul] and [SFsub]
    of the Standard Library give at precision 53 and maximal exponent
    1024. *)

Example div_as_binary64 :
  Number.to_spec_float (Number.div (Number.of_Z 23) (Number.of_Z 80))
  = SFdiv 53 1024 (Number.to_spec_float (Number.of_Z 23))
                  (Number.to_spec_float (Number.of_Z 80))
  /\ Number.to_spec_float (Number.div (Number.of_Z 1) (Number.of_Z 3))
     = SFdiv 53 1024 (Number.to_spec_float (Number.of_Z 1))
                     (Number.to_spec_float (Number.of_Z 3)).
Proof. vm_compute. split; reflexivity. Qed.

Example mul_as_binary64 :
  Number.to_spec_float
    (Number.mul (Number.div (Number.of_Z 23) (Number.of_Z 80)) (Number.of_Z 100))
  = SFmul 53 1024
      (SFdiv 53 1024 (Number.to_spec_float (Number.of_Z 23))
                     (Number.to_spec_float (Number.of_Z 80)))
      (Number.to_spec_float (Number.of_Z 100))
  /\ Number.to_spec_float
       (Number.mul (Number.div (Number.of_Z 23) (Number.of_Z 80)) (Number.of_Z 100))
     = S754_finite false 8092405580431359 (-48).
Proof. vm_compute. split; reflexivity. Qed.

Example sub_as_binary64 :
  Number.to_spec_float
    (Number.sub (NumText.parseFloat "12.5") (NumText.parseFloat "28.7"))
  = SFsub 53 1024 (Number.to_spec_float (NumText.parseFloat "12.5"))
                  (Number.to_spec_float (NumText.parseFloat "28.7")).
Proof. vm_compute. reflexivity. Qed.

(** ** Order on numbers *)

Module NumberFacts.
Import Number.
#[local] Open Scope N_scope.

Lemma pow2_log2_le (p : N) : 0 < p -> 2 ^ (N.log2 p - 52) <= p.
Proof.
  intros Hp. transitivity (2 ^ N.log2 p).
  - apply N.pow_le_mono_r; lia.
  - now apply N.log2_spec.
Qed.

(** Rounding a positive integer never gives zero. *)
Lemma round_ulps_positive (p k : N) : 0 < p -> round_ulps p 1 = Some k -> 0 < k.
Proof.
  intros Hp. unfold round_ulps. rewrite N.div_1_r, N.mul_1_l.
  set (d := 2 ^ (N.log2 p - 52)).
  assert (Hd : 0 < d) by (apply N.neq_0_lt_0, N.pow_nonzero; lia).
  assert (Hle : d <= p) by now apply pow2_log2_le.
  assert (Hm : 1 <= p / d) by (apply N.div_le_lower_bound; lia).
  destruct (_ <=? _); [discriminate|]. intros [= <-].
  destruct (2 * (p mod d) ?= d); [destruct (N.even (p / d))|..]; nia.
Qed.

Lemma gtb_rounded_zero (negative : bool) (p : N) :
  0 < p -> gtb (rounded negative p 1) zero = negb negative.
Proof.
  intros Hp. unfold rounded.
  destruct (round_ulps p 1) as [k|] eqn:Hk.
  - apply round_ulps_positive in Hk; [|assumption].
    unfold gtb, compare, zero, signed. destruct negative; simpl.
    + destruct (Z.compare_spec (- Z.of_N k) 0); [lia | reflexivity | lia].
    + destruct (Z.compare_spec (Z.of_N k) 0); [lia | lia | reflexivity].
  - now destruct negative.
Qed.

Lemma signed_negb (s : bool) (k : N) : signed (negb s) k = (- signed s k)%Z.
Proof. destruct s; simpl; lia. Qed.

(** The sign of a difference tells which operand is greater, for all
    numbers: a difference that is [NaN] or zero is not greater than zero,
    and then neither operand is greater than the other. *)
Lemma gtb_sub (x y : number) :
  gtb (match sub y x with NaN => zero | v => v end) zero = gtb y x.
Proof.
  destruct x as [|sx|sx a], y as [|sy|sy b]; try reflexivity;
    try (destruct sx, sy; reflexivity); try (destruct sx; reflexivity);
    try (destruct sy; reflexivity).
  unfold sub, neg, add. rewrite signed_negb.
  unfold gtb at 2. unfold compare.
  set (X := signed sx a). set (Y := signed sy b).
  destruct (Z.eqb_spec (Y + - X) 0) as [Hz|Hz].
  - replace Y with X by lia. rewrite Z.compare_refl.
    unfold gtb, compare, zero. destruct (sy && negb sx); reflexivity.
  - pose proof (gtb_rounded_zero (Y + - X <? 0)%Z (Z.abs_N (Y + - X))) as H.
    assert (Hsign : negb (Y + - X <? 0)%Z = match (Y ?= X)%Z with Gt => true | _ => false end).
    { destruct (Z.ltb_spec (Y + - X) 0); destruct (Z.compare_spec Y X);
        simpl; try reflexivity; lia. }
    destruct (rounded _ _ 1) eqn:Hr.
    + unfold rounded in Hr. destruct (round_ulps _ _); discriminate.
    + rewrite H by lia. exact Hsign.
    + rewrite H by lia. exact Hsign.
Qed.

Lemma gtb_asym (x y : number) : gtb x y = true -> gtb y x = false.
Proof.
  destruct x as [|sx|sx a], y as [|sy|sy b]; try reflexivity; try discriminate;
    unfold gtb, compare; try (destruct sx, sy; simpl; congruence);
    try (destruct sx; simpl; congruence); try (destruct sy; simpl; congruence).
  destruct (Z.compare_spec (signed sx a) (signed sy b));
    destruct (Z.compare_spec (signed sy b) (signed sx a)); try reflexivity;
    try discriminate; lia.
Qed.

(** Among numbers proper, "not greater" is transitive. *)
Lemma not_gtb_trans (x y z : number) :
  x <> NaN -> y <> NaN -> z <> NaN ->
  gtb y x = false -> gtb z y = false -> gtb z x = false.
Proof.
  destruct x as [|sx|sx a], y as [|sy|sy b], z as [|sz|sz c]; try congruence;
    intros _ _ _; unfold gtb, compare;
    try (destruct sx, sy, sz; simpl; congruence);
    try (destruct sx, sy; simpl; congruence);
    try (destruct sx, sz; simpl; congruence);
    try (destruct sy, sz; simpl; congruence);
    try (destruct sx; simpl; congruence);
    try (destruct sy; simpl; congruence);
    try (destruct sz; simpl; congruence).
  destruct (Z.compare_spec (signed sy b) (signed sx a));
    destruct (Z.compare_spec (signed sz c) (signed sy b));
    destruct (Z.compare_spec (signed sz c) (signed sx a));
    try reflexivity; try discriminate; lia.
Qed.

Lemma not_gtb_geb (x y : number) :
  x <> NaN -> y <> NaN -> gtb y x = false -> geb x y = true.
Proof.
  destruct x as [|sx|sx a], y as [|sy|sy b]; try congruence; intros _ _;
    unfold gtb, geb, compare;
    try (destruct sx, sy; simpl; congruence);
    try (destruct sx; simpl; congruence); try (destruct sy; simpl; congruence).
  destruct (Z.compare_spec (signed sy b) (signed sx a));
    destruct (Z.compare_spec (signed sx a) (signed sy b));
    try reflexivity; try discriminate; lia.
Qed.

(** Two numbers equal to a third are not greater than one another. *)
Lemma eqb_class (x y r : number) :
  eqb x r = true -> eqb y r = true -> gtb y x = false.
Proof.
  destruct x as [|sx|sx a], y as [|sy|sy b], r as [|sr|sr c]; try discriminate;
    unfold eqb, gtb, compare;
    try (destruct sx, sy, sr; simpl; congruence);
    try (destruct sx, sr; simpl; congruence);
    try (destruct sy, sr; simpl; congruence).
  destruct (Z.compare_spec (signed sx a) (signed sr c)); try discriminate.
  destruct (Z.compare_spec (signed sy b) (signed sr c)); try discriminate.
  intros _ _. replace (signed sy b) with (signed sx a) by lia.
  now rewrite Z.compare_refl.
Qed.

End NumberFacts.

(** ** Sorting *)

Module SortFacts.
Import Number Js.

Section Sort.
Context {A : Type} (comparefn : A -> A -> number).

#[local] Abbreviation after x y := (gtb (SortCompare comparefn x y) zero).

Lemma insert_perm (x : A) (l : list A) : Permutation (insert comparefn x l) (x :: l).
Proof.
  induction l as [|y l IH]; simpl; [reflexivity|].
  destruct (after x y); [|reflexivity].
  rewrite IH. apply perm_swap.
Qed.

Lemma sort_perm (l : list A) : Permutation (sort comparefn l) l.
Proof.
  induction l as [|x l IH]; simpl; [reflexivity|].
  rewrite insert_perm. now apply perm_skip.
Qed.

(** An element is only moved past elements outside its own class, so each
    class keeps its order. *)
Lemma filter_insert (p : A -> bool) (x : A) (l : list A) :
  (forall y, after x y = true -> p x = true -> p y = false) ->
  List.filter p (insert comparefn x l)
  = if p x then x :: List.filter p l else List.filter p l.
Proof.
  intros Hclass. induction l as [|y l IH]; simpl; [reflexivity|].
  destruct (after x y) eqn:Hxy; simpl; [|reflexivity].
  rewrite IH. destruct (p x) eqn:Hpx; [|reflexivity].
  now rewrite (Hclass y Hxy eq_refl).
Qed.

Lemma filter_sort (p : A -> bool) (l : list A) :
  (forall x y, after x y = true -> p x = true -> p y = false) ->
  List.filter p (sort comparefn l) = List.filter p l.
Proof.
  intros Hclass. induction l as [|x l IH]; simpl; [reflexivity|].
  rewrite filter_insert by (intros y; apply Hclass). now rewrite IH.
Qed.

Variable valid : A -> Prop.
Hypothesis after_asym : forall x y, after x y = true -> after y x = false.
Hypothesis after_trans : forall x y z, valid x -> valid y -> valid z ->
  after x y = false -> after y z = false -> after x z = false.

Lemma insert_sorted (x : A) (l : list A) :
  valid x -> Forall valid l ->
  StronglySorted (fun u v => after u v = false) l ->
  StronglySorted (fun u v => after u v = false) (insert comparefn x l).
Proof.
  intros Hx Hl Hs. induction Hs as [|y l Hs IH Hy]; simpl.
  - constructor; constructor.
  - inversion Hl as [|? ? Hvy Hvl]; subst.
    destruct (after x y) eqn:Hxy.
    + constructor; [now apply IH|].
      rewrite insert_perm. constructor; [now apply after_asym | exact Hy].
    + constructor; [now constructor|].
      constructor; [exact Hxy|].
      rewrite Forall_forall in Hy, Hvl |- *. intros z Hz.
      apply (after_trans x y z); auto.
Qed.

Lemma sort_sorted (l : list A) :
  Forall valid l -> StronglySorted (fun u v => after u v = false) (sort comparefn l).
Proof.
  induction 1 as [|x l Hx Hl IH]; simpl; [constructor|].
  apply insert_sorted; [exact Hx | now rewrite sort_perm | exact IH].
Qed.

End Sort.

End SortFacts.

(** ** The statistics table *)

Module TableFacts.
Import Number NumText Js HousingStats.

(** In the table's order, [a] goes after [b] exactly when [b]'s rate is the
    greater. *)
Lemma after_is_greater_rate (a b : AreaStatistic) :
  gtb (SortCompare byVacancyRateDescending a b) zero
  = gtb (parseFloat (vacancyRate b)) (parseFloat (vacancyRate a)).
Proof. unfold SortCompare, byVacancyRateDescending. apply NumberFacts.gtb_sub. Qed.

Lemma filter_take_prefix {A} (p : A -> bool) (n : nat) (l : list A) :
  List.filter p l = (List.filter p (take n l) ++ List.filter p (drop n l))%list.
Proof. now rewrite <- List.filter_app, take_drop. Qed.

End TableFacts.

(** C8.  When every vacancy rate reads as a number, the rows of the table
    are the first ten of the statistics put in descending order of rate:
    that list has the same entries as [vacancyData], each entry's rate is
    at least the rate of every entry after it, and entries with one and
    the same rate stand in it, and so in the table, in the order they have
    in [vacancyData]. *)
Theorem tableRows_ranked_stable (vacancyData : list AreaStatistic) :
  Forall (fun d => NumText.parseFloat (vacancyRate d) <> NaN) vacancyData ->
  let sorted := Js.sort HousingStats.byVacancyRateDescending vacancyData in
  HousingStats.tableRows vacancyData = take 10 sorted
  /\ Permutation sorted vacancyData
  /\ StronglySorted
       (fun a b => Number.geb (NumText.parseFloat (vacancyRate a))
                              (NumText.parseFloat (vacancyRate b)) = true) sorted
  /\ (forall r : number,
        List.filter (fun d => Number.eqb (NumText.parseFloat (vacancyRate d)) r) sorted
        = List.filter (fun d => Number.eqb (NumText.parseFloat (vacancyRate d)) r)
            vacancyData)
  /\ (forall r : number, exists below,
        List.filter (fun d => Number.eqb (NumText.parseFloat (vacancyRate d)) r)
          vacancyData
        = (List.filter (fun d => Number.eqb (NumText.parseFloat (vacancyRate d)) r)
             (HousingStats.tableRows vacancyData) ++ below)%list).
Proof.
  intros Hnum sorted.
  assert (Hstable : forall r : number,
    List.filter (fun d => Number.eqb (NumText.parseFloat (vacancyRate d)) r) sorted
    = List.filter (fun d => Number.eqb (NumText.parseFloat (vacancyRate d)) r)
        vacancyData).
  { intros r. apply SortFacts.filter_sort. intros x y Hxy Hx.
    rewrite TableFacts.after_is_greater_rate in Hxy.
    destruct (Number.eqb (NumText.parseFloat (vacancyRate y)) r) eqn:Hy; [|reflexivity].
    rewrite (NumberFacts.eqb_class _ _ r Hx Hy) in Hxy. discriminate. }
  split; [reflexivity|]. split; [apply SortFacts.sort_perm|]. split; [|split].
  - assert (Hvalid : Forall (fun d => NumText.parseFloat (vacancyRate d) <> NaN) sorted)
      by (unfold sorted; now rewrite SortFacts.sort_perm).
    pose proof (SortFacts.sort_sorted HousingStats.byVacancyRateDescending
                  (fun d => NumText.parseFloat (vacancyRate d) <> NaN)) as Hsorted.
    specialize (Hsorted
      ltac:(intros x y; rewrite !TableFacts.after_is_greater_rate;
            apply NumberFacts.gtb_asym)
      ltac:(intros x y z Hx Hy Hz; rewrite !TableFacts.after_is_greater_rate;
            apply NumberFacts.not_gtb_trans; assumption)
      vacancyData Hnum).
    fold sorted in Hsorted. clear Hstable. revert Hvalid.
    induction Hsorted as [|a l Hl IH Ha]; intros Hvalid; constructor.
    + apply IH. now inversion Hvalid.
    + inversion Hvalid as [|? ? Hva Hvl]; subst.
      rewrite Forall_forall in Ha, Hvl |- *. intros b Hb.
      apply NumberFacts.not_gtb_geb; [exact Hva | now apply Hvl |].
      rewrite <- TableFacts.after_is_greater_rate. now apply Ha.
  - exact Hstable.
  - intros r. eexists. rewrite <- Hstable. apply TableFacts.filter_take_prefix.
Qed.

Lemma tableRows_ranked_stable_witness :
  HousingStats.tableRows SampleTable.tied
  = take 10 (Js.sort HousingStats.byVacancyRateDescending SampleTable.tied).
Proof.
  assert (H : Forall (fun d => NumText.parseFloat (vacancyRate d) <> NaN)
                SampleTable.tied).
  { unfold SampleTable.tied.
    repeat (constructor; [vm_compute; discriminate|]). constructor. }
  exact (proj1 (tableRows_ranked_stable SampleTable.tied H)).
Defined.

Example tableRows_tied :
  HousingStats.tableRows SampleTable.tied
  = [SampleTable.area "b" "12.5"; SampleTable.area "d" "12.5";
     SampleTable.area "a" "5.0"; SampleTable.area "c" "5.0";
     SampleTable.area "e" "0.0"].
Proof. vm_compute. reflexivity. Qed.

(** ** Printing with one decimal place *)

Module FixedFacts.
Import Number NumText.
#[local] Open Scope N_scope.

Lemma pretty_N_go_append (x : N) (s : string) :
  pretty_N_go x s = pretty_N_go x "" +:+ s.
Proof.
  revert s. induction (N.lt_wf_0 x) as [x _ IH]. intros s.
  destruct (N.eq_dec x 0) as [->|Hx]; [reflexivity|].
  rewrite (pretty_N_go_step x s), (pretty_N_go_step x "") by lia.
  assert (Hlt : x / 10 < x) by (apply N.div_lt; lia).
  rewrite (IH _ Hlt (String _ s)), (IH _ Hlt (String _ "")).
  generalize (pretty_N_go (x / 10) ""). intros t.
  induction t as [|c t IHt]; [reflexivity|].
  change (String c (t +:+ String (pretty_N_char (x mod 10)) s)
          = String c ((t +:+ String (pretty_N_char (x mod 10)) "") +:+ s)).
  f_equal. exact IHt.
Qed.

Lemma pretty_digit (n : N) : n < 10 -> pretty n = String (pretty_N_char (n mod 10)) "".
Proof.
  intros Hn. unfold pretty, pretty_N.
  destruct (decide (n = 0)) as [->|Hz]; [reflexivity|].
  rewrite pretty_N_go_step by lia.
  now rewrite (N.div_small n 10), pretty_N_go_0.
Qed.

Lemma pretty_last (n : N) :
  10 <= n -> pretty n = pretty (n / 10) +:+ String (pretty_N_char (n mod 10)) "".
Proof.
  intros Hn. unfold pretty, pretty_N.
  assert (Hq : 1 <= n / 10) by (apply N.div_le_lower_bound; lia).
  destruct (decide (n = 0)) as [->|_]; [lia|].
  destruct (decide (n / 10 = 0)) as [H0|_]; [lia|].
  rewrite pretty_N_go_step by lia. apply pretty_N_go_append.
Qed.

Lemma pretty_nonempty (n : N) : (1 <= String.length (pretty n))%nat.
Proof.
  destruct (N.lt_ge_cases n 10) as [H|H].
  - rewrite pretty_digit by assumption. simpl. lia.
  - rewrite pretty_last, StrFacts.length_append by assumption. simpl. lia.
Qed.

Lemma substring_append_left (s t : string) :
  substring 0 (String.length s) (s +:+ t) = s.
Proof.
  induction s as [|c s IH]; simpl; [now destruct t | f_equal; exact IH].
Qed.

Lemma substring_append_right (s t : string) :
  substring (String.length s) (String.length t) (s +:+ t) = t.
Proof.
  induction s as [|c s IH]; simpl; [apply StrFacts.substring_whole | exact IH].
Qed.

(** With one fraction digit, [n] is printed as its tens, a point, and its
    last digit. *)
Lemma fixed_digits_one (n : N) :
  fixed_digits 1 n = pretty (n / 10) +:+ "." +:+ pretty (n mod 10).
Proof.
  assert (Hmod : n mod 10 < 10) by (apply N.mod_lt; lia).
  rewrite (pretty_digit (n mod 10)) by assumption.
  rewrite N.Div0.mod_mod.
  set (c := String (pretty_N_char (n mod 10)) "").
  unfold fixed_digits. cbn [Nat.eqb Nat.add].
  destruct (N.lt_ge_cases n 10) as [H|H].
  - rewrite (N.div_small n 10) by assumption.
    rewrite pretty_digit by assumption. fold c.
    change (Str.padStart 2 "0" c) with ("0" +:+ c).
    change (pretty 0) with "0". reflexivity.
  - rewrite pretty_last by assumption. fold c.
    set (a := pretty (n / 10)).
    assert (Ha : (1 <= String.length a)%nat) by apply pretty_nonempty.
    rewrite StrFacts.padStart_long
      by (rewrite StrFacts.length_append; simpl; lia).
    rewrite StrFacts.length_append.
    replace (String.length a + String.length c - 1)%nat with (String.length a)
      by (simpl; lia).
    rewrite substring_append_left.
    change 1%nat with (String.length c) at 1.
    now rewrite substring_append_right.
Qed.

(** [n / 10] is within a twentieth of the number, the upper neighbour being
    taken half-way between two. *)
Lemma nearest_scaled_one (k : N) :
  let n := nearest_scaled 1 k in
  2 * one_ulps * n <= 20 * k + one_ulps /\ 20 * k < 2 * one_ulps * n + one_ulps.
Proof.
  intros n. subst n. unfold nearest_scaled.
  change (10 ^ N.of_nat 1) with 10.
  assert (HU : 0 < one_ulps) by (unfold one_ulps; apply N.neq_0_lt_0, N.pow_nonzero; lia).
  generalize dependent one_ulps. intros U HU.
  pose proof (N.div_mod (2 * k * 10 + U) (2 * U) ltac:(lia)) as Hdm.
  pose proof (N.mod_lt (2 * k * 10 + U) (2 * U) ltac:(lia)) as Hlt.
  set (q := (2 * k * 10 + U) / (2 * U)) in *.
  set (r := (2 * k * 10 + U) mod (2 * U)) in *.
  clearbody q r. nia.
Qed.

(** A finite number below [10^21] is printed in fixed notation. *)
Lemma toFixed_one_finite (negative : bool) (k : N) :
  k < 10 ^ 21 * one_ulps ->
  toFixed 1 (Finite negative k)
  = (if negative && negb (k =? 0) then "-" else "")
    +:+ pretty (nearest_scaled 1 k / 10) +:+ "." +:+ pretty (nearest_scaled 1 k mod 10).
Proof.
  intros Hk. unfold toFixed.
  destruct (N.leb_spec (10 ^ 21 * one_ulps) k) as [H|_]; [lia|].
  now rewrite fixed_digits_one.
Qed.

End FixedFacts.

(** ** The range of a vacancy rate *)

Module RangeFacts.
Import Number.
#[local] Open Scope N_scope.

(** Rounding does not step over a bound that is itself representable at the
    spacing in use: a multiple of [2^e] with at most [52 + e] bits. *)
Lemma round_ulps_bound (p q c e : N) :
  0 < q -> p <= c * 2 ^ e * q -> N.log2 (c * 2 ^ e) - 52 <= e ->
  c * 2 ^ e < overflow_ulps ->
  exists k, round_ulps p q = Some k /\ k <= c * 2 ^ e.
Proof.
  intros Hq Hp Hlog Hover. unfold round_ulps.
  set (s := N.log2 (p / q) - 52).
  assert (Hf : p / q <= c * 2 ^ e)
    by (apply N.Div0.div_le_upper_bound; lia).
  assert (Hs : s <= e).
  { unfold s. pose proof (N.log2_le_mono _ _ Hf). lia. }
  assert (He : 2 ^ e = 2 ^ (e - s) * 2 ^ s)
    by (rewrite <- N.pow_add_r; f_equal; lia).
  assert (Hpos : 0 < 2 ^ s) by (apply N.neq_0_lt_0, N.pow_nonzero; lia).
  rewrite He in *. clear He Hlog Hf.
  generalize dependent (2 ^ s). intros t Hp Hover Hpos.
  generalize dependent (2 ^ (e - s)). intros u Hp Hover.
  generalize dependent overflow_ulps. intros limit Hover.
  assert (Hd : 0 < q * t) by (apply N.mul_pos_pos; assumption).
  pose proof (N.div_mod p (q * t) ltac:(lia)) as Hdm.
  pose proof (N.mod_lt p (q * t) ltac:(lia)) as Hr.
  generalize dependent (p / (q * t)). intros m Hdm.
  generalize dependent (p mod (q * t)). intros r Hdm Hr.
  assert (Hm : m <= c * u) by nia.
  assert (Hk : match 2 * r ?= q * t with
               | Lt => m
               | Eq => if N.even m then m else m + 1
               | Gt => m + 1
               end <= c * u).
  { destruct (N.eq_dec m (c * u)) as [->|Hne].
    - assert (r = 0) by nia. subst r.
      destruct (N.compare_spec (2 * 0) (q * t)); lia.
    - destruct (2 * r ?= q * t); [destruct (N.even m)|..]; lia. }
  generalize dependent (match 2 * r ?= q * t with
                        | Lt => m
                        | Eq => if N.even m then m else m + 1
                        | Gt => m + 1
                        end). intros m' Hk.
  assert (Hle : m' * t <= c * (u * t)) by nia.
  destruct (N.leb_spec limit (m' * t)); [lia|].
  eexists. split; [reflexivity | exact Hle].
Qed.

Lemma one_ulps_form : one_ulps = 1 * 2 ^ 1074.
Proof. unfold one_ulps. lia. Qed.

Lemma hundred_form : 100 * one_ulps = 25 * 2 ^ 1076.
Proof.
  unfold one_ulps. change 1076 with (2 + 1074). rewrite N.pow_add_r.
  change (2 ^ 2) with 4. lia.
Qed.

Lemma of_Z_100 : of_Z 100 = Finite false (100 * one_ulps).
Proof. vm_compute. reflexivity. Qed.

(** A vacant count no larger than a positive, finite total gives a rate that
    is finite and at most 100 in magnitude. *)
Lemma rate_at_most_100 (negative : bool) (a b : N) :
  0 < b -> a <= b ->
  exists k, mul (div (Finite negative a) (Finite false b)) (of_Z 100)
            = Finite negative k
         /\ k <= 100 * one_ulps.
Proof.
  intros Hb Hab.
  destruct (round_ulps_bound (a * one_ulps) b 1 1074) as (q & Hq & Hql).
  - exact Hb.
  - rewrite <- one_ulps_form. nia.
  - vm_compute. discriminate.
  - vm_compute. reflexivity.
  - rewrite <- one_ulps_form in Hql.
    destruct (round_ulps_bound (q * (100 * one_ulps)) one_ulps 25 1076)
      as (k & Hk & Hkl).
    + unfold one_ulps. apply N.neq_0_lt_0, N.pow_nonzero. lia.
    + rewrite <- hundred_form. nia.
    + vm_compute. discriminate.
    + vm_compute. reflexivity.
    + rewrite <- hundred_form in Hkl. exists k. split; [|exact Hkl].
      assert (Hdiv : div (Finite negative a) (Finite false b) = Finite negative q).
      { unfold div. destruct (N.eqb_spec b 0) as [H0|_]; [lia|].
        unfold rounded. rewrite Hq. now rewrite xorb_false_r. }
      rewrite Hdiv, of_Z_100. unfold mul, rounded. rewrite Hk.
      now rewrite xorb_false_r.
Qed.

End RangeFacts.

(** ** The vacancy rate of a row *)

Module RateFacts.
Import Number NumText Js HousingStats.

Lemma parseInt_undefined : parseInt (ToString VUndefined) = NaN.
Proof. vm_compute. reflexivity. Qed.

Lemma parseInt_null : parseInt (ToString VNull) = NaN.
Proof. vm_compute. reflexivity. Qed.

Lemma indexOf_from_absent (v : value) (l : list value) (i : Z) :
  Forall (fun x => x <> v) l -> indexOf_from i l v = (-1)%Z.
Proof.
  intros H. revert i. induction H as [|x l Hx _ IH]; intros i; simpl; [reflexivity|].
  rewrite StyleFacts.strict_eq_false by assumption. apply IH.
Qed.

(** A variable that is not among the headers is read as [undefined]. *)
Lemma item_of_absent_header (headers row : list value) (v : value) :
  Forall (fun x => x <> v) headers -> item row (indexOf headers v) = VUndefined.
Proof.
  intros H. unfold indexOf. now rewrite indexOf_from_absent.
Qed.

Lemma vacancyRateOf_zero (vacant : number) : vacancyRateOf zero vacant = "0.0".
Proof. reflexivity. Qed.

(** With a total greater than 0 and a product in the range of fixed
    notation, the rate is the nearest tenth of the product. *)
Lemma vacancyRateOf_positive (totalHousing vacant : number) (negative : bool) (k : N) :
  gtb totalHousing zero = true ->
  mul (div vacant totalHousing) (of_Z 100) = Finite negative k ->
  (k < 10 ^ 21 * one_ulps)%N ->
  vacancyRateOf totalHousing vacant
  = (if negative && negb (k =? 0)%N then "-" else "")
    +:+ pretty (nearest_scaled 1 k / 10)%N +:+ "." +:+ pretty (nearest_scaled 1 k mod 10)%N.
Proof.
  intros Hpos Hx Hk. unfold vacancyRateOf. rewrite Hpos, Hx.
  now apply FixedFacts.toFixed_one_finite.
Qed.

Lemma fetchVacancyData_table (net : Network) (level stateId countyId : string)
    (ok : bool) (status : N) (headers : list value) (rows : Table) :
  statistics net (vacancyRequest level stateId countyId)
  = Response ok status (Ok (Some (headers :: rows))) ->
  fetchVacancyData net level stateId countyId = Ok (map (rowToStatistic headers) rows).
Proof. intros H. unfold fetchVacancyData. now rewrite H. Qed.

End RateFacts.

Module ErrorFacts.
Import Number.
#[local] Open Scope N_scope.

(** The spacing in use is one unit, or at most [2^-52] of the value. *)
Lemma spacing_small (p q : N) :
  0 < q ->
  let t := 2 ^ (N.log2 (p / q) - 52) in
  0 < t /\ (t = 1 \/ t * 2 ^ 52 * q <= p).
Proof.
  intros Hq t. subst t. split; [apply N.neq_0_lt_0, N.pow_nonzero; lia|].
  destruct (N.le_gt_cases (N.log2 (p / q)) 52) as [Hs|Hs].
  - left. replace (N.log2 (p / q) - 52) with 0 by lia. reflexivity.
  - right. rewrite <- N.pow_add_r.
    replace (N.log2 (p / q) - 52 + 52) with (N.log2 (p / q)) by lia.
    assert (Hf : 0 < p / q).
    { apply N.neq_0_lt_0. intros H0.
      rewrite H0 in Hs. change (N.log2 0) with 0 in Hs. lia. }
    pose proof (proj1 (N.log2_spec _ Hf)) as Hlog.
    pose proof (N.Div0.mul_div_le p q) as Hmul.
    generalize dependent (2 ^ N.log2 (p / q)). intros L HL.
    generalize dependent (p / q). intros f _ _ HL Hmul. nia.
Qed.

(** Rounding moves a value by at most half the spacing, so by at most half
    a unit plus [2^-53] of the value. *)
Lemma round_ulps_error (p q k : N) :
  0 < q -> round_ulps p q = Some k ->
  2 ^ 53 * (k * q) <= 2 ^ 53 * p + 2 ^ 52 * q + p
  /\ 2 ^ 53 * p <= 2 ^ 53 * (k * q) + 2 ^ 52 * q + p.
Proof.
  intros Hq. unfold round_ulps.
  destruct (spacing_small p q Hq) as [Ht Hsmall].
  generalize dependent (2 ^ (N.log2 (p / q) - 52)). intros t Ht Hsmall.
  assert (Hd : 0 < q * t) by (apply N.mul_pos_pos; assumption).
  pose proof (N.div_mod p (q * t) ltac:(lia)) as Hdm.
  pose proof (N.mod_lt p (q * t) ltac:(lia)) as Hr.
  generalize dependent (p / (q * t)). intros m Hdm.
  generalize dependent (p mod (q * t)). intros r Hdm Hr.
  assert (Hnear : forall m', m' = match 2 * r ?= q * t with
                                   | Lt => m
                                   | Eq => if N.even m then m else m + 1
                                   | Gt => m + 1
                                   end ->
            2 * (m' * (q * t)) <= 2 * p + q * t /\ 2 * p <= 2 * (m' * (q * t)) + q * t).
  { intros m' ->. destruct (N.compare_spec (2 * r) (q * t)) as [He|Hl|Hg];
      [destruct (N.even m)|..]; nia. }
  specialize (Hnear _ eq_refl).
  generalize dependent (match 2 * r ?= q * t with
                        | Lt => m
                        | Eq => if N.even m then m else m + 1
                        | Gt => m + 1
                        end). intros m' Hnear.
  destruct (_ <=? _); [discriminate|]. intros [= <-].
  change (2 ^ 53) with 9007199254740992. change (2 ^ 52) with 4503599627370496 in *.
  destruct Hnear as [Hup Hdown].
  replace (m' * t * q) with (m' * (q * t)) by lia.
  generalize dependent (m' * (q * t)). intros x Hup Hdown.
  destruct Hsmall as [->|Hsmall]; nia.
Qed.

End ErrorFacts.

(** ** The rate against the exact percentage *)

Module ExactFacts.
Import Number NumText.
#[local] Open Scope N_scope.

Lemma one_ulps_large : 2 ^ 80 <= one_ulps.
Proof. unfold one_ulps. apply N.pow_le_mono_r; lia. Qed.

Lemma pow_1114 : 1 * 2 ^ 1114 = 2 ^ 40 * one_ulps.
Proof. unfold one_ulps. rewrite <- N.pow_add_r. reflexivity. Qed.

Lemma pow_1121 : 1 * 2 ^ 1121 = 2 ^ 47 * one_ulps.
Proof. unfold one_ulps. rewrite <- N.pow_add_r. reflexivity. Qed.

(** An integer below [2^53] is a number as it stands. *)
Lemma round_ulps_integer (c : N) :
  c < 2 ^ 53 -> round_ulps (c * one_ulps) 1 = Some (c * one_ulps).
Proof.
  intros Hc. destruct (N.eq_dec c 0) as [->|Hc0]; [vm_compute; reflexivity|].
  assert (Hlog : N.log2 c <= 52).
  { apply N.lt_succ_r. apply N.log2_lt_pow2; [lia | exact Hc]. }
  unfold round_ulps, one_ulps. rewrite N.div_1_r, N.mul_1_l.
  rewrite N.log2_mul_pow2 by lia.
  replace (1074 + N.log2 c - 52) with (1022 + N.log2 c) by lia.
  set (s := 1022 + N.log2 c).
  assert (Hsplit : c * 2 ^ 1074 = c * 2 ^ (52 - N.log2 c) * 2 ^ s).
  { rewrite <- N.mul_assoc, <- N.pow_add_r. do 2 f_equal. unfold s. lia. }
  assert (Hpos : 2 ^ s <> 0) by (apply N.pow_nonzero; lia).
  assert (Hdiv : (c * 2 ^ 1074) / 2 ^ s = c * 2 ^ (52 - N.log2 c))
    by (rewrite Hsplit; now apply N.div_mul).
  assert (Hmod : (c * 2 ^ 1074) mod 2 ^ s = 0)
    by (rewrite Hsplit; apply N.Div0.mod_mul).
  rewrite Hdiv, Hmod.
  assert (Hlt : 2 * 0 < 2 ^ s) by lia.
  apply N.compare_lt_iff in Hlt. rewrite Hlt. rewrite <- Hsplit.
  assert (Hfit : c * 2 ^ 1074 < overflow_ulps).
  { unfold overflow_ulps. change 2098 with (1024 + 1074). rewrite N.pow_add_r.
    apply N.mul_lt_mono_pos_r; [apply N.neq_0_lt_0, N.pow_nonzero; lia|].
    eapply N.lt_trans; [exact Hc|]. apply N.pow_lt_mono_r; lia. }
  apply N.leb_gt in Hfit. now rewrite Hfit.
Qed.

Lemma of_Z_integer (z : Z) :
  (Z.abs z < 2 ^ 53)%Z -> of_Z z = Finite (z <? 0)%Z (Z.abs_N z * one_ulps).
Proof.
  intros Hz. unfold of_Z, rounded. rewrite round_ulps_integer; [reflexivity|].
  change (2 ^ 53) with 9007199254740992. change (2 ^ 53)%Z with 9007199254740992%Z in Hz.
  lia.
Qed.

(** For counts [a] and [b], the double-precision product [(a / b) * 100] is
    finite, below [2^47], and so close to [100 a / b] that ten times the
    one and ten times the other have no half-integer between them. *)
Lemma product_close (negative : bool) (a b : N) :
  0 < b -> a <= 2 ^ 40 -> b <= 2 ^ 53 ->
  exists k,
    mul (div (Finite negative (a * one_ulps)) (Finite false (b * one_ulps))) (of_Z 100)
    = Finite negative k
    /\ k <= 2 ^ 47 * one_ulps
    /\ (k = 0 <-> a = 0)
    /\ 20 * (k * b) < 2000 * (a * one_ulps) + one_ulps
    /\ 2000 * (a * one_ulps) < 20 * (k * b) + one_ulps.
Proof.
  intros Hb Ha Hb53.
  pose proof one_ulps_large as HU80.
  assert (HU : 0 < one_ulps) by (change (2 ^ 80) with 1208925819614629174706176 in HU80; lia).
  assert (HbU : 0 < b * one_ulps) by (apply N.mul_pos_pos; assumption).
  destruct (RangeFacts.round_ulps_bound (a * one_ulps * one_ulps) (b * one_ulps) 1 1114)
    as (q1 & Hq1 & Hq1le).
  - exact HbU.
  - rewrite pow_1114. change (2 ^ 40) with 1099511627776 in *. nia.
  - vm_compute. discriminate.
  - vm_compute. reflexivity.
  - rewrite pow_1114 in Hq1le.
    destruct (RangeFacts.round_ulps_bound (q1 * (100 * one_ulps)) one_ulps 1 1121)
      as (k & Hk & Hkle).
    + exact HU.
    + rewrite pow_1121. change (2 ^ 40) with 1099511627776 in *.
      change (2 ^ 47) with 140737488355328. nia.
    + vm_compute. discriminate.
    + vm_compute. reflexivity.
    + rewrite pow_1121 in Hkle. exists k.
      assert (Hprod : mul (div (Finite negative (a * one_ulps)) (Finite false (b * one_ulps)))
                        (of_Z 100) = Finite negative k).
      { assert (Hdiv : div (Finite negative (a * one_ulps)) (Finite false (b * one_ulps))
                       = Finite negative q1).
        { unfold div. destruct (N.eqb_spec (b * one_ulps) 0) as [H0|_]; [lia|].
          unfold rounded. rewrite Hq1. now rewrite xorb_false_r. }
        rewrite Hdiv, RangeFacts.of_Z_100. unfold mul, rounded. rewrite Hk.
        now rewrite xorb_false_r. }
      split; [exact Hprod|]. split; [exact Hkle|].
      destruct (ErrorFacts.round_ulps_error _ _ _ HbU Hq1) as [E1u E1d].
      destruct (ErrorFacts.round_ulps_error _ _ _ HU Hk) as [E2u E2d].
      clear Hq1 Hk Hprod Hq1le Hkle HbU.
      change (2 ^ 53) with 9007199254740992 in *.
      change (2 ^ 52) with 4503599627370496 in *.
      change (2 ^ 40) with 1099511627776 in *.
      change (2 ^ 80) with 1208925819614629174706176 in *.
      generalize dependent one_ulps. intros U HU80 HU E1u E1d E2u E2d.
      assert (E1u' : 9007199254740992 * (q1 * b)
                     <= 9007199254740992 * (a * U) + 4503599627370496 * b + a * U)
        by (apply (N.mul_le_mono_pos_r _ _ U HU); lia).
      assert (E1d' : 9007199254740992 * (a * U)
                     <= 9007199254740992 * (q1 * b) + 4503599627370496 * b + a * U)
        by (apply (N.mul_le_mono_pos_r _ _ U HU); lia).
      assert (E2u' : 9007199254740992 * k
                     <= 9007199254740992 * (100 * q1) + 4503599627370496 + 100 * q1)
        by (apply (N.mul_le_mono_pos_r _ _ U HU); lia).
      assert (E2d' : 9007199254740992 * (100 * q1)
                     <= 9007199254740992 * k + 4503599627370496 + 100 * q1)
        by (apply (N.mul_le_mono_pos_r _ _ U HU); lia).
      assert (E2u'' : 9007199254740992 * (k * b)
                      <= 9007199254740992 * (100 * (q1 * b)) + 4503599627370496 * b
                         + 100 * (q1 * b)) by nia.
      assert (E2d'' : 9007199254740992 * (100 * (q1 * b))
                      <= 9007199254740992 * (k * b) + 4503599627370496 * b
                         + 100 * (q1 * b)) by nia.
      assert (HaU : a * U <= 1099511627776 * U) by nia.
      assert (Hzero : a = 0 -> k = 0).
      { intros ->. assert (q1 = 0) by nia. subst q1. lia. }
      clear E1u E1d E2u E2d E2u' E2d'.
      assert (Hclose : 20 * (k * b) < 2000 * (a * U) + U
                       /\ 2000 * (a * U) < 20 * (k * b) + U).
      { set (alpha := a * U) in *. set (beta := q1 * b) in *. set (kappa := k * b) in *.
        clearbody alpha beta kappa. lia. }
      split; [|exact Hclose]. split; [|exact Hzero].
      intros ->. destruct Hclose as [_ Hdown]. nia.
Qed.

(** The tenth that is printed is within a twentieth of the exact
    percentage [100 a / b]. *)
Lemma printed_tenth_nearest (a b k : N) :
  0 < b ->
  20 * (k * b) < 2000 * (a * one_ulps) + one_ulps ->
  2000 * (a * one_ulps) < 20 * (k * b) + one_ulps ->
  let n := nearest_scaled 1 k in
  2 * n * b <= 2000 * a + b /\ 2000 * a <= 2 * n * b + b.
Proof.
  intros Hb Hup Hdown n.
  destruct (FixedFacts.nearest_scaled_one k) as [R1 R2]. fold n in R1, R2.
  assert (HU : 0 < one_ulps)
    by (pose proof one_ulps_large;
        change (2 ^ 80) with 1208925819614629174706176 in *; lia).
  generalize dependent one_ulps. intros U Hup Hdown R1 R2 HU.
  clearbody n.
  assert (R1b : 2 * U * (n * b) <= 20 * (k * b) + U * b) by nia.
  assert (R2b : 20 * (k * b) < 2 * U * (n * b) + U * b) by nia.
  set (kappa := k * b) in *. clearbody kappa.
  split.
  - apply N.lt_succ_r. apply (N.mul_lt_mono_pos_l U); [exact HU|]. lia.
  - apply N.lt_succ_r. apply (N.mul_lt_mono_pos_l U); [exact HU|]. lia.
Qed.

End ExactFacts.

(** ** The vacancy rate of a fetched row *)

Module RowFacts.
Import Number NumText Js HousingStats.

Lemma gtb_count_zero (b : N) :
  (0 < b)%N -> gtb (Finite false (b * one_ulps)) zero = true.
Proof.
  intros Hb. unfold gtb, compare, zero, signed.
  assert (0 < b * one_ulps)%N
    by (apply N.mul_pos_pos; [exact Hb|];
        unfold one_ulps; apply N.neq_0_lt_0, N.pow_nonzero; lia).
  destruct (Z.compare_spec (Z.of_N (b * one_ulps)) (Z.of_N 0)); [lia | lia | reflexivity].
Qed.

Lemma fixed_range (k : N) : (k <= 2 ^ 47 * one_ulps)%N -> (k < 10 ^ 21 * one_ulps)%N.
Proof.
  intros Hk. eapply N.le_lt_trans; [exact Hk|].
  apply N.mul_lt_mono_pos_r; [|reflexivity].
  unfold one_ulps. apply N.neq_0_lt_0, N.pow_nonzero. lia.
Qed.

(** The rate of whole counts: the tenth printed is within a twentieth of the
    exact percentage. *)
Lemma vacancyRateOf_counts (total vacantUnits : Z) :
  (0 < total < 2 ^ 53)%Z -> (Z.abs vacantUnits <= 2 ^ 40)%Z ->
  exists n : N,
    vacancyRateOf (of_Z total) (of_Z vacantUnits)
    = (if (vacantUnits <? 0)%Z then "-" else "")
      +:+ pretty (n / 10)%N +:+ "." +:+ pretty (n mod 10)%N
    /\ (Z.abs (2 * Z.of_N n * total - 2000 * Z.abs vacantUnits) <= total)%Z.
Proof.
  intros Ht Hv.
  assert (H40 : (2 ^ 40 = 1099511627776)%Z) by reflexivity.
  assert (H53 : (2 ^ 53 = 9007199254740992)%Z) by reflexivity.
  rewrite (ExactFacts.of_Z_integer total), (ExactFacts.of_Z_integer vacantUnits) by lia.
  replace (total <? 0)%Z with false by (symmetry; apply Z.ltb_ge; lia).
  set (a := Z.abs_N vacantUnits). set (b := Z.abs_N total).
  assert (Hb : (0 < b)%N) by (unfold b; lia).
  assert (Ha : (a <= 2 ^ 40)%N)
    by (change (2 ^ 40)%N with 1099511627776%N; unfold a; lia).
  assert (Hb53 : (b <= 2 ^ 53)%N)
    by (change (2 ^ 53)%N with 9007199254740992%N; unfold b; lia).
  destruct (ExactFacts.product_close (vacantUnits <? 0)%Z a b Hb Ha Hb53)
    as (k & Hprod & Hk & Hzero & Hup & Hdown).
  exists (nearest_scaled 1 k). split.
  - rewrite (RateFacts.vacancyRateOf_positive _ _ (vacantUnits <? 0)%Z k);
      [| now apply gtb_count_zero | exact Hprod | now apply fixed_range].
    f_equal. destruct (Z.ltb_spec vacantUnits 0) as [Hneg|Hpos]; [|reflexivity].
    destruct (N.eqb_spec k 0) as [Hk0|_]; [|reflexivity].
    apply Hzero in Hk0. unfold a in Hk0. lia.
  - destruct (ExactFacts.printed_tenth_nearest a b k Hb Hup Hdown) as [Hle Hge].
    unfold a, b in Hle, Hge. lia.
Qed.

End RowFacts.

(** C2.  When the statistical service answers with a table, every row
    after the header row gives a statistic, none fails.  In it a count
    whose cell is missing, [null] or does not start with a number is 0.
    When the total is 0 the rate is ["0.0"].  When the counts are whole
    numbers, the total greater than 0 and the vacant count up to [2^40] in
    magnitude, the rate is a sign and [n / 10] printed with one decimal
    place, where [n / 10] differs from the exact percentage
    [100 * vacant / total] by a twentieth at most: it is that percentage
    rounded to one decimal place.  Whatever the counts, when the total is
    greater than 0 and the product [(vacant / total) * 100], computed in
    double precision as the source does, is finite and below [10^21] in
    magnitude, the tenth printed is the one nearest to that product, the
    upper one of two. *)
Theorem fetched_rows_vacancy_rate
    (net : Network) (level stateId countyId : string) (ok : bool) (status : N)
    (headers : list value) (rows : Table) :
  statistics net (HousingStats.vacancyRequest level stateId countyId)
  = Response ok status (Ok (Some (headers :: rows))) ->
  HousingStats.fetchVacancyData net level stateId countyId
  = Ok (map (HousingStats.rowToStatistic headers) rows)
  /\ forall row : list value, In row rows ->
     let stat := HousingStats.rowToStatistic headers row in
     let totalCell :=
       Js.item row (Js.indexOf headers (VString HousingStats.variables_totalHousing)) in
     let vacantCell :=
       Js.item row (Js.indexOf headers (VString HousingStats.variables_vacant)) in
     (NumText.parseInt (Js.ToString totalCell) = NaN -> totalHousing stat = Number.zero)
     /\ (NumText.parseInt (Js.ToString vacantCell) = NaN -> vacant stat = Number.zero)
     /\ (totalCell = VUndefined \/ totalCell = VNull -> totalHousing stat = Number.zero)
     /\ (vacantCell = VUndefined \/ vacantCell = VNull -> vacant stat = Number.zero)
     /\ (totalHousing stat = Number.zero -> vacancyRate stat = "0.0")
     /\ (forall total vacantUnits : Z,
           totalHousing stat = Number.of_Z total ->
           vacant stat = Number.of_Z vacantUnits ->
           (0 < total < 2 ^ 53)%Z -> (Z.abs vacantUnits <= 2 ^ 40)%Z ->
           exists n : N,
             vacancyRate stat
             = (if (vacantUnits <? 0)%Z then "-" else "")
               +:+ pretty (n / 10)%N +:+ "." +:+ pretty (n mod 10)%N
             /\ (Z.abs (2 * Z.of_N n * total - 2000 * Z.abs vacantUnits) <= total)%Z)
     /\ (Number.gtb (totalHousing stat) Number.zero = true ->
         forall (negative : bool) (k : N),
           Number.mul (Number.div (vacant stat) (totalHousing stat)) (Number.of_Z 100)
           = Finite negative k ->
           (k < 10 ^ 21 * Number.one_ulps)%N ->
           exists n : N,
             vacancyRate stat
             = (if negative && negb (k =? 0)%N then "-" else "")
               +:+ pretty (n / 10)%N +:+ "." +:+ pretty (n mod 10)%N
             /\ (2 * Number.one_ulps * n <= 20 * k + Number.one_ulps)%N
             /\ (20 * k < 2 * Number.one_ulps * n + Number.one_ulps)%N).
Proof.
  intros Hnet. split; [now apply (RateFacts.fetchVacancyData_table _ _ _ _ ok status)|].
  intros row _ stat totalCell vacantCell.
  assert (Htotal : totalHousing stat
                   = Number.or_zero (NumText.parseInt (Js.ToString totalCell)))
    by reflexivity.
  assert (Hvacant : vacant stat
                    = Number.or_zero (NumText.parseInt (Js.ToString vacantCell)))
    by reflexivity.
  assert (Hrate : vacancyRate stat
                  = HousingStats.vacancyRateOf (totalHousing stat) (vacant stat))
    by reflexivity.
  split; [|split; [|split; [|split; [|split; [|split]]]]].
  - intros H. now rewrite Htotal, H.
  - intros H. now rewrite Hvacant, H.
  - intros [H|H]; rewrite Htotal, H;
      [now rewrite RateFacts.parseInt_undefined | now rewrite RateFacts.parseInt_null].
  - intros [H|H]; rewrite Hvacant, H;
      [now rewrite RateFacts.parseInt_undefined | now rewrite RateFacts.parseInt_null].
  - intros H. rewrite Hrate, H. apply RateFacts.vacancyRateOf_zero.
  - intros total vacantUnits Ht Hv Hrange Hsmall. rewrite Hrate, Ht, Hv.
    now apply RowFacts.vacancyRateOf_counts.
  - intros Hpos negative k Hx Hk. exists (NumText.nearest_scaled 1 k).
    split; [|apply FixedFacts.nearest_scaled_one].
    rewrite Hrate. now apply RateFacts.vacancyRateOf_positive.
Qed.

Lemma fetched_rows_vacancy_rate_witness :
  HousingStats.fetchVacancyData censusStates "state" "06" ""
  = Ok (map (HousingStats.rowToStatistic (Sample.headers "state")) [Sample.california])
  /\ exists n : N,
       vacancyRate (HousingStats.rowToStatistic (Sample.headers "state") Sample.california)
       = "" +:+ pretty (n / 10)%N +:+ "." +:+ pretty (n mod 10)%N
       /\ (Z.abs (2 * Z.of_N n * 1000 - 2000 * Z.abs 100) <= 1000)%Z.
Proof.
  destruct (fetched_rows_vacancy_rate censusStates "state" "06" ""
              true 200 (Sample.headers "state") [Sample.california] eq_refl)
    as [Hfetch Hrows].
  split; [exact Hfetch|].
  destruct (Hrows Sample.california (or_introl eq_refl))
    as (_ & _ & _ & _ & _ & Hexact & _).
  apply (Hexact 1000%Z 100%Z).
  - vm_compute. reflexivity.
  - vm_compute. reflexivity.
  - split; reflexivity.
  - vm_compute. discriminate.
Defined.

Example california_statistic :
  HousingStats.rowToStatistic (Sample.headers "state") Sample.california
  = {| name := VString "California"; geoid := VString "06";
       totalHousing := Number.of_Z 1000; vacant := Number.of_Z 100;
       vacancyRate := "10.0" |}.
Proof. vm_compute. reflexivity. Qed.

Example vacancyRateOf_examples :
  HousingStats.vacancyRateOf (Number.of_Z 80) (Number.of_Z 23) = "28.7"
  /\ HousingStats.vacancyRateOf (Number.of_Z 3) (Number.of_Z 1) = "33.3"
  /\ HousingStats.vacancyRateOf (Number.of_Z 0) (Number.of_Z 5) = "0.0"
  /\ HousingStats.vacancyRateOf (Number.of_Z 200) (Number.of_Z 1) = "0.5".
Proof. vm_compute. repeat split. Qed.

Example parseInt_examples :
  NumText.parseInt "abc" = NaN /\ NumText.parseInt "" = NaN
  /\ NumText.parseInt "N/A" = NaN
  /\ NumText.parseInt "1000" = Number.of_Z 1000
  /\ NumText.parseInt " -42" = Number.of_Z (-42).
Proof. vm_compute. repeat split. Qed.

(** ** The loaders of the two selectors *)

Module SelectionFacts.
Import Number NumText Js.
Import -(notations) HousingStats.
Import Selection.

Lemma mapM_Forall2 {A B} (f : A -> result B) (R : A -> B -> Prop) (l : list A) :
  Forall (fun x => exists y, f x = Ok y /\ R x y) l ->
  exists ys, mapM f l = Ok ys /\ Forall2 R l ys.
Proof.
  induction 1 as [|x l (y & Hy & Hr) _ (ys & Hys & Hall)].
  - exists []. split; [reflexivity | constructor].
  - exists (y :: ys). cbn [mapM]. rewrite Hy, Hys. split; [reflexivity|].
    now constructor.
Qed.

(** A row with a string in its first two cells gives a state option. *)
Lemma stateOption_row (row : list value) (n c : string) :
  item row 0 = VString n -> item row 1 = VString c ->
  stateOption row = Ok {| state_name := trim n; state_id := formattedStateId c |}.
Proof. intros Hn Hc. unfold stateOption. now rewrite Hn, Hc. Qed.


Lemma length_formattedStateId (s : string) : (2 <= String.length (formattedStateId s))%nat.
Proof. unfold formattedStateId. rewrite StrFacts.length_padStart_char. lia. Qed.


(** What the part of [loadCounties] after its [await]s leaves. *)
Lemma loadCounties_settle_cases
    (localeCompare : string -> string -> number)
    (fetched : Fetched Parsed) (pg : Page) :
  let pg' := loadCounties_settle localeCompare fetched pg in
  states pg' = states pg
  /\ component pg'
     = setLoading false (setError (error (component pg')) (component pg))
  /\ (error (component pg') = error (component pg)
      \/ (counties pg' = []
          /\ exists msg, error (component pg')
                         = Some ("Failed to load counties: " +:+ msg)))
  /\ (forall status body, fetched = Response false status body ->
        counties pg' = []
        /\ error (component pg')
           = Some ("Failed to load counties: HTTP error! status: " +:+ pretty status))
  /\ (forall status t, (length t < 2)%nat ->
        fetched = Response true status (Ok (TableBody t)) ->
        counties pg' = []
        /\ error (component pg')
           = Some "Failed to load counties: Invalid county data received")
  /\ (forall status,
        fetched = Response true status (Ok NullBody) ->
        counties pg' = []
        /\ error (component pg')
           = Some "Failed to load counties: Invalid county data received").
Proof.
  intros pg'. destruct pg as [st ss cs]. destruct st.
  unfold pg', loadCounties_settle, tryCatchFinally,
    andThen, await, okBody.
  destruct fetched as [e|[|] status [[| |t]|e]]; cbn [negb];
    try (repeat apply conj; cbn;
         first [reflexivity | right; split; [reflexivity|eexists; reflexivity]
               | intros; simplify_eq; split; reflexivity
               | intros; simplify_eq; simpl in *; lia]).
  destruct (Nat.ltb_spec (length t) 2) as [Hlt|Hge].
  - repeat apply conj; cbn;
      first [reflexivity | right; split; [reflexivity|eexists; reflexivity]
            | intros; simplify_eq; split; reflexivity].
  - destruct (mapM countyOption (tail t)) as [options|e];
      repeat apply conj; cbn;
      first [reflexivity | left; reflexivity
            | right; split; [reflexivity|eexists; reflexivity]
            | solve [intros; simplify_eq; lia] | solve [intros; simplify_eq]].
Qed.

(** What the part of [loadStates] after its [await]s leaves. *)
Lemma loadStates_settle_cases
    (localeCompare : string -> string -> number)
    (fetched : Fetched Parsed) (pg : Page) :
  let pg' := loadStates_settle localeCompare fetched pg in
  counties pg' = counties pg
  /\ component pg'
     = setLoading false (setError (error (component pg')) (component pg))
  /\ (error (component pg') = error (component pg)
      \/ (states pg' = states pg
          /\ exists msg, error (component pg')
                         = Some ("Failed to load states: " +:+ msg)))
  /\ (forall status body, fetched = Response false status body ->
        states pg' = states pg
        /\ error (component pg')
           = Some ("Failed to load states: HTTP error! status: " +:+ pretty status)).
Proof.
  intros pg'. destruct pg as [st ss cs]. destruct st.
  unfold pg', loadStates_settle, tryCatchFinally,
    andThen, await, okBody.
  destruct fetched as [e|[|] status [[| |t]|e]]; cbn [negb];
    try (repeat apply conj; cbn;
         first [reflexivity | right; split; [reflexivity|eexists; reflexivity]
               | intros; simplify_eq; split; reflexivity
               | solve [intros; simplify_eq]]).
  cbn [bind]. destruct (mapM stateOption (tail t)) as [options|e];
    repeat apply conj; cbn;
    first [reflexivity | left; reflexivity
          | right; split; [reflexivity|eexists; reflexivity]
          | solve [intros; simplify_eq]].
Qed.

End SelectionFacts.




(** X3.  When [loading] is not raised and the statistical service answers
    the state query with a table, every row after the header row having
    strings in its first two cells, [loadStates] puts one option per such
    row into [states]: its name is the first cell trimmed and its id the
    second cell padded to two characters.  When [localeCompare] orders
    strings consistently, no option in the list sorts after a later one by
    name.  No error is shown and [loading] is lowered.  A table of the
    header row alone gives an empty list. *)
Theorem loadStates_fills_selector
    (localeCompare : string -> string -> number) (svc : Selection.Services)
    (status : N) (header : list value) (rows : Table) (pg : Selection.Page) :
  HousingStats.loading (Selection.component pg) = false ->
  Selection.census svc
    {| url := HousingStats.baseUrl; params := [("get", "NAME"); ("for", "state:*")] |}
  = Response true status (Ok (Selection.TableBody (header :: rows))) ->
  Forall (fun row => exists n c,
            Js.item row 0 = VString n /\ Js.item row 1 = VString c) rows ->
  let pg' := Selection.loadStates localeCompare svc pg in
  let after := fun s t => Number.gtb (Js.SortCompare localeCompare s t) Number.zero in
  (exists options,
     Permutation (Selection.states pg') options
     /\ Forall2 (fun row o => exists n c,
          Js.item row 0 = VString n /\ Js.item row 1 = VString c
          /\ Selection.state_name o = Selection.trim n
          /\ Selection.state_id o = Str.padStart 2 "0" c
          /\ (2 <= String.length (Selection.state_id o))%nat) rows options)
  /\ length (Selection.states pg') = length rows
  /\ ((forall s t, after s t = true -> after t s = false) ->
      (forall s t u, after s t = false -> after t u = false -> after s u = false) ->
      StronglySorted
        (fun a b => after (Selection.state_name a) (Selection.state_name b) = false)
        (Selection.states pg'))
  /\ HousingStats.error (Selection.component pg') = None
  /\ HousingStats.loading (Selection.component pg') = false.
Proof.
  intros Hl Hsvc Hrows pg' after.
  destruct (SelectionFacts.mapM_Forall2 Selection.stateOption
              (fun row o => exists n c,
                 Js.item row 0 = VString n /\ Js.item row 1 = VString c
                 /\ Selection.state_name o = Selection.trim n
                 /\ Selection.state_id o = Str.padStart 2 "0" c
                 /\ (2 <= String.length (Selection.state_id o))%nat) rows)
    as (options & Hmap & Hall).
  { eapply Forall_impl; [exact Hrows|]. intros row (n & c & Hn & Hc).
    eexists. split; [apply (SelectionFacts.stateOption_row row n c); assumption|].
    exists n, c. cbn. repeat split; try assumption.
    apply SelectionFacts.length_formattedStateId. }
  assert (Hpg : pg' = Selection.onComponent (HousingStats.setLoading false)
                        (Selection.setStates
                           (Js.sort (Selection.byStateName localeCompare) options)
                           (Selection.onComponent (HousingStats.setError None)
                              (Selection.onComponent (HousingStats.setLoading true) pg)))).
  { unfold pg', Selection.loadStates, Selection.loadStates_start. rewrite Hl.
    unfold Selection.statesRequest. rewrite Hsvc.
    unfold Selection.loadStates_settle, Selection.tryCatchFinally,
      Selection.andThen, Selection.await, Selection.okBody. cbn [negb tail Js.bind].
    rewrite Hmap. reflexivity. }
  rewrite Hpg. cbn. split; [|split; [|split; [|split; reflexivity]]].
  - exists options. split; [apply SortFacts.sort_perm | exact Hall].
  - rewrite (Permutation_length (SortFacts.sort_perm _ options)).
    symmetry. exact (Forall2_length _ _ _ Hall).
  - intros Hasym Htrans.
    apply (SortFacts.sort_sorted (Selection.byStateName localeCompare) (fun _ => True)).
    + intros x y. apply Hasym.
    + intros x y z _ _ _. apply Htrans.
    + now apply Forall_forall.
Qed.

Lemma loadStates_fills_selector_witness :
  length (Selection.states
            (Selection.loadStates SampleSelection.byCodeUnit SampleSelection.services
               Selection.initialPage)) = 2%nat.
Proof.
  apply (loadStates_fills_selector SampleSelection.byCodeUnit SampleSelection.services
           200 [VString "NAME"; VString "state"]
           (tail SampleSelection.stateTable) Selection.initialPage).
  - reflexivity.
  - reflexivity.
  - repeat (constructor; [eexists _, _; repeat split; reflexivity|]). constructor.
Defined.

(** X4.  Whatever the statistical service answers, a call of [loadStates]
    changes nothing but [states], [error] and [loading]; while [loading]
    is raised it changes nothing at all, and otherwise it leaves
    [loading] lowered.  When it shows an error the list of states is left
    as it was; the error names the HTTP status when the response is not
    ok. *)
Theorem loadStates_failure_keeps_selector
    (localeCompare : string -> string -> number) (svc : Selection.Services)
    (pg : Selection.Page) :
  let pg' := Selection.loadStates localeCompare svc pg in
  let fetched := Selection.census svc Selection.statesRequest in
  (HousingStats.loading (Selection.component pg) = true -> pg' = pg)
  /\ (HousingStats.loading (Selection.component pg) = false ->
      Selection.counties pg' = Selection.counties pg
      /\ Selection.component pg'
         = HousingStats.setLoading false
             (HousingStats.setError (HousingStats.error (Selection.component pg'))
                (Selection.component pg))
      /\ (HousingStats.error (Selection.component pg') = None
          \/ (Selection.states pg' = Selection.states pg
              /\ exists msg, HousingStats.error (Selection.component pg')
                             = Some ("Failed to load states: " +:+ msg)))
      /\ (forall status body, fetched = Response false status body ->
            Selection.states pg' = Selection.states pg
            /\ HousingStats.error (Selection.component pg')
               = Some ("Failed to load states: HTTP error! status: " +:+ pretty status))).
Proof.
  intros pg' fetched. unfold pg', Selection.loadStates, Selection.loadStates_start.
  split; intros Hl; rewrite Hl; [reflexivity|]. fold fetched.
  destruct (SelectionFacts.loadStates_settle_cases localeCompare fetched
              (Selection.onComponent (HousingStats.setError None)
                 (Selection.onComponent (HousingStats.setLoading true) pg)))
    as (Hs & Hc & He & Hrest).
  split; [exact Hs|]. split; [|split; [exact He | exact Hrest]].
  rewrite Hc. destruct pg as [st ss cs]. destruct st. reflexivity.
Qed.

(** ** Choosing a state *)

Module StateSelectFacts.
Import Number NumText Js.
Import -(notations) HousingStats.
Import Selection.

(** The features of the boundary file that [handleStateSelect] and
    [fetchGeoJSON] keep. *)
Lemma filterM_hasStateId (stateId : string) (fs : list Feature) :
  Forall (fun f => is_Some (properties f)) fs ->
  filterM (hasStateId stateId) fs
  = Ok (List.filter (fun f => match properties f with
                              | Some p => strict_eq (get p "id") (VString stateId)
                              | None => false
                              end) fs).
Proof.
  induction 1 as [|f fs [p Hp] _ IH]; [reflexivity|].
  cbn [filterM List.filter]. rewrite IH. unfold hasStateId at 1. rewrite Hp.
  cbn. now destruct (strict_eq (get p "id") (VString stateId)).
Qed.

End StateSelectFacts.

(** X5.  The last part of [handleStateSelect] commits the state's view as
    a whole or leaves the view alone.  For every answer of the two services
    and every page before it, so whatever the cycles of the effect have
    committed in the meantime, when the part of the handler after its
    [await]s has run, [loading] is lowered and the county selection, the
    level, the county summary and the two lists are as they were; and
    either the selected state and the error are as they were and the
    state's summary, its geometry and its one statistic (whose [geoid] is
    the state id as chosen) are all set, or no state is selected, an error
    starting with the handler's prefix is reported, and the map and the
    table are as they were: the [catch] of this handler does not empty
    them. *)
Theorem handleStateSelect_all_or_nothing
    (stateId : string) (statsFetched : Fetched Selection.Parsed)
    (geoFetched : Fetched (option GeoDoc)) (pg : Selection.Page) :
  let pg' := Selection.handleStateSelect_settle stateId statsFetched geoFetched pg in
  let st := Selection.component pg in
  let st' := Selection.component pg' in
  Selection.states pg' = Selection.states pg
  /\ Selection.counties pg' = Selection.counties pg
  /\ HousingStats.loading st' = false
  /\ HousingStats.selectedCounty st' = HousingStats.selectedCounty st
  /\ HousingStats.geoLevel st' = HousingStats.geoLevel st
  /\ HousingStats.countyStats st' = HousingStats.countyStats st
  /\ ((HousingStats.selectedState st' = HousingStats.selectedState st
       /\ HousingStats.error st' = HousingStats.error st
       /\ exists stat summary kept,
            HousingStats.vacancyData st' = [stat]
            /\ geoid stat = VString stateId
            /\ vacancyRate stat
               = HousingStats.vacancyRateOf (totalHousing stat) (vacant stat)
            /\ HousingStats.geoJsonData st'
               = Some {| doc_type := VString "FeatureCollection"; features := Some kept |}
            /\ HousingStats.stateStats st' = Some summary
            /\ summary_name summary = name stat
            /\ summary_totalHousing summary = totalHousing stat
            /\ summary_vacant summary = vacant stat
            /\ occupied summary = Number.sub (totalHousing stat) (vacant stat)
            /\ summary_vacancyRate summary = vacancyRate stat)
      \/ (HousingStats.selectedState st' = ""
          /\ HousingStats.geoJsonData st' = HousingStats.geoJsonData st
          /\ HousingStats.vacancyData st' = HousingStats.vacancyData st
          /\ exists msg, HousingStats.error st'
                         = Some ("Failed to load state data: " +:+ msg))).
Proof.
  intros pg' st st'. subst st st'. destruct pg as [st ss cs]. destruct st.
  unfold pg', Selection.handleStateSelect_settle, Selection.tryCatchFinally,
    Selection.andThen, Selection.await, Selection.throw, Selection.ret, Selection.set,
    Selection.responded, HousingStats.promiseAll.
  destruct statsFetched as [e|ok status body]; cbn;
    [repeat apply conj; try reflexivity; right; repeat apply conj; try reflexivity;
     eexists; reflexivity|].
  destruct geoFetched as [e|ok' status' body']; cbn;
    [repeat apply conj; try reflexivity; right; repeat apply conj; try reflexivity;
     eexists; reflexivity|].
  destruct ok; cbn;
    [|repeat apply conj; try reflexivity; right; repeat apply conj; try reflexivity;
      eexists; reflexivity].
  destruct body as [[| |[|headers [|stateRow rest]]]|e]; destruct body' as [geoData|e'];
    cbn;
    try (repeat apply conj; try reflexivity; right; repeat apply conj; try reflexivity;
         eexists; reflexivity).
  destruct (all <- (fs <- Js.field_of_body "features" geoData features;;
                    Js.field_of "filter" fs id);;
            Js.filterM (HousingStats.hasStateId stateId) all) as [kept|e]; cbn.
  - repeat apply conj; try reflexivity. left. repeat apply conj; try reflexivity.
    eexists _, _, kept. repeat apply conj; reflexivity.
  - repeat apply conj; try reflexivity; right; repeat apply conj; try reflexivity;
      eexists; reflexivity.
Qed.

(** X6.  When the statistical service answers with a table of the header
    row and the state's row, and the boundary file has features that all
    have properties, [handleStateSelect] keeps exactly the features whose
    property [id] is the chosen state id, in their order, whether or not
    the boundary response was ok; and [style] then gives every kept feature
    with no [GEOID] of its own the colour of the state's vacancy rate. *)
Theorem handleStateSelect_colours_state
    (stateId : string) (status status' : N) (ok' : bool)
    (headers stateRow : list value) (rest : Table)
    (doc : GeoDoc) (fs : list Feature) (pg : Selection.Page) :
  features doc = Some fs ->
  Forall (fun f => is_Some (properties f)) fs ->
  let pg' := Selection.handleStateSelect_settle stateId
               (Response true status
                  (Ok (Selection.TableBody (headers :: stateRow :: rest))))
               (Response ok' status' (Ok (Some doc))) pg in
  let kept := List.filter (fun f => match properties f with
                                    | Some p => Js.strict_eq (Js.get p "id") (VString stateId)
                                    | None => false
                                    end) fs in
  exists stat,
    HousingStats.vacancyData (Selection.component pg') = [stat]
    /\ geoid stat = VString stateId
    /\ name stat = Js.item stateRow 0
    /\ HousingStats.geoJsonData (Selection.component pg')
       = Some {| doc_type := VString "FeatureCollection"; features := Some kept |}
    /\ HousingStats.selectedState (Selection.component pg')
       = HousingStats.selectedState (Selection.component pg)
    /\ forall f p, In f kept -> properties f = Some p ->
         Js.get p "id" = VString stateId
         /\ (Js.ToBoolean (Js.get p "GEOID") = false ->
             exists s, HousingStats.style [stat] f = Ok s
                       /\ HousingStats.fillColor s
                          = HousingStats.getColor (NumText.parseFloat (vacancyRate stat))).
Proof.
  intros Hfs Hall pg' kept. destruct doc as [ty ofs]. simpl in Hfs. subst ofs.
  unfold pg', Selection.handleStateSelect_settle, Selection.tryCatchFinally,
    Selection.andThen, Selection.await, Selection.throw, Selection.ret, Selection.set,
    Selection.responded, HousingStats.promiseAll.
  cbn. rewrite (StateSelectFacts.filterM_hasStateId stateId fs Hall). cbn.
  eexists. repeat apply conj; try reflexivity.
  intros f p Hin Hp. apply filter_In in Hin as [_ Hkeep]. rewrite Hp in Hkeep.
  assert (Hid : Js.get p "id" = VString stateId).
  { unfold Js.strict_eq in Hkeep. now apply bool_decide_eq_true in Hkeep. }
  split; [exact Hid|]. intros Hgeoid.
  rewrite (StyleFacts.style_with_properties _ _ _ Hp).
  eexists. split; [reflexivity|]. cbn [HousingStats.fillColor Js.find List.find geoid].
  unfold Js.or. rewrite Hgeoid, Hid.
  rewrite (StyleFacts.strict_eq_true _ _ eq_refl). reflexivity.
Qed.

Lemma handleStateSelect_colours_state_witness :
  exists stat,
    HousingStats.vacancyData
      (Selection.component
         (Selection.handleStateSelect_settle "06"
            (Response true 200 (Ok (Selection.TableBody SampleSelection.statsTable)))
            (Response true 200 (Ok (Some
               {| doc_type := VString "FeatureCollection";
                  features := Some [SampleSelection.alabamaFeature;
                                    SampleSelection.californiaFeature] |})))
            Selection.initialPage)) = [stat]
    /\ geoid stat = VString "06".
Proof.
  destruct (handleStateSelect_colours_state "06" 200 200 true
              (Sample.headers "state") Sample.california []
              {| doc_type := VString "FeatureCollection";
                 features := Some [SampleSelection.alabamaFeature;
                                   SampleSelection.californiaFeature] |}
              [SampleSelection.alabamaFeature; SampleSelection.californiaFeature]
              Selection.initialPage eq_refl)
    as (stat & Hv & Hg & _).
  - repeat (constructor; [eexists; reflexivity|]). constructor.
  - exists stat. split; [exact Hv | exact Hg].
Defined.

(** ** What the effect does in the meantime *)

Module EffectFacts.
Import -(notations) HousingStats.
Import Selection.

(** The effect writes the map, the table, the error and [loading], and
    nothing else. *)
Lemma effectEvent_frame (ev : EffectEvent) (pg : Page) :
  let pg' := effectEvent ev pg in
  states pg' = states pg /\ counties pg' = counties pg
  /\ selectedState (component pg') = selectedState (component pg)
  /\ selectedCounty (component pg') = selectedCounty (component pg)
  /\ geoLevel (component pg') = geoLevel (component pg)
  /\ stateStats (component pg') = stateStats (component pg)
  /\ countyStats (component pg') = countyStats (component pg).
Proof.
  destruct pg as [st ss cs]. destruct st. destruct ev as [|[[geoData vacData]|e]]; cbn.
  - unfold updateMap_start. cbn. destruct (bool_decide _); cbn; repeat split.
  - unfold updateMap_settle, HousingStats.tryCatchFinally, HousingStats.andThen,
      HousingStats.await, HousingStats.throw, HousingStats.ret, HousingStats.set.
    cbn. destruct (hasFeatures geoData); cbn; repeat split.
  - repeat split.
Qed.

Lemma meanwhile_frame (evs : list EffectEvent) (pg : Page) :
  let pg' := meanwhile evs pg in
  states pg' = states pg /\ counties pg' = counties pg
  /\ selectedState (component pg') = selectedState (component pg)
  /\ selectedCounty (component pg') = selectedCounty (component pg)
  /\ geoLevel (component pg') = geoLevel (component pg)
  /\ stateStats (component pg') = stateStats (component pg)
  /\ countyStats (component pg') = countyStats (component pg).
Proof.
  revert pg. induction evs as [|ev evs IH]; intros pg; [cbn; repeat split|].
  cbn [meanwhile fold_left].
  destruct (IH (effectEvent ev pg)) as (H1 & H2 & H3 & H4 & H5 & H6 & H7).
  destruct (effectEvent_frame ev pg) as (G1 & G2 & G3 & G4 & G5 & G6 & G7).
  unfold meanwhile in *. cbn zeta.
  repeat split; etransitivity; eassumption.
Qed.

End EffectFacts.

(** X7.  [handleStateSelect] awaits [loadCounties], and [loadCounties]
    lowers [loading] when it ends.  So for a state id that is not empty
    the handler raises [loading] and asks for the counties of that state;
    and as soon as that answer is in, whatever it is and whatever the
    effect has started or settled in the meantime, [loading] is lowered
    although the state is selected, the level is [state] and the handler's
    own two fetches are still to come.  The guard of [handleCountySelect]
    is then open: for a county id that is not empty it starts a county
    cycle for this state, with both ids padded. *)
Theorem handleStateSelect_lowers_loading_early
    (localeCompare : string -> string -> number) (stateId countyId : string)
    (fetched : Fetched Selection.Parsed) (evs : list Selection.EffectEvent)
    (pg : Selection.Page) :
  stateId <> "" ->
  let started := Selection.handleStateSelect_start stateId pg in
  let mid := Selection.loadCounties_settle localeCompare fetched
               (Selection.meanwhile evs (fst started)) in
  snd started = Some (Selection.countiesRequest stateId)
  /\ HousingStats.loading (Selection.component (fst started)) = true
  /\ HousingStats.selectedState (Selection.component (fst started)) = stateId
  /\ HousingStats.loading (Selection.component mid) = false
  /\ HousingStats.selectedState (Selection.component mid) = stateId
  /\ HousingStats.geoLevel (Selection.component mid) = "state"
  /\ (countyId <> "" ->
      snd (HousingStats.handleCountySelect_start countyId (Selection.component mid))
      = Some {| HousingStats.county_formattedStateId := formattedStateId stateId;
                HousingStats.county_formattedCountyId := formattedCountyId countyId |}).
Proof.
  intros Hne started mid.
  assert (Hstart : snd started = Some (Selection.countiesRequest stateId)
                   /\ HousingStats.loading (Selection.component (fst started)) = true
                   /\ HousingStats.selectedState (Selection.component (fst started)) = stateId
                   /\ HousingStats.geoLevel (Selection.component (fst started)) = "state").
  { unfold started, Selection.handleStateSelect_start, Selection.loadCounties_start.
    rewrite bool_decide_eq_false_2 by exact Hne. cbn. repeat split. }
  destruct Hstart as (Hreq & Hload & Hsel & Hlevel).
  destruct (EffectFacts.meanwhile_frame evs (fst started))
    as (_ & _ & Hsel' & _ & Hlevel' & _).
  cbn zeta in Hsel', Hlevel'. rewrite Hsel in Hsel'. rewrite Hlevel in Hlevel'.
  destruct (SelectionFacts.loadCounties_settle_cases localeCompare fetched
              (Selection.meanwhile evs (fst started))) as (_ & Hc & _).
  fold mid in Hc.
  assert (Hmid : HousingStats.loading (Selection.component mid) = false
                 /\ HousingStats.selectedState (Selection.component mid) = stateId
                 /\ HousingStats.geoLevel (Selection.component mid) = "state").
  { rewrite Hc. destruct (Selection.component (Selection.meanwhile evs (fst started))).
    cbn in *. repeat split; assumption. }
  destruct Hmid as (Hl & Hs & Hg).
  repeat split; try assumption.
  intros Hcounty. unfold HousingStats.handleCountySelect_start.
  rewrite Hl, Hs, (bool_decide_eq_false_2 _ Hcounty), (bool_decide_eq_false_2 _ Hne).
  reflexivity.
Qed.

Lemma handleStateSelect_lowers_loading_early_witness :
  HousingStats.loading
    (Selection.component
       (Selection.loadCounties_settle SampleSelection.byCodeUnit
          (Response true 200 (Ok (Selection.TableBody SampleSelection.countyTable)))
          (Selection.meanwhile
             [Selection.EffectStarts;
              Selection.EffectSettles (Throw (Error "Failed to fetch GeoJSON: Failed to fetch"))]
             (fst (Selection.handleStateSelect_start "06" Selection.initialPage))))) = false
  /\ snd (HousingStats.handleCountySelect_start "37"
            (Selection.component
               (Selection.loadCounties_settle SampleSelection.byCodeUnit
                  (Response true 200 (Ok (Selection.TableBody SampleSelection.countyTable)))
                  (Selection.meanwhile
                     [Selection.EffectStarts;
                      Selection.EffectSettles
                        (Throw (Error "Failed to fetch GeoJSON: Failed to fetch"))]
                     (fst (Selection.handleStateSelect_start "06" Selection.initialPage))))))
     = Some {| HousingStats.county_formattedStateId := "06";
               HousingStats.county_formattedCountyId := "037" |}.
Proof.
  destruct (handleStateSelect_lowers_loading_early SampleSelection.byCodeUnit "06" "37"
              (Response true 200 (Ok (Selection.TableBody SampleSelection.countyTable)))
              [Selection.EffectStarts;
               Selection.EffectSettles (Throw (Error "Failed to fetch GeoJSON: Failed to fetch"))]
              Selection.initialPage) as (_ & _ & _ & Hl & _ & _ & Hc);
    [discriminate|].
  split; [exact Hl | apply Hc; discriminate].
Defined.

(** ** Choosing a county *)

Module CountySelectFacts.
Import Number NumText Js.
Import HousingStats.

Lemma mapM_length {A B} (f : A -> result B) (l : list A) (ys : list B) :
  mapM f l = Ok ys -> length ys = length l.
Proof.
  revert ys. induction l as [|x l IH]; intros ys; cbn [mapM].
  - intros [= <-]. reflexivity.
  - destruct (f x) as [y|e]; [|discriminate]. cbn [bind].
    destruct (mapM f l) as [ys'|e]; [|discriminate]. cbn [bind].
    intros [= <-]. simpl. now rewrite (IH ys').
Qed.

(** Every feature that [handleCountySelect] converts carries the combined
    identifier as its [GEOID]. *)
Lemma mapM_countyFeature (c : CountyCycle) (fs out : list Feature) :
  mapM (countyFeature c) fs = Ok out ->
  Forall (fun o => exists p,
            properties o = Some p
            /\ get p "GEOID"
               = VString (county_formattedStateId c +:+ county_formattedCountyId c)) out.
Proof.
  revert out. induction fs as [|f fs IH]; intros out; cbn [mapM].
  - intros [= <-]. constructor.
  - destruct (countyFeature c f) as [o|e] eqn:Ho; [|discriminate]. cbn [bind].
    destruct (mapM (countyFeature c) fs) as [os|e]; [|discriminate]. cbn [bind].
    intros [= <-]. constructor; [|now apply IH].
    unfold countyFeature in Ho. destruct (geometry f) as [g|]; [|discriminate].
    cbn in Ho. injection Ho as <-. eexists. split; [reflexivity|].
    unfold get. now rewrite lookup_insert_eq.
Qed.

Lemma mapM_countyFeature_defined (c : CountyCycle) (fs : list Feature) :
  Forall (fun f => is_Some (geometry f)) fs ->
  exists out, mapM (countyFeature c) fs = Ok out.
Proof.
  induction 1 as [|f fs [g Hg] _ [out Hout]]; [now exists []|].
  cbn [mapM]. unfold countyFeature at 1. rewrite Hg, Hout. cbn. now eexists.
Qed.

Lemma append_nonempty (s t : string) : s <> "" -> s +:+ t <> "".
Proof. destruct s; [congruence | discriminate]. Qed.

Lemma formattedStateId_nonempty (s : string) : formattedStateId s <> "".
Proof.
  pose proof (StrFacts.length_padStart_char 2 "0" s) as H.
  unfold formattedStateId. destruct (Str.padStart 2 "0" s); [simpl in H; lia | discriminate].
Qed.

(** A statistic colours every feature whose [GEOID] is its non-empty
    [geoid]. *)
Lemma style_single (stat : AreaStatistic) (o : Feature) (p : Bag) (key : string) :
  properties o = Some p -> get p "GEOID" = VString key -> key <> "" ->
  geoid stat = VString key ->
  exists s, style [stat] o = Ok s
            /\ fillColor s = getColor (parseFloat (vacancyRate stat)).
Proof.
  intros Hp Hkey Hne Hgeoid. rewrite (StyleFacts.style_with_properties _ _ _ Hp).
  eexists. split; [reflexivity|]. cbn [fillColor find List.find].
  unfold or. rewrite Hkey. cbn [ToBoolean]. rewrite bool_decide_eq_false_2 by exact Hne.
  cbn [negb]. rewrite Hgeoid, (StyleFacts.strict_eq_true _ _ eq_refl). reflexivity.
Qed.

(** What the part of [handleCountySelect] after its [await]s leaves. *)
Lemma handleCountySelect_settle_cases (c : CountyCycle)
    (statsFetched : Fetched (option Table)) (geoFetched : Fetched (option GeoDoc))
    (st : State) :
  let after := handleCountySelect_settle c statsFetched geoFetched st in
  loading after = false
  /\ selectedState after = selectedState st
  /\ selectedCounty after = selectedCounty st
  /\ geoLevel after = geoLevel st
  /\ stateStats after = stateStats st
  /\ ((error after = error st
       /\ exists stat summary out,
            vacancyData after = [stat]
            /\ geoid stat
               = VString (county_formattedStateId c +:+ county_formattedCountyId c)
            /\ vacancyRate stat = vacancyRateOf (totalHousing stat) (vacant stat)
            /\ geoJsonData after
               = Some {| doc_type := VString "FeatureCollection"; features := Some out |}
            /\ out <> []
            /\ Forall (fun o => exists p,
                 properties o = Some p
                 /\ get p "GEOID"
                    = VString (county_formattedStateId c +:+ county_formattedCountyId c))
                 out
            /\ countyStats after = Some summary
            /\ summary_name summary = name stat
            /\ summary_totalHousing summary = totalHousing stat
            /\ summary_vacant summary = vacant stat
            /\ occupied summary = sub (totalHousing stat) (vacant stat)
            /\ summary_vacancyRate summary = vacancyRate stat)
      \/ (vacancyData after = [] /\ geoJsonData after = None /\ countyStats after = None
          /\ exists msg, error after = Some ("Failed to load county data: " +:+ msg))).
Proof.
  intros after. destruct st.
  unfold after, handleCountySelect_settle, tryCatchFinally, andThen, await, throw, ret,
    set, responseOf, promiseAll.
  destruct statsFetched as [e|ok status body]; cbn -[item];
    [repeat apply conj; try reflexivity; right; repeat apply conj; try reflexivity;
     eexists; reflexivity|].
  destruct geoFetched as [e|ok' status' body']; cbn -[item];
    [repeat apply conj; try reflexivity; right; repeat apply conj; try reflexivity;
     eexists; reflexivity|].
  destruct ok, ok'; cbn -[item];
    try (repeat apply conj; try reflexivity; right; repeat apply conj; try reflexivity;
         eexists; reflexivity).
  destruct body as [[[|headers [|countyRow rest]]|]|e];
    destruct body' as [[[ty [[|f fs]|]]|]|e']; cbn -[item];
    try (repeat apply conj; try reflexivity; right; repeat apply conj; try reflexivity;
         eexists; reflexivity).
  destruct (beforeComma (item countyRow 0)) as [countyName|e]; cbn -[item];
    [|repeat apply conj; try reflexivity; right; repeat apply conj; try reflexivity;
      eexists; reflexivity].
  destruct (bind (countyFeature c f)
              (fun y => bind (mapM (countyFeature c) fs) (fun ys => Ok (y :: ys))))
    as [out|e] eqn:Hout; cbn -[item].
  - repeat apply conj; try reflexivity. left. repeat apply conj; try reflexivity.
    eexists _, _, out. repeat apply conj; try reflexivity.
    + intros ->. apply (mapM_length _ (f :: fs)) in Hout. discriminate Hout.
    + exact (mapM_countyFeature c (f :: fs) out Hout).
  - repeat apply conj; try reflexivity; right; repeat apply conj; try reflexivity;
      eexists; reflexivity.
Qed.

End CountySelectFacts.

(** X8.  Choosing a county either succeeds as a whole or empties the view.
    For every answer of the two services, when the part of
    [handleCountySelect] after its [await]s has run, [loading] is lowered,
    the selection is as it was, and either the county's summary, its
    geometry (at least one feature) and its one statistic are all set and
    the error is as it was, or the summary, the map and the table are all
    empty and an error starting with the handler's prefix is reported. *)
Theorem handleCountySelect_all_or_nothing
    (c : HousingStats.CountyCycle) (statsFetched : Fetched (option Table))
    (geoFetched : Fetched (option GeoDoc)) (st : HousingStats.State) :
  let after := HousingStats.handleCountySelect_settle c statsFetched geoFetched st in
  HousingStats.loading after = false
  /\ HousingStats.selectedState after = HousingStats.selectedState st
  /\ HousingStats.selectedCounty after = HousingStats.selectedCounty st
  /\ HousingStats.geoLevel after = HousingStats.geoLevel st
  /\ HousingStats.stateStats after = HousingStats.stateStats st
  /\ ((HousingStats.error after = HousingStats.error st
       /\ exists stat summary out,
            HousingStats.vacancyData after = [stat]
            /\ HousingStats.geoJsonData after
               = Some {| doc_type := VString "FeatureCollection"; features := Some out |}
            /\ out <> []
            /\ HousingStats.countyStats after = Some summary
            /\ summary_name summary = name stat
            /\ summary_totalHousing summary = totalHousing stat
            /\ summary_vacant summary = vacant stat
            /\ occupied summary = Number.sub (totalHousing stat) (vacant stat)
            /\ summary_vacancyRate summary = vacancyRate stat)
      \/ (HousingStats.vacancyData after = []
          /\ HousingStats.geoJsonData after = None
          /\ HousingStats.countyStats after = None
          /\ exists msg, HousingStats.error after
                         = Some ("Failed to load county data: " +:+ msg))).
Proof.
  intros after.
  destruct (CountySelectFacts.handleCountySelect_settle_cases c statsFetched geoFetched st)
    as (Hl & Hs & Hc & Hg & Hss & Hcases). fold after in Hl, Hs, Hc, Hg, Hss, Hcases.
  repeat apply conj; try assumption.
  destruct Hcases as [(Herr & stat & summary & out & Hv & _ & _ & Hgeo & Hne & _ & Hrest)
                     |Hfail].
  - left. split; [exact Herr|]. exists stat, summary, out.
    repeat apply conj; try assumption; apply Hrest.
  - right. exact Hfail.
Qed.

(** X9.  The last part of [handleCountySelect], when it succeeds, leaves a
    map on which every feature is coloured by the county's vacancy rate.
    For every state before it and every pair of ids, the cycle carrying
    the ids padded as the handler pads them: when the statistical service
    answers with a header row and the county's row, whose first cell is a
    string, and the boundary service answers with features that all have a
    geometry, then once the part of the handler after its [await]s has run
    the one statistic has the padded state id followed by the padded
    county id as its [geoid] and the text before the first comma as its
    name, there is one feature on the map per feature received, [style]
    gives each of them the colour of the statistic's rate, the error is as
    it was, [loading] is lowered, and the effect of [MapUpdater] does not
    skip the fit: it calls the map library, and ends with the map fitted or
    with the library's failure written to the console. *)
Theorem handleCountySelect_colours_county
    (Layer Bounds : Type) (geoJSON : GeoDoc -> result Layer)
    (getBounds : Layer -> result Bounds) (fitBounds : Bounds -> Z * Z -> result unit)
    (stateId countyId : string) (st : HousingStats.State)
    (statsStatus geoStatus : N) (headers countyRow : list value) (rest : Table)
    (countyName : string) (doc : GeoDoc) (f : Feature) (fs : list Feature) :
  Js.item countyRow 0 = VString countyName ->
  features doc = Some (f :: fs) ->
  Forall (fun f => is_Some (geometry f)) (f :: fs) ->
  let c := {| HousingStats.county_formattedStateId := formattedStateId stateId;
              HousingStats.county_formattedCountyId := formattedCountyId countyId |} in
  let after := HousingStats.handleCountySelect_settle c
                 (Response true statsStatus (Ok (Some (headers :: countyRow :: rest))))
                 (Response true geoStatus (Ok (Some doc))) st in
  exists stat out,
    HousingStats.vacancyData after = [stat]
    /\ geoid stat = VString (formattedStateId stateId +:+ formattedCountyId countyId)
    /\ name stat = VString (Js.before_comma countyName)
    /\ HousingStats.geoJsonData after
       = Some {| doc_type := VString "FeatureCollection"; features := Some out |}
    /\ length out = length (f :: fs)
    /\ Forall (fun o => exists s,
         HousingStats.style [stat] o = Ok s
         /\ HousingStats.fillColor s
            = HousingStats.getColor (NumText.parseFloat (vacancyRate stat))) out
    /\ HousingStats.error after = HousingStats.error st
    /\ HousingStats.loading after = false
    /\ MapComponent.MapUpdater geoJSON getBounds fitBounds
         (HousingStats.geoJsonData after) <> MapComponent.Skipped.
Proof.
  intros Hname Hfs Hgeo c after.
  destruct (CountySelectFacts.mapM_countyFeature_defined c (f :: fs) Hgeo) as [out Hout].
  pose proof (CountySelectFacts.mapM_length _ _ _ Hout) as Hlen.
  pose proof (CountySelectFacts.mapM_countyFeature c _ _ Hout) as Hkeys.
  destruct doc as [ty ofs]. simpl in Hfs. subst ofs.
  assert (Hafter : after
    = HousingStats.setLoading false
        (HousingStats.setVacancyData
           [{| name := VString (Js.before_comma countyName);
               geoid := VString (HousingStats.county_formattedStateId c
                                 +:+ HousingStats.county_formattedCountyId c);
               totalHousing := Number.or_zero (NumText.parseInt (Js.ToString
                 (Js.item countyRow
                    (Js.indexOf headers (VString HousingStats.variables_totalHousing)))));
               vacant := Number.or_zero (NumText.parseInt (Js.ToString
                 (Js.item countyRow
                    (Js.indexOf headers (VString HousingStats.variables_vacant)))));
               vacancyRate := HousingStats.vacancyRateOf
                 (Number.or_zero (NumText.parseInt (Js.ToString
                    (Js.item countyRow
                       (Js.indexOf headers (VString HousingStats.variables_totalHousing))))))
                 (Number.or_zero (NumText.parseInt (Js.ToString
                    (Js.item countyRow
                       (Js.indexOf headers (VString HousingStats.variables_vacant)))))) |}]
           (HousingStats.setGeoJsonData
              (Some {| doc_type := VString "FeatureCollection"; features := Some out |})
              (HousingStats.setCountyStats
                 (HousingStats.countyStats after) st)))).
  { unfold after, HousingStats.handleCountySelect_settle, HousingStats.tryCatchFinally,
      HousingStats.andThen, HousingStats.await, HousingStats.throw, HousingStats.ret,
      HousingStats.set, HousingStats.responseOf, HousingStats.promiseAll.
    cbn -[Js.item]. rewrite Hname. cbn -[Js.item]. cbn [Js.mapM] in Hout. rewrite Hout.
    reflexivity. }
  rewrite Hafter. cbn. eexists _, out. repeat apply conj; try reflexivity.
  - exact Hlen.
  - eapply Forall_impl; [exact Hkeys|]. intros o (p & Hp & Hkey).
    apply (CountySelectFacts.style_single _ o p _ Hp Hkey); [|reflexivity].
    apply CountySelectFacts.append_nonempty, CountySelectFacts.formattedStateId_nonempty.
  - destruct out as [|o out']; [discriminate Hlen|].
    unfold MapComponent.MapUpdater. cbn.
    now destruct (Js.bind _ _).
Qed.

Lemma handleCountySelect_colours_county_witness :
  exists stat out,
    HousingStats.vacancyData
      (HousingStats.handleCountySelect_settle Sample.losAngelesCycle Sample.countyTable
         (Response true 200 (Ok (Some {| doc_type := VUndefined;
                                         features := Some [Sample.esriCounty] |})))
         Sample.stateOnly) = [stat]
    /\ geoid stat = VString "06037"
    /\ HousingStats.geoJsonData
         (HousingStats.handleCountySelect_settle Sample.losAngelesCycle Sample.countyTable
            (Response true 200 (Ok (Some {| doc_type := VUndefined;
                                            features := Some [Sample.esriCounty] |})))
            Sample.stateOnly)
       = Some {| doc_type := VString "FeatureCollection"; features := Some out |}
    /\ length out = 1%nat.
Proof.
  destruct (handleCountySelect_colours_county unit unit
              (fun _ => Ok tt) (fun _ => Ok tt) (fun _ _ => Ok tt)
              "6" "37" Sample.stateOnly
              200 200 (Sample.headers "county") Sample.losAngeles []
              "Los Angeles County, California"
              {| doc_type := VUndefined; features := Some [Sample.esriCounty] |}
              Sample.esriCounty [] eq_refl eq_refl)
    as (stat & out & Hv & Hg & _ & Hd & Hl & _).
  - repeat (constructor; [eexists; reflexivity|]). constructor.
  - exists stat, out. repeat split; assumption.
Defined.

(** ** The two fetchers and the cycle that awaits them *)

Module FetcherFacts.
Import Js HousingStats.

Lemma rethrow_wraps {A} (prefix : string) (r : result A) (e : exn) :
  rethrow prefix r = Throw e -> exists msg, e = Error (prefix +:+ msg).
Proof. destruct r as [a|e']; [discriminate|]. intros [= <-]. now eexists. Qed.

End FetcherFacts.

(** X10.  Whatever goes wrong inside them, a failure of [fetchGeoJSON] or
    of [fetchVacancyData] is an [Error] whose message starts with the
    fetcher's own prefix; so the failure of a fetch cycle always carries
    one of the two prefixes, and that message is what [updateMap] shows. *)
Theorem fetchers_wrap_failures
    (net : Network) (level stateId countyId : string) (e : Js.exn) :
  (HousingStats.fetchGeoJSON net level stateId countyId = Throw e ->
     exists msg, e = Error ("Failed to fetch GeoJSON: " +:+ msg))
  /\ (HousingStats.fetchVacancyData net level stateId countyId = Throw e ->
        exists msg, e = Error ("Failed to fetch vacancy data: " +:+ msg))
  /\ (HousingStats.cycleOutcome net
        {| HousingStats.level := level; HousingStats.stateId := stateId;
           HousingStats.countyId := countyId |} = Throw e ->
        forall st,
          exists msg,
            (HousingStats.error (HousingStats.updateMap_settle (Throw e) st)
             = Some ("Failed to fetch GeoJSON: " +:+ msg)
             \/ HousingStats.error (HousingStats.updateMap_settle (Throw e) st)
                = Some ("Failed to fetch vacancy data: " +:+ msg))).
Proof.
  split; [|split].
  - apply FetcherFacts.rethrow_wraps.
  - apply FetcherFacts.rethrow_wraps.
  - unfold HousingStats.cycleOutcome, HousingStats.promiseAll. cbn.
    destruct (HousingStats.fetchGeoJSON net level stateId countyId) as [g|e1] eqn:Hg.
    + destruct (HousingStats.fetchVacancyData net level stateId countyId) as [v|e2] eqn:Hv;
        [discriminate|].
      intros [= <-] st. destruct (FetcherFacts.rethrow_wraps _ _ _ Hv) as [msg ->].
      exists msg. right. reflexivity.
    + intros [= <-] st. destruct (FetcherFacts.rethrow_wraps _ _ _ Hg) as [msg ->].
      exists msg. left. reflexivity.
Qed.

(** X11.  When the boundary service answers every request with a response
    that is not ok, [fetchGeoJSON] fails at the levels [county] and [tract]
    with the HTTP status in its message; at the level [state] the status
    is not looked at, and with no state id the parsed body is returned as
    the geometry. *)
Theorem fetchGeoJSON_http_status
    (net : Network) (stateId countyId : string) (status : N)
    (body : result (option GeoDoc)) :
  (forall r, boundaries net r = Response false status body) ->
  HousingStats.fetchGeoJSON net "county" stateId countyId
  = Throw (Error ("Failed to fetch GeoJSON: HTTP error! status: " +:+ pretty status))
  /\ HousingStats.fetchGeoJSON net "tract" stateId countyId
     = Throw (Error ("Failed to fetch GeoJSON: HTTP error! status: " +:+ pretty status))
  /\ HousingStats.fetchGeoJSON net "state" "" countyId
     = Js.rethrow "Failed to fetch GeoJSON: " body.
Proof.
  intros Hnet. unfold HousingStats.fetchGeoJSON, HousingStats.queryBoundaries.
  cbn. rewrite !Hnet. cbn. repeat split. now destruct body.
Qed.

Lemma fetchGeoJSON_http_status_witness :
  HousingStats.fetchGeoJSON
    {| statistics := fun _ => Rejected (TypeError "Failed to fetch");
       boundaries := fun _ => Response false 404 (Ok None) |} "county" "06" "037"
  = Throw (Error "Failed to fetch GeoJSON: HTTP error! status: 404").
Proof.
  apply (fetchGeoJSON_http_status
           {| statistics := fun _ => Rejected (TypeError "Failed to fetch");
              boundaries := fun _ => Response false 404 (Ok None) |}
           "06" "037" 404 (Ok None)).
  reflexivity.
Defined.

(** X12.  At the level [state], when the boundary file parses to a
    document whose features all have properties, [fetchGeoJSON] returns
    the document as it is when no state id is given, and otherwise the
    document with exactly the features whose property [id] is the state
    id, in their order; the county id plays no part. *)
Theorem fetchGeoJSON_state_keeps_chosen
    (net : Network) (stateId countyId : string) (ok : bool) (status : N)
    (doc : GeoDoc) (fs : list Feature) :
  boundaries net {| url := HousingStats.statesUrl; params := [] |}
  = Response ok status (Ok (Some doc)) ->
  features doc = Some fs ->
  Forall (fun f => is_Some (properties f)) fs ->
  HousingStats.fetchGeoJSON net "state" stateId countyId
  = Ok (Some (if bool_decide (stateId = "") then doc
              else {| doc_type := doc_type doc;
                      features := Some (List.filter
                        (fun f => match properties f with
                                  | Some p => Js.strict_eq (Js.get p "id") (VString stateId)
                                  | None => false
                                  end) fs) |})).
Proof.
  intros Hnet Hfs Hall. unfold HousingStats.fetchGeoJSON. cbn. rewrite Hnet. cbn.
  destruct (bool_decide (stateId = "")); [reflexivity|].
  rewrite Hfs. cbn. rewrite (StateSelectFacts.filterM_hasStateId stateId fs Hall).
  reflexivity.
Qed.

Lemma fetchGeoJSON_state_keeps_chosen_witness :
  HousingStats.fetchGeoJSON
    {| statistics := fun _ => Rejected (TypeError "Failed to fetch");
       boundaries := Selection.geography SampleSelection.services |} "state" "06" ""
  = Ok (Some {| doc_type := VString "FeatureCollection";
                features := Some [SampleSelection.californiaFeature] |}).
Proof.
  apply (fetchGeoJSON_state_keeps_chosen
           {| statistics := fun _ => Rejected (TypeError "Failed to fetch");
              boundaries := Selection.geography SampleSelection.services |}
           "06" "" true 200
           {| doc_type := VString "FeatureCollection";
              features := Some [SampleSelection.alabamaFeature;
                                SampleSelection.californiaFeature] |}
           [SampleSelection.alabamaFeature; SampleSelection.californiaFeature]
           eq_refl eq_refl).
  repeat (constructor; [eexists; reflexivity|]). constructor.
Defined.

(** X13.  [updateMap] commits the geometry and the statistics of a cycle
    together or not at all.  When the part after its [await] has run,
    [loading] is lowered and the selection is as it was; and either the
    cycle gave a geometry document with features, both parts of the view
    are the cycle's, the error is as it was and [MapComponent] renders the
    layer, or both parts of the view are as they were and an error is
    shown. *)
Theorem updateMap_commits_both_or_neither
    (outcome : result (option GeoDoc * list AreaStatistic)) (st : HousingStats.State) :
  let after := HousingStats.updateMap_settle outcome st in
  HousingStats.loading after = false
  /\ HousingStats.selectedState after = HousingStats.selectedState st
  /\ HousingStats.selectedCounty after = HousingStats.selectedCounty st
  /\ HousingStats.geoLevel after = HousingStats.geoLevel st
  /\ ((exists geoData vacData,
         outcome = Ok (geoData, vacData)
         /\ HousingStats.hasFeatures geoData = true
         /\ HousingStats.geoJsonData after = geoData
         /\ HousingStats.vacancyData after = vacData
         /\ HousingStats.error after = HousingStats.error st
         /\ MapComponent.MapComponent (HousingStats.geoJsonData after) <> [])
      \/ (HousingStats.geoJsonData after = HousingStats.geoJsonData st
          /\ HousingStats.vacancyData after = HousingStats.vacancyData st
          /\ exists msg, HousingStats.error after = Some msg)).
Proof.
  intros after. destruct st.
  unfold after, HousingStats.updateMap_settle, HousingStats.tryCatchFinally,
    HousingStats.andThen, HousingStats.await, HousingStats.throw, HousingStats.ret,
    HousingStats.set.
  destruct outcome as [[geoData vacData]|e]; cbn.
  - destruct geoData as [[ty [fs|]]|]; cbn.
    + repeat apply conj; try reflexivity. left.
      eexists _, _. repeat apply conj; try reflexivity. discriminate.
    + repeat apply conj; try reflexivity. right.
      repeat apply conj; try reflexivity. eexists; reflexivity.
    + repeat apply conj; try reflexivity. right.
      repeat apply conj; try reflexivity. eexists; reflexivity.
  - repeat apply conj; try reflexivity. right.
    repeat apply conj; try reflexivity. eexists; reflexivity.
Qed.

(** ** Converting twice *)

Module EsriTwiceFacts.
Import Js MapUtils.

(** [esriFeature] throws nothing but a [TypeError]. *)
Lemma esriFeature_throws (f : Feature) (e : exn) :
  esriFeature f = Throw e -> exists msg, e = TypeError msg.
Proof.
  unfold esriFeature.
  destruct (geometry f) as [g|]; cbn; [|intros [= <-]; now eexists].
  destruct (attributes f) as [a|]; cbn; [discriminate|intros [= <-]; now eexists].
Qed.

Lemma esriFeature_incomplete (f : Feature) :
  geometry f = None \/ attributes f = None ->
  exists msg, esriFeature f = Throw (TypeError msg).
Proof.
  unfold esriFeature. intros [H|H].
  - rewrite H. cbn. now eexists.
  - destruct (geometry f) as [g|]; cbn; [rewrite H; cbn|]; now eexists.
Qed.

Lemma mapM_esriFeature_incomplete (fs : list Feature) (f : Feature) :
  In f fs -> (geometry f = None \/ attributes f = None) ->
  exists msg, mapM esriFeature fs = Throw (TypeError msg).
Proof.
  intros Hin Hf. induction fs as [|x fs IH]; [destruct Hin|].
  cbn [mapM]. destruct (esriFeature x) as [y|e] eqn:Hx.
  - cbn [bind]. destruct Hin as [->|Hin].
    + destruct (esriFeature_incomplete f Hf) as [msg Hmsg]. congruence.
    + destruct (IH Hin) as [msg ->]. cbn. now eexists.
  - destruct (esriFeature_throws x e Hx) as [msg ->]. cbn. now eexists.
Qed.

(** What [esriFeature] gives has no [attributes]. *)
Lemma mapM_esriFeature_output (fs out : list Feature) :
  mapM esriFeature fs = Ok out -> Forall (fun o => attributes o = None) out.
Proof.
  revert out. induction fs as [|f fs IH]; intros out; cbn [mapM].
  - intros [= <-]. constructor.
  - destruct (esriFeature f) as [o|e] eqn:Ho; [|discriminate]. cbn [bind].
    destruct (mapM esriFeature fs) as [os|e]; [|discriminate]. cbn [bind].
    intros [= <-]. constructor; [|now apply IH].
    unfold esriFeature in Ho. destruct (geometry f); [|discriminate].
    destruct (attributes f); [|discriminate]. cbn in Ho. now injection Ho as <-.
Qed.

End EsriTwiceFacts.

(** X14.  One feature without a geometry or without attributes makes
    [esriToGeoJSON] fail as a whole with a [TypeError]: no partial
    collection is returned. *)
Theorem esriToGeoJSON_rejects_incomplete_feature
    (doc : GeoDoc) (fs : list Feature) (f : Feature) :
  features doc = Some fs -> In f fs ->
  geometry f = None \/ attributes f = None ->
  exists msg, MapUtils.esriToGeoJSON (Some doc) = Throw (TypeError msg).
Proof.
  intros Hfs Hin Hf. destruct doc as [ty ofs]. simpl in Hfs. subst ofs.
  destruct (EsriTwiceFacts.mapM_esriFeature_incomplete fs f Hin Hf) as [msg Hmsg].
  exists msg. unfold MapUtils.esriToGeoJSON. now rewrite Hmsg.
Qed.

Lemma esriToGeoJSON_rejects_incomplete_feature_witness :
  exists msg,
    MapUtils.esriToGeoJSON
      (Some {| doc_type := VUndefined;
               features := Some [Sample.esriCounty; Sample.shownFeature] |})
    = Throw (TypeError msg).
Proof.
  apply (esriToGeoJSON_rejects_incomplete_feature
           {| doc_type := VUndefined;
              features := Some [Sample.esriCounty; Sample.shownFeature] |}
           [Sample.esriCounty; Sample.shownFeature] Sample.shownFeature eq_refl).
  - right. left. reflexivity.
  - right. reflexivity.
Defined.

(** X15.  [esriToGeoJSON] cannot be applied to its own result: whenever it
    succeeds with at least one feature, converting the collection it
    returned fails with a [TypeError], because a converted feature has
    [properties] and no [attributes]. *)
Theorem esriToGeoJSON_not_twice (esriData : option GeoDoc) (out : GeoDoc) :
  MapUtils.esriToGeoJSON esriData = Ok out ->
  features out <> Some [] ->
  exists msg, MapUtils.esriToGeoJSON (Some out) = Throw (TypeError msg).
Proof.
  intros Hout Hne. unfold MapUtils.esriToGeoJSON in Hout.
  destruct esriData as [[ty [fs|]]|]; try discriminate.
  destruct (Js.mapM MapUtils.esriFeature fs) as [converted|e] eqn:Hmap; [|discriminate].
  cbn in Hout. injection Hout as <-.
  pose proof (EsriTwiceFacts.mapM_esriFeature_output fs converted Hmap) as Hall.
  destruct converted as [|o os]; [now contradiction Hne|].
  destruct (EsriTwiceFacts.mapM_esriFeature_incomplete (o :: os) o) as [msg Hmsg].
  - now left.
  - right. now inversion Hall.
  - exists msg. unfold MapUtils.esriToGeoJSON. now rewrite Hmsg.
Qed.

Lemma esriToGeoJSON_not_twice_witness :
  exists msg,
    MapUtils.esriToGeoJSON
      (Some {| doc_type := VString "FeatureCollection";
               features := Some [EsriSpec.converted
                 {| geometry_type := VUndefined; rings := Some Sample.square;
                    coordinates := None |}
                 (<["STATE" := VString "06"]> (<["COUNTY" := VString "037"]>
                    (<["NAME" := VString "Los Angeles"]> ∅)))] |})
    = Throw (TypeError msg).
Proof.
  apply (esriToGeoJSON_not_twice
           (Some {| doc_type := VUndefined; features := Some [Sample.esriCounty] |})).
  - reflexivity.
  - discriminate.
Defined.

(** ** Reading a printed rate back *)

Module ReadBackFacts.
Import Number NumText.
#[local] Open Scope N_scope.

Lemma append_assoc (s t u : string) : (s +:+ t) +:+ u = s +:+ (t +:+ u).
Proof.
  induction s as [|c s IH]; [reflexivity|].
  change (String c ((s +:+ t) +:+ u) = String c (s +:+ (t +:+ u))). now rewrite IH.
Qed.

Lemma digit_of_char (d : N) : d < 10 -> digit_value 10 (pretty_N_char d) = Some d.
Proof.
  intros H.
  assert (Hd : d = 0 \/ d = 1 \/ d = 2 \/ d = 3 \/ d = 4 \/ d = 5 \/ d = 6 \/ d = 7
               \/ d = 8 \/ d = 9) by lia.
  repeat (destruct Hd as [->|Hd]; [reflexivity|]). subst d. reflexivity.
Qed.

(** A digit is no white space, no sign, and does not start [Infinity]. *)
Lemma digit_char_plain (d : N) (t : string) :
  d < 10 ->
  skip_spaces (String (pretty_N_char d) t) = String (pretty_N_char d) t
  /\ strip_sign (String (pretty_N_char d) t) = (false, String (pretty_N_char d) t)
  /\ String.prefix "Infinity" (String (pretty_N_char d) t) = false.
Proof.
  intros H.
  assert (Hd : d = 0 \/ d = 1 \/ d = 2 \/ d = 3 \/ d = 4 \/ d = 5 \/ d = 6 \/ d = 7
               \/ d = 8 \/ d = 9) by lia.
  repeat (destruct Hd as [->|Hd]; [repeat split|]). subst d. repeat split.
Qed.

Lemma pretty_head (n : N) :
  exists d t, d < 10 /\ pretty n = String (pretty_N_char d) t.
Proof.
  induction (N.lt_wf_0 n) as [n _ IH].
  destruct (N.lt_ge_cases n 10) as [H|H].
  - exists (n mod 10), "". split; [apply N.mod_lt; lia|].
    now apply FixedFacts.pretty_digit.
  - destruct (IH (n / 10)) as (d & t & Hd & Ht); [apply N.div_lt; lia|].
    rewrite (FixedFacts.pretty_last n H), Ht.
    exists d, (t +:+ String (pretty_N_char (n mod 10)) ""). split; [exact Hd | reflexivity].
Qed.

Lemma pretty_head_positive (n : N) :
  0 < n -> exists d t, 0 < d < 10 /\ pretty n = String (pretty_N_char d) t.
Proof.
  induction (N.lt_wf_0 n) as [n _ IH]. intros Hn.
  destruct (N.lt_ge_cases n 10) as [H|H].
  - exists n, "". split; [lia|].
    rewrite (FixedFacts.pretty_digit n H). now rewrite (N.mod_small n 10 H).
  - assert (Hq : 1 <= n / 10) by (apply N.div_le_lower_bound; lia).
    destruct (IH (n / 10)) as (d & t & Hd & Ht); [apply N.div_lt; lia | lia |].
    rewrite (FixedFacts.pretty_last n H), Ht.
    exists d, (t +:+ String (pretty_N_char (n mod 10)) ""). split; [exact Hd | reflexivity].
Qed.

Lemma append_empty (s : string) : s +:+ "" = s.
Proof.
  induction s as [|c s IH]; [reflexivity|].
  change (String c (s +:+ "") = String c s). now rewrite IH.
Qed.

(** Reading the digits of a printed number gives the number back. *)
Lemma digits_from_pretty (n count acc : N) (rest : string) :
  exists len,
    0 < len
    /\ digits_from 10 count acc (pretty n +:+ rest)
       = digits_from 10 (count + len) (acc * 10 ^ len + n) rest.
Proof.
  revert count acc rest. induction (N.lt_wf_0 n) as [n _ IH]. intros count acc rest.
  assert (Hmod : n mod 10 < 10) by (apply N.mod_lt; lia).
  destruct (N.lt_ge_cases n 10) as [H|H].
  - exists 1. split; [lia|]. rewrite (FixedFacts.pretty_digit n H).
    change (String (pretty_N_char (n mod 10)) "" +:+ rest)
      with (String (pretty_N_char (n mod 10)) rest).
    cbn [digits_from]. rewrite (digit_of_char _ Hmod).
    rewrite (N.mod_small n 10 H). reflexivity.
  - rewrite (FixedFacts.pretty_last n H), append_assoc.
    change (String (pretty_N_char (n mod 10)) "" +:+ rest)
      with (String (pretty_N_char (n mod 10)) rest).
    destruct (IH (n / 10) ltac:(apply N.div_lt; lia) count acc
                (String (pretty_N_char (n mod 10)) rest)) as (len & Hlen & ->).
    exists (len + 1). split; [lia|].
    cbn [digits_from]. rewrite (digit_of_char _ Hmod).
    f_equal; [lia|].
    rewrite N.pow_add_r. pose proof (N.div_mod n 10 ltac:(lia)) as Hdm.
    generalize dependent (n / 10). generalize dependent (n mod 10).
    generalize (10 ^ len). intros. lia.
Qed.

(** What [parseFloat] reads from a number printed with one decimal. *)
Lemma parseFloat_tenths (a d : N) :
  d < 10 ->
  parseFloat (pretty a +:+ "." +:+ pretty d) = rounded false ((a * 10 + d) * one_ulps) 10.
Proof.
  intros Hd. unfold parseFloat.
  destruct (pretty_head a) as (c & t & Hc & Ha).
  destruct (digit_char_plain c (t +:+ "." +:+ pretty d) Hc) as (Hsp & Hsg & Hinf).
  rewrite Ha.
  change (String (pretty_N_char c) t +:+ "." +:+ pretty d)
    with (String (pretty_N_char c) (t +:+ "." +:+ pretty d)).
  rewrite Hsp, Hsg, Hinf.
  change (String (pretty_N_char c) (t +:+ "." +:+ pretty d))
    with (String (pretty_N_char c) t +:+ "." +:+ pretty d).
  rewrite <- Ha. unfold leading_digits.
  destruct (digits_from_pretty a 0 0 ("." +:+ pretty d)) as (len & Hlen & ->).
  change ("." +:+ pretty d) with (String "." (pretty d)).
  cbn [digits_from digit_value]. change (digit_value 10 ".") with (@None N).
  cbv iota beta.
  rewrite (FixedFacts.pretty_digit d Hd), (N.mod_small d 10 Hd).
  cbn [digits_from]. rewrite (digit_of_char d Hd).
  destruct (N.eqb_spec (0 + len) 0) as [H0|_]; [lia|].
  cbn [andb exponent_part].
  replace (0 * 10 ^ len + a) with a by lia.
  reflexivity.
Qed.

(** Rounding does not step below a bound that is representable at the
    spacing in use. *)
Lemma round_ulps_lower (p q c e k : N) :
  0 < q -> c * 2 ^ e * q <= p -> N.log2 (p / q) - 52 <= e ->
  round_ulps p q = Some k -> c * 2 ^ e <= k.
Proof.
  intros Hq Hp Hlog. unfold round_ulps.
  set (s := N.log2 (p / q) - 52) in *.
  assert (He : 2 ^ e = 2 ^ (e - s) * 2 ^ s)
    by (rewrite <- N.pow_add_r; f_equal; lia).
  assert (Hpos : 0 < 2 ^ s) by (apply N.neq_0_lt_0, N.pow_nonzero; lia).
  rewrite He in *. clear He Hlog.
  generalize dependent (2 ^ s). intros t Hp Hpos.
  generalize dependent (2 ^ (e - s)). intros u Hp.
  assert (Hd : 0 < q * t) by (apply N.mul_pos_pos; assumption).
  pose proof (N.div_mod p (q * t) ltac:(lia)) as Hdm.
  pose proof (N.mod_lt p (q * t) ltac:(lia)) as Hr.
  generalize dependent (p / (q * t)). intros m Hdm.
  generalize dependent (p mod (q * t)). intros r Hdm Hr.
  assert (Hm : c * u <= m) by nia.
  assert (Hk : m <= match 2 * r ?= q * t with
                    | Lt => m
                    | Eq => if N.even m then m else m + 1
                    | Gt => m + 1
                    end)
    by (destruct (2 * r ?= q * t); [destruct (N.even m)|..]; lia).
  generalize dependent (match 2 * r ?= q * t with
                        | Lt => m
                        | Eq => if N.even m then m else m + 1
                        | Gt => m + 1
                        end). intros m' Hk.
  destruct (_ <=? _); [discriminate|]. intros [= <-]. nia.
Qed.

Lemma log2_below (x e : N) : x < 2 ^ (e + 53) -> N.log2 x - 52 <= e.
Proof.
  intros H. destruct (N.eq_dec x 0) as [->|Hx]; [change (N.log2 0) with 0; lia|].
  assert (N.log2 x < e + 53) by (apply N.log2_lt_pow2; lia). lia.
Qed.

Lemma one_ulps_pos : 0 < one_ulps.
Proof. unfold one_ulps. apply N.neq_0_lt_0, N.pow_nonzero. lia. Qed.

(** A number of tenths against a whole threshold: the comparison of the
    numbers read back is the comparison of the tenths. *)
Lemma geb_tenths (n c : N) :
  n < 2 ^ 50 -> 0 < c -> c <= 25 ->
  geb (rounded false (n * one_ulps) 10) (Finite false (c * one_ulps)) = (10 * c <=? n).
Proof.
  intros Hn Hc0 Hc.
  assert (H50 : 2 ^ 50 = 1125899906842624) by reflexivity.
  pose proof one_ulps_pos as HU.
  assert (Hdiv : n * one_ulps / 10 < 2 ^ (1074 + 53)).
  { apply N.Div0.div_lt_upper_bound.
    replace (2 ^ (1074 + 53)) with (2 ^ 53 * one_ulps)
      by (unfold one_ulps; rewrite <- N.pow_add_r; f_equal).
    change (2 ^ 53) with 9007199254740992. nia. }
  destruct (RangeFacts.round_ulps_bound (n * one_ulps) 10 (2 ^ 50) 1074) as (k & Hk & Hkl).
  - lia.
  - fold one_ulps. nia.
  - apply log2_below. rewrite <- N.pow_add_r. apply N.pow_lt_mono_r; lia.
  - unfold overflow_ulps. rewrite <- N.pow_add_r. apply N.pow_lt_mono_r; lia.
  - unfold rounded. rewrite Hk. unfold geb, compare, signed.
    destruct (N.leb_spec (10 * c) n) as [Hge|Hlt].
    + assert (Hlow : c * 2 ^ 1074 <= k).
      { apply (round_ulps_lower (n * one_ulps) 10 c 1074 k); try assumption; try lia.
        - fold one_ulps. nia.
        - now apply log2_below. }
      fold one_ulps in Hlow.
      destruct (Z.compare_spec (Z.of_N k) (Z.of_N (c * one_ulps))); [reflexivity|lia|reflexivity].
    + destruct (RangeFacts.round_ulps_bound (n * one_ulps) 10 (16 * c - 1) 1070)
        as (k' & Hk' & Hkl').
      * lia.
      * assert (HU16 : one_ulps = 16 * 2 ^ 1070) by (unfold one_ulps; reflexivity).
        rewrite HU16. generalize (2 ^ 1070). intros v. nia.
      * apply log2_below.
        apply N.lt_le_trans with (2 ^ 9 * 2 ^ 1070).
        -- apply N.mul_lt_mono_pos_r; [apply N.neq_0_lt_0, N.pow_nonzero; lia|].
           change (2 ^ 9) with 512. lia.
        -- rewrite <- N.pow_add_r. apply N.pow_le_mono_r; lia.
      * unfold overflow_ulps.
        apply N.lt_le_trans with (2 ^ 9 * 2 ^ 1070).
        -- apply N.mul_lt_mono_pos_r; [apply N.neq_0_lt_0, N.pow_nonzero; lia|].
           change (2 ^ 9) with 512. lia.
        -- rewrite <- N.pow_add_r. apply N.pow_le_mono_r; lia.
      * rewrite Hk in Hk'. injection Hk' as <-.
        assert (Hlt' : k < c * one_ulps).
        { assert (HU16 : one_ulps = 16 * 2 ^ 1070) by (unfold one_ulps; reflexivity).
          assert (0 < 2 ^ 1070) by (apply N.neq_0_lt_0, N.pow_nonzero; lia).
          rewrite HU16. generalize dependent (2 ^ 1070). intros v. intros. nia. }
        destruct (Z.compare_spec (Z.of_N k) (Z.of_N (c * one_ulps))); [lia|reflexivity|lia].
Qed.

End ReadBackFacts.

(** ** The colour of a rate *)

Module ColourFacts.
Import Number NumText Js HousingStats.

Lemma gtb_positive (b : N) : (0 < b)%N -> gtb (Finite false b) zero = true.
Proof.
  intros Hb. unfold gtb, compare, zero, signed.
  destruct (Z.compare_spec (Z.of_N b) (Z.of_N 0)); [lia | lia | reflexivity].
Qed.

Lemma thresholds :
  of_Z 25 = Finite false (25 * one_ulps) /\ of_Z 20 = Finite false (20 * one_ulps)
  /\ of_Z 15 = Finite false (15 * one_ulps) /\ of_Z 10 = Finite false (10 * one_ulps)
  /\ of_Z 7 = Finite false (7 * one_ulps) /\ of_Z 5 = Finite false (5 * one_ulps)
  /\ of_Z 3 = Finite false (3 * one_ulps) /\ of_Z 1 = Finite false (1 * one_ulps).
Proof. repeat split; apply ExactFacts.of_Z_integer; reflexivity. Qed.

(** The colour of a number of tenths read back from its text. *)
Lemma getColor_tenths (n : N) :
  (n < 2 ^ 50)%N ->
  getColor (rounded false (n * one_ulps) 10)
  = if (250 <=? n)%N then "#a50f15" else
    if (200 <=? n)%N then "#de2d26" else
    if (150 <=? n)%N then "#fb6a4a" else
    if (100 <=? n)%N then "#fcae91" else
    if (70 <=? n)%N then "#fee5d9" else
    if (50 <=? n)%N then "#edf8e9" else
    if (30 <=? n)%N then "#bae4b3" else
    if (10 <=? n)%N then "#74c476" else
    "#238b45".
Proof.
  intros Hn. unfold getColor.
  destruct thresholds as (-> & -> & -> & -> & -> & -> & -> & ->).
  rewrite !ReadBackFacts.geb_tenths by (try exact Hn; lia).
  reflexivity.
Qed.

(** The colour of an area with whole counts is the colour of its rate as
    printed. *)
Lemma colour_of_counts (total vacantUnits : Z) :
  (0 < total < 2 ^ 53)%Z -> (0 <= vacantUnits <= 2 ^ 40)%Z ->
  exists n : N,
    vacancyRateOf (of_Z total) (of_Z vacantUnits)
    = pretty (n / 10)%N +:+ "." +:+ pretty (n mod 10)%N
    /\ (Z.abs (2 * Z.of_N n * total - 2000 * vacantUnits) <= total)%Z
    /\ parseFloat (vacancyRateOf (of_Z total) (of_Z vacantUnits)) <> NaN
    /\ getColor (parseFloat (vacancyRateOf (of_Z total) (of_Z vacantUnits)))
       = if (250 <=? n)%N then "#a50f15" else
         if (200 <=? n)%N then "#de2d26" else
         if (150 <=? n)%N then "#fb6a4a" else
         if (100 <=? n)%N then "#fcae91" else
         if (70 <=? n)%N then "#fee5d9" else
         if (50 <=? n)%N then "#edf8e9" else
         if (30 <=? n)%N then "#bae4b3" else
         if (10 <=? n)%N then "#74c476" else
         "#238b45".
Proof.
  intros Ht Hv.
  destruct (RowFacts.vacancyRateOf_counts total vacantUnits Ht) as (n & Hrate & Hnear);
    [lia|].
  replace (vacantUnits <? 0)%Z with false in Hrate by (symmetry; apply Z.ltb_ge; lia).
  change ("" +:+ pretty (n / 10)%N +:+ "." +:+ pretty (n mod 10)%N)
    with (pretty (n / 10)%N +:+ "." +:+ pretty (n mod 10)%N) in Hrate.
  replace (Z.abs vacantUnits) with vacantUnits in Hnear by lia.
  assert (Hn : (n < 2 ^ 50)%N).
  { change (2 ^ 50)%N with 1125899906842624%N.
    change (2 ^ 40)%Z with 1099511627776%Z in Hv.
    change (2 ^ 53)%Z with 9007199254740992%Z in Ht. nia. }
  assert (Hread : parseFloat (pretty (n / 10)%N +:+ "." +:+ pretty (n mod 10)%N)
                  = rounded false (n * one_ulps) 10).
  { rewrite ReadBackFacts.parseFloat_tenths by (apply N.mod_lt; lia).
    do 2 f_equal. pose proof (N.div_mod n 10 ltac:(lia)). lia. }
  exists n. rewrite Hrate, Hread. repeat split.
  - exact Hnear.
  - unfold rounded. now destruct (round_ulps _ _).
  - now apply getColor_tenths.
Qed.

(** [parseInt] reads a printed number back. *)
Lemma parseInt_pretty (n : N) : parseInt (pretty n) = rounded false (n * one_ulps) 1.
Proof.
  destruct (N.eq_dec n 0%N) as [->|Hn]; [reflexivity|].
  destruct (ReadBackFacts.pretty_head_positive n ltac:(lia)) as (d & t & Hd & Ht).
  unfold parseInt.
  assert (Hplain : skip_spaces (pretty n) = pretty n
                   /\ strip_sign (pretty n) = (false, pretty n)
                   /\ match pretty n with
                      | String "0" (String "x" s') | String "0" (String "X" s') => (16%N, s')
                      | _ => (10%N, pretty n)
                      end = (10%N, pretty n)).
  { rewrite Ht.
    assert (Hc : (d = 1 \/ d = 2 \/ d = 3 \/ d = 4 \/ d = 5 \/ d = 6 \/ d = 7 \/ d = 8
                  \/ d = 9)%N) by lia.
    repeat (destruct Hc as [->|Hc]; [repeat split|]). subst d. repeat split. }
  destruct Hplain as (-> & -> & ->). unfold leading_digits.
  rewrite <- (ReadBackFacts.append_empty (pretty n)).
  destruct (ReadBackFacts.digits_from_pretty n 0 0 "") as (len & Hlen & ->).
  cbn [digits_from]. destruct (N.eqb_spec (0 + len)%N 0%N) as [H0|_]; [lia|].
  now replace (0 * 10 ^ len + n)%N with n by lia.
Qed.

Lemma or_zero_count (n : N) :
  (n < 2 ^ 53)%N -> or_zero (parseInt (pretty n)) = of_Z (Z.of_N n).
Proof.
  intros Hn. rewrite parseInt_pretty.
  unfold of_Z. replace (Z.of_N n <? 0)%Z with false by (symmetry; apply Z.ltb_ge; lia).
  rewrite Zabs2N.id. unfold rounded. rewrite (ExactFacts.round_ulps_integer n Hn).
  unfold or_zero, truthy. destruct (N.eqb_spec (n * one_ulps)%N 0%N) as [H0|_];
    [now rewrite H0 | reflexivity].
Qed.

(** The first statistic that a predicate holds of, or none. *)
Lemma find_cases {A} (p : A -> bool) (l : list A) :
  (find p l = None /\ Forall (fun x => p x = false) l)
  \/ (exists before d after,
        l = (before ++ d :: after)%list /\ Forall (fun x => p x = false) before
        /\ p d = true /\ find p l = Some d).
Proof.
  unfold find. induction l as [|x l IH]; [left; split; [reflexivity | constructor]|].
  cbn [List.find]. destruct (p x) eqn:Hx.
  - right. exists [], x, l. repeat split; [constructor | exact Hx].
  - destruct IH as [[Hnone Hall]|(before & d & after & -> & Hall & Hd & Hfind)].
    + left. split; [exact Hnone | now constructor].
    + right. exists (x :: before), d, after. repeat split; try assumption.
      now constructor.
Qed.

End ColourFacts.

(** X16.  The rate of an area whose vacant count does not exceed its
    total is never printed above 100.0: for a finite total greater than 0
    and a finite vacant count of at most the same magnitude, the rate is a
    sign (none when the vacant count is not negative), and [n] tenths
    printed with one decimal, with [n] at most 1000. *)
Theorem vacancyRateOf_at_most_100 (negative : bool) (a b : N) :
  (0 < b)%N -> (a <= b)%N ->
  exists (sign : string) (n : N),
    HousingStats.vacancyRateOf (Finite false b) (Finite negative a)
    = sign +:+ pretty (n / 10)%N +:+ "." +:+ pretty (n mod 10)%N
    /\ (n <= 1000)%N
    /\ (sign = "" \/ sign = "-")
    /\ (negative = false -> sign = "").
Proof.
  intros Hb Hab.
  destruct (RangeFacts.rate_at_most_100 negative a b Hb Hab) as (k & Hk & Hkl).
  pose proof ReadBackFacts.one_ulps_pos as HU.
  exists (if negative && negb (k =? 0)%N then "-" else ""), (NumText.nearest_scaled 1 k).
  split; [|split; [|split]].
  - apply RateFacts.vacancyRateOf_positive;
      [now apply ColourFacts.gtb_positive | exact Hk|].
    change (10 ^ 21)%N with 1000000000000000000000%N.
    generalize dependent Number.one_ulps. intros U. intros. nia.
  - destruct (FixedFacts.nearest_scaled_one k) as [Hup _].
    generalize dependent (NumText.nearest_scaled 1 k).
    generalize dependent Number.one_ulps. intros U. intros. nia.
  - destruct (negative && negb (k =? 0)%N); [now right | now left].
  - now intros ->.
Qed.

Lemma vacancyRateOf_at_most_100_witness :
  exists (sign : string) (n : N),
    HousingStats.vacancyRateOf (Finite false 80) (Finite false 23)
    = sign +:+ pretty (n / 10)%N +:+ "." +:+ pretty (n mod 10)%N
    /\ (n <= 1000)%N.
Proof.
  destruct (vacancyRateOf_at_most_100 false 23 80) as (sign & n & Hr & Hn & _);
    [lia | lia |].
  exists sign, n. split; [exact Hr | exact Hn].
Defined.

(** X17.  The colour of a fetched area is the colour of its rate as
    printed.  For a row whose cells under the two variables hold the
    decimal texts of the counts, the total greater than 0 and below [2^53]
    and the vacant count up to [2^40], the statistic's counts are those
    numbers; its rate is [n] tenths printed with one decimal, within a
    twentieth of the exact percentage; [parseFloat], as [style] and the
    table's ordering apply it, reads a number from that text, never
    [NaN]; and [getColor] of what it reads is the colour of the band that
    [n] tenths fall in, the bands starting at 25, 20, 15, 10, 7, 5, 3 and 1
    percent. *)
Theorem fetched_row_colour_by_printed_rate
    (headers row : list value) (total vacantUnits : N) :
  Js.item row (Js.indexOf headers (VString "B25002_001E")) = VString (pretty total) ->
  Js.item row (Js.indexOf headers (VString "B25002_003E")) = VString (pretty vacantUnits) ->
  (0 < total < 2 ^ 53)%N -> (vacantUnits <= 2 ^ 40)%N ->
  let stat := HousingStats.rowToStatistic headers row in
  totalHousing stat = Number.of_Z (Z.of_N total)
  /\ vacant stat = Number.of_Z (Z.of_N vacantUnits)
  /\ exists n : N,
       vacancyRate stat = pretty (n / 10)%N +:+ "." +:+ pretty (n mod 10)%N
       /\ (Z.abs (2 * Z.of_N n * Z.of_N total - 2000 * Z.of_N vacantUnits)
           <= Z.of_N total)%Z
       /\ NumText.parseFloat (vacancyRate stat) <> NaN
       /\ HousingStats.getColor (NumText.parseFloat (vacancyRate stat))
          = if (250 <=? n)%N then "#a50f15" else
            if (200 <=? n)%N then "#de2d26" else
            if (150 <=? n)%N then "#fb6a4a" else
            if (100 <=? n)%N then "#fcae91" else
            if (70 <=? n)%N then "#fee5d9" else
            if (50 <=? n)%N then "#edf8e9" else
            if (30 <=? n)%N then "#bae4b3" else
            if (10 <=? n)%N then "#74c476" else
            "#238b45".
Proof.
  intros Htotal Hvacant Ht Hv stat.
  assert (H53 : (2 ^ 53 = 9007199254740992)%N) by reflexivity.
  assert (H40 : (2 ^ 40 = 1099511627776)%N) by reflexivity.
  assert (HT : totalHousing stat = Number.of_Z (Z.of_N total)).
  { unfold stat, HousingStats.rowToStatistic. cbn [totalHousing].
    change HousingStats.variables_totalHousing with "B25002_001E".
    rewrite Htotal. apply ColourFacts.or_zero_count. lia. }
  assert (HV : vacant stat = Number.of_Z (Z.of_N vacantUnits)).
  { unfold stat, HousingStats.rowToStatistic. cbn [vacant].
    change HousingStats.variables_vacant with "B25002_003E".
    rewrite Hvacant. apply ColourFacts.or_zero_count. lia. }
  split; [exact HT|]. split; [exact HV|].
  assert (HR : vacancyRate stat
               = HousingStats.vacancyRateOf (totalHousing stat) (vacant stat))
    by reflexivity.
  rewrite HR, HT, HV.
  apply ColourFacts.colour_of_counts.
  - change (2 ^ 53)%Z with 9007199254740992%Z. lia.
  - change (2 ^ 40)%Z with 1099511627776%Z. lia.
Qed.

Lemma fetched_row_colour_by_printed_rate_witness :
  totalHousing (HousingStats.rowToStatistic (Sample.headers "county") Sample.losAngeles)
  = Number.of_Z 3591981.
Proof.
  apply (fetched_row_colour_by_printed_rate (Sample.headers "county") Sample.losAngeles
           3591981 209743); [reflexivity | reflexivity | lia | lia].
Defined.

(** ** Popups *)

(** X18.  The popup and the colour of a feature come from the same
    statistic.  For a feature with properties, [onEachFeature] and [style]
    both succeed, and the handler for the pointer leaving the feature sets
    the whole style that [style] gives; either no statistic has the
    feature's identifier, no popup is bound and the colour is the one for
    rate 0, or the popup is the one of the first statistic with that
    identifier and the colour is the one of that statistic's rate. *)
Theorem onEachFeature_popup_matches_style
    (toLocaleString : number -> string) (vacancyData : list AreaStatistic)
    (feature : Feature) (props : Bag) :
  properties feature = Some props ->
  let key := Js.or (Js.get props "GEOID") (Js.get props "id") in
  exists calls handlers s,
    Popups.onEachFeature toLocaleString vacancyData feature = Ok (calls, handlers)
    /\ HousingStats.style vacancyData feature = Ok s
    /\ Popups.mouseout handlers = Ok [Popups.setStyle (Popups.allOf s)]
    /\ ((Forall (fun d => geoid d <> key) vacancyData
         /\ calls = []
         /\ HousingStats.fillColor s = HousingStats.getColor Number.zero)
        \/ (exists before d after,
              vacancyData = (before ++ d :: after)%list
              /\ Forall (fun d' => geoid d' <> key) before
              /\ geoid d = key
              /\ calls = [Popups.bindPopup
                            (Popups.createPopupContent toLocaleString (Some d))]
              /\ HousingStats.fillColor s
                 = HousingStats.getColor (NumText.parseFloat (vacancyRate d)))).
Proof.
  intros Hp key.
  assert (Hstyle := StyleFacts.style_with_properties vacancyData feature props Hp).
  fold key in Hstyle.
  unfold Popups.onEachFeature, HousingStats.featureKey, Js.field_of.
  rewrite Hstyle, Hp. cbn [Js.bind].
  rewrite (StyleFacts.findM_pure (fun d => Js.strict_eq (geoid d) key)). cbn [Js.bind].
  destruct (ColourFacts.find_cases (fun d => Js.strict_eq (geoid d) key) vacancyData)
    as [[Hnone Hall]|(before & d & after & Hsplit & Hall & Hd & Hfind)].
  - rewrite Hnone. eexists _, _, _. repeat split. left. repeat split.
    eapply Forall_impl; [exact Hall|]. intros d Hd.
    unfold Js.strict_eq in Hd. now apply bool_decide_eq_false in Hd.
  - rewrite Hfind. eexists _, _, _. repeat split. right.
    exists before, d, after. repeat split; try assumption.
    + eapply Forall_impl; [exact Hall|]. intros d' Hd'.
      unfold Js.strict_eq in Hd'. now apply bool_decide_eq_false in Hd'.
    + unfold Js.strict_eq in Hd. now apply bool_decide_eq_true in Hd.
Qed.

Lemma onEachFeature_popup_matches_style_witness :
  exists calls handlers s,
    Popups.onEachFeature (fun _ => "80") [Sample.shownStatistic] Sample.shownFeature
    = Ok (calls, handlers)
    /\ HousingStats.style [Sample.shownStatistic] Sample.shownFeature = Ok s
    /\ Popups.mouseout handlers = Ok [Popups.setStyle (Popups.allOf s)].
Proof.
  destruct (onEachFeature_popup_matches_style (fun _ => "80") [Sample.shownStatistic]
              Sample.shownFeature (<["GEOID" := VString "06037"]> ∅) eq_refl)
    as (calls & handlers & s & Hc & Hs & Hm & _).
  exists calls, handlers, s. repeat split; assumption.
Defined.

(** ** What a failed state selection leaves behind *)

(** X19.  [handleStateSelect] sets the state's summary before it filters
    the boundary file, and nothing clears the summary afterwards.  When the
    statistical service answers with a table of the header row and the
    state's row, and the boundary file parses to [null] or to a document
    without a feature list, the handler reports an error with its prefix,
    clears the selected state, lowers [loading] and leaves the map and the
    table as they were, and the summary of the state stays set. *)
Theorem handleStateSelect_summary_outlives_failure
    (stateId : string) (status status' : N) (ok' : bool)
    (headers stateRow : list value) (rest : Table) (geoData : option GeoDoc)
    (pg : Selection.Page) :
  match geoData with
  | Some doc => features doc = None
  | None => True
  end ->
  let pg' := Selection.handleStateSelect_settle stateId
               (Response true status
                  (Ok (Selection.TableBody (headers :: stateRow :: rest))))
               (Response ok' status' (Ok geoData)) pg in
  let st' := Selection.component pg' in
  (exists summary,
     HousingStats.stateStats st' = Some summary
     /\ summary_name summary = Js.item stateRow 0
     /\ summary_vacancyRate summary
        = HousingStats.vacancyRateOf (summary_totalHousing summary) (summary_vacant summary)
     /\ occupied summary
        = Number.sub (summary_totalHousing summary) (summary_vacant summary))
  /\ HousingStats.selectedState st' = ""
  /\ (exists msg, HousingStats.error st' = Some ("Failed to load state data: " +:+ msg))
  /\ HousingStats.loading st' = false
  /\ HousingStats.geoJsonData st' = HousingStats.geoJsonData (Selection.component pg)
  /\ HousingStats.vacancyData st' = HousingStats.vacancyData (Selection.component pg).
Proof.
  intros Hgeo pg' st'. subst st'.
  unfold pg', Selection.handleStateSelect_settle, Selection.tryCatchFinally,
    Selection.andThen, Selection.await, Selection.throw, Selection.ret, Selection.set,
    Selection.responded, HousingStats.promiseAll.
  destruct geoData as [[ty ofs]|]; [simpl in Hgeo; subst ofs|]; cbn -[Js.item];
    (split; [eexists; repeat split|]); repeat split; eexists; reflexivity.
Qed.

Lemma handleStateSelect_summary_outlives_failure_witness :
  exists summary,
    HousingStats.stateStats
      (Selection.component
         (Selection.handleStateSelect_settle "06"
            (Response true 200 (Ok (Selection.TableBody SampleSelection.statsTable)))
            (Response true 200 (Ok None)) Selection.initialPage)) = Some summary
    /\ summary_name summary = VString "California".
Proof.
  destruct (handleStateSelect_summary_outlives_failure "06" 200 200 true
              (Sample.headers "state") Sample.california [] None Selection.initialPage I)
    as [(summary & Hs & Hn & _) _].
  exists summary. split; [exact Hs | exact Hn].
Defined.

(** ** When a county cycle starts *)

(** X20.  [handleCountySelect] does nothing while [loading] is raised.
    Otherwise it records the chosen county, clears the county summary and
    switches the level to [county]; it starts a fetch cycle exactly when
    both the county id and the selected state are not empty, and then it
    raises [loading], clears the error, and the cycle carries the state id
    padded to two characters and the county id padded to three. *)
Theorem handleCountySelect_starts_cycle (countyId : string) (st : HousingStats.State) :
  let started := HousingStats.handleCountySelect_start countyId st in
  (HousingStats.loading st = true -> started = (st, None))
  /\ (HousingStats.loading st = false ->
      HousingStats.selectedCounty (fst started) = countyId
      /\ HousingStats.countyStats (fst started) = None
      /\ HousingStats.geoLevel (fst started) = "county"
      /\ HousingStats.selectedState (fst started) = HousingStats.selectedState st
      /\ HousingStats.geoJsonData (fst started) = HousingStats.geoJsonData st
      /\ HousingStats.vacancyData (fst started) = HousingStats.vacancyData st
      /\ (countyId = "" \/ HousingStats.selectedState st = "" ->
          snd started = None
          /\ HousingStats.loading (fst started) = false
          /\ HousingStats.error (fst started) = HousingStats.error st)
      /\ (countyId <> "" -> HousingStats.selectedState st <> "" ->
          snd started
          = Some {| HousingStats.county_formattedStateId :=
                      Str.padStart 2 "0" (HousingStats.selectedState st);
                    HousingStats.county_formattedCountyId := Str.padStart 3 "0" countyId |}
          /\ HousingStats.loading (fst started) = true
          /\ HousingStats.error (fst started) = None)).
Proof.
  intros started. unfold started, HousingStats.handleCountySelect_start.
  split; intros Hl; rewrite Hl; [reflexivity|].
  destruct (decide (countyId = "")) as [Hc|Hc];
    destruct (decide (HousingStats.selectedState st = "")) as [Hs|Hs];
    rewrite ?(bool_decide_eq_true_2 _ Hc), ?(bool_decide_eq_false_2 _ Hc),
      ?(bool_decide_eq_true_2 _ Hs), ?(bool_decide_eq_false_2 _ Hs); cbn;
    repeat split; try assumption; try reflexivity; intros; try tauto;
    repeat split; try assumption; try contradiction.
Qed.

(** ** A table without rows, and a level change *)

(** X21.  A table without data rows is no error.  When the statistical
    service answers with an empty table or with the header row alone,
    whether or not the response is ok, [fetchVacancyData] returns no
    statistic; and with no statistic [style] colours every feature, even
    one without properties, with the colour for rate 0. *)
Theorem fetchVacancyData_without_rows
    (net : Network) (level stateId countyId : string) (ok : bool) (status : N)
    (t : Table) :
  statistics net (HousingStats.vacancyRequest level stateId countyId)
  = Response ok status (Ok (Some t)) ->
  (length t <= 1)%nat ->
  HousingStats.fetchVacancyData net level stateId countyId = Ok []
  /\ forall feature,
       exists s, HousingStats.style [] feature = Ok s
                 /\ HousingStats.fillColor s = "#238b45".
Proof.
  intros Hnet Hlen. split.
  - unfold HousingStats.fetchVacancyData. rewrite Hnet. cbn.
    destruct t as [|headers [|row rows]]; [reflexivity | reflexivity | simpl in Hlen; lia].
  - intros feature. eexists. split; [reflexivity|]. apply StyleFacts.getColor_zero.
Qed.

Lemma fetchVacancyData_without_rows_witness :
  HousingStats.fetchVacancyData
    {| statistics := fun _ => Response true 200 (Ok (Some [Sample.headers "county"]));
       boundaries := fun _ => Rejected (TypeError "Failed to fetch") |}
    "county" "06" "" = Ok [].
Proof.
  apply (fetchVacancyData_without_rows
           {| statistics := fun _ => Response true 200 (Ok (Some [Sample.headers "county"]));
              boundaries := fun _ => Rejected (TypeError "Failed to fetch") |}
           "county" "06" "" true 200 [Sample.headers "county"] eq_refl).
  simpl. lia.
Defined.

(** X22.  [handleGeoLevelChange] commits the geometry and the statistics
    of its cycle together or not at all, and it commits whatever geometry
    the cycle gave.  When the part after its [await] has run, [loading] is
    lowered and the selection and the level are as they were; and either
    both parts of the view are the cycle's and the error is as it was,
    [MapComponent] rendering the layer exactly when the geometry is a
    document with a feature list, or both parts of the view are as they
    were and an error starting with the handler's prefix is shown. *)
Theorem handleGeoLevelChange_commits_both_or_neither
    (outcome : result (option GeoDoc * list AreaStatistic)) (st : HousingStats.State) :
  let after := HousingStats.handleGeoLevelChange_settle outcome st in
  HousingStats.loading after = false
  /\ HousingStats.selectedState after = HousingStats.selectedState st
  /\ HousingStats.selectedCounty after = HousingStats.selectedCounty st
  /\ HousingStats.geoLevel after = HousingStats.geoLevel st
  /\ ((exists geoData vacData,
         outcome = Ok (geoData, vacData)
         /\ HousingStats.geoJsonData after = geoData
         /\ HousingStats.vacancyData after = vacData
         /\ HousingStats.error after = HousingStats.error st
         /\ (MapComponent.MapComponent geoData <> []
             <-> HousingStats.hasFeatures geoData = true))
      \/ (HousingStats.geoJsonData after = HousingStats.geoJsonData st
          /\ HousingStats.vacancyData after = HousingStats.vacancyData st
          /\ exists msg, HousingStats.error after
                         = Some ("Failed to update geography level: " +:+ msg))).
Proof.
  intros after. destruct st.
  unfold after, HousingStats.handleGeoLevelChange_settle, HousingStats.tryCatchFinally,
    HousingStats.andThen, HousingStats.await, HousingStats.set.
  destruct outcome as [[geoData vacData]|e]; cbn.
  - repeat apply conj; try reflexivity. left.
    eexists _, _. repeat apply conj; try reflexivity;
      destruct geoData as [[ty [fs|]]|]; cbn; try discriminate; try reflexivity;
      intros H; try discriminate; now contradiction H.
  - repeat apply conj; try reflexivity. right.
    repeat apply conj; try reflexivity. eexists; reflexivity.
Qed.

(** ** The legend against the colours *)

Module LegendFacts.
Import Number HousingStats.

Lemma geb_trans (x y z : number) :
  geb x y = true -> geb y z = true -> geb x z = true.
Proof.
  unfold geb, compare.
  destruct x as [|sx|sx a], y as [|sy|sy b], z as [|sz|sz c];
    try discriminate; try (destruct sx, sy, sz; (discriminate || reflexivity));
    try (destruct sx, sy; (discriminate || reflexivity));
    try (destruct sy, sz; (discriminate || reflexivity));
    try (destruct sx, sz; (discriminate || reflexivity));
    try (destruct sx; (discriminate || reflexivity));
    try (destruct sy; (discriminate || reflexivity));
    try (destruct sz; (discriminate || reflexivity)).
  destruct (Z.compare_spec (signed sx a) (signed sy b));
    destruct (Z.compare_spec (signed sy b) (signed sz c));
    destruct (Z.compare_spec (signed sx a) (signed sz c));
    try discriminate; try reflexivity; lia.
Qed.

End LegendFacts.

(** X23.  The legend shows exactly the colours the map can have, from the
    highest band down: [getColor] always gives one of the legend's
    swatches, every swatch is the colour of some rate, and of two rates
    the greater one never has a swatch further down the legend. *)
Theorem getColor_matches_Legend :
  (forall rate, In (HousingStats.getColor rate) Display.Legend)
  /\ (forall c, In c Display.Legend -> exists rate, HousingStats.getColor rate = c)
  /\ (forall r1 r2, Number.geb r1 r2 = true ->
        exists i j : nat,
          Display.Legend !! i = Some (HousingStats.getColor r1)
          /\ Display.Legend !! j = Some (HousingStats.getColor r2)
          /\ (i <= j)%nat).
Proof.
  split; [|split].
  - intros rate. unfold HousingStats.getColor, Display.Legend.
    repeat match goal with
           | |- context [if Number.geb rate ?c then _ else _] =>
               destruct (Number.geb rate c)
           end; simpl; tauto.
  - intros c Hc. unfold Display.Legend in Hc. simpl in Hc.
    destruct Hc as [<-|[<-|[<-|[<-|[<-|[<-|[<-|[<-|[<-|[]]]]]]]]]].
    + exists (Number.of_Z 25). vm_compute. reflexivity.
    + exists (Number.of_Z 20). vm_compute. reflexivity.
    + exists (Number.of_Z 15). vm_compute. reflexivity.
    + exists (Number.of_Z 10). vm_compute. reflexivity.
    + exists (Number.of_Z 7). vm_compute. reflexivity.
    + exists (Number.of_Z 5). vm_compute. reflexivity.
    + exists (Number.of_Z 3). vm_compute. reflexivity.
    + exists (Number.of_Z 1). vm_compute. reflexivity.
    + exists Number.zero. vm_compute. reflexivity.
  - intros r1 r2 Hge. unfold HousingStats.getColor, Display.Legend.
    assert (Hup : forall c, Number.geb r2 c = true -> Number.geb r1 c = true)
      by (intros c; now apply LegendFacts.geb_trans).
    generalize dependent (Number.of_Z 25). intros t25.
    generalize dependent (Number.of_Z 20). intros t20.
    generalize dependent (Number.of_Z 15). intros t15.
    generalize dependent (Number.of_Z 10). intros t10.
    generalize dependent (Number.of_Z 7). intros t7.
    generalize dependent (Number.of_Z 5). intros t5.
    generalize dependent (Number.of_Z 3). intros t3.
    generalize dependent (Number.of_Z 1). intros t1.
    repeat match goal with
           | |- context [if Number.geb r2 ?c then _ else _] =>
               let E := fresh "E" in
               destruct (Number.geb r2 c) eqn:E;
               [ rewrite (Hup c E);
                 repeat match goal with
                        | |- context [if Number.geb r1 ?c' then _ else _] =>
                            destruct (Number.geb r1 c')
                        end;
                 solve [ ((exists 0%nat) + (exists 1%nat) + (exists 2%nat)
                          + (exists 3%nat) + (exists 4%nat) + (exists 5%nat)
                          + (exists 6%nat) + (exists 7%nat) + (exists 8%nat));
                         ((exists 0%nat) + (exists 1%nat) + (exists 2%nat)
                          + (exists 3%nat) + (exists 4%nat) + (exists 5%nat)
                          + (exists 6%nat) + (exists 7%nat) + (exists 8%nat));
                         split; [reflexivity | split; [reflexivity | lia]] ]
               | ]
           end.
    repeat match goal with
           | |- context [if Number.geb r1 ?c' then _ else _] =>
               destruct (Number.geb r1 c')
           end;
      solve [ ((exists 0%nat) + (exists 1%nat) + (exists 2%nat)
               + (exists 3%nat) + (exists 4%nat) + (exists 5%nat)
               + (exists 6%nat) + (exists 7%nat) + (exists 8%nat));
              exists 8%nat; split; [reflexivity | split; [reflexivity | lia]] ].
Qed.

(** ** The levels of the older copy *)

(** X24.  The older copy of [fetchGeoJSON] takes the four levels and no
    other.  When the boundary service answers every request with one and the
    same parsed document, the fetch returns that document at each of the levels
    [state], [county], [tract] and [block]; at every other level it fails
    with the message for an invalid level behind the fetcher's prefix.  A
    rejected fetch at the level [state] is passed on as it is, without the
    prefix. *)
Theorem legacy_fetchGeoJSON_levels
    (net : Network) (level stateId countyId : string) :
  (forall ok status doc,
     (forall r, boundaries net r = Response ok status (Ok doc)) ->
     (level = "state" \/ level = "county" \/ level = "tract" \/ level = "block") ->
     Legacy.fetchGeoJSON net level stateId countyId = Ok doc)
  /\ (level <> "state" -> level <> "county" -> level <> "tract" -> level <> "block" ->
      Legacy.fetchGeoJSON net level stateId countyId
      = Throw (Error "Failed to fetch GeoJSON: Invalid geography level"))
  /\ (forall e,
        boundaries net {| url := HousingStats.statesUrl; params := [] |} = Rejected e ->
        Legacy.fetchGeoJSON net "state" stateId countyId = Throw e).
Proof.
  split; [|split].
  - intros ok status doc Hnet Hlevel. unfold Legacy.fetchGeoJSON, Legacy.fetched.
    rewrite !Hnet. destruct Hlevel as [-> | [-> | [-> | ->]]]; reflexivity.
  - intros Hs Hc Ht Hb. unfold Legacy.fetchGeoJSON.
    now rewrite !bool_decide_eq_false_2 by assumption.
  - intros e He. unfold Legacy.fetchGeoJSON, Legacy.fetched. cbn. now rewrite He.
Qed.

(** ** What a failed selection says *)

(** X25.  The message of a failed state selection.  When the statistics
    fetch is rejected and the boundary fetch is answered, the rejection is
    reported with its own message behind the handler's prefix.  When both
    fetches are answered and the statistics response is not ok,
    the message names the HTTP status and carries the prefix twice,
    whatever the bodies are.  When the statistics response is ok and both
    bodies parse, a statistics body that is [null] or a table of fewer than
    two rows is reported as invalid state data, whatever the boundary
    file holds. *)
Theorem handleStateSelect_failure_messages (stateId : string) (pg : Selection.Page) :
  let shown := fun statsFetched geoFetched =>
    HousingStats.error
      (Selection.component
         (Selection.handleStateSelect_settle stateId statsFetched geoFetched pg)) in
  (forall e ok' status' body',
     shown (Rejected e) (Response ok' status' body')
     = Some ("Failed to load state data: " +:+ Js.message e))
  /\ (forall status body ok' status' body',
        shown (Response false status body) (Response ok' status' body')
        = Some ("Failed to load state data: Failed to load state data: "
                +:+ pretty status))
  /\ (forall status ok' status' geoData,
        shown (Response true status (Ok Selection.NullBody))
              (Response ok' status' (Ok geoData))
        = Some "Failed to load state data: Invalid state data received")
  /\ (forall status ok' status' geoData t,
        (length t < 2)%nat ->
        shown (Response true status (Ok (Selection.TableBody t)))
              (Response ok' status' (Ok geoData))
        = Some "Failed to load state data: Invalid state data received").
Proof.
  intros shown. subst shown. cbv beta.
  unfold Selection.handleStateSelect_settle, Selection.tryCatchFinally,
    Selection.andThen, Selection.await, Selection.throw, Selection.ret, Selection.set,
    Selection.responded, HousingStats.promiseAll.
  repeat apply conj.
  - intros e ok' status' body'. reflexivity.
  - intros status body ok' status' body'. reflexivity.
  - intros status ok' status' geoData. reflexivity.
  - intros status ok' status' geoData t Hlen.
    destruct t as [|headers [|stateRow rest]]; [reflexivity | reflexivity|].
    simpl in Hlen. lia.
Qed.

(** X26.  The message of a failed county selection, and which failure
    comes first.  When both fetches are answered and either response is
    not ok, the message is the one for a failed fetch, whatever the bodies
    are, even ones that do not parse.  When both responses are ok and both
    bodies parse, a statistics body that is no table or has fewer than two
    rows is reported as invalid statistics, whatever the geometry is,
    even when that has no feature. *)
Theorem handleCountySelect_failure_messages
    (c : HousingStats.CountyCycle) (st : HousingStats.State) :
  let shown := fun statsFetched geoFetched =>
    HousingStats.error
      (HousingStats.handleCountySelect_settle c statsFetched geoFetched st) in
  (forall ok status body ok' status' body',
     ok && ok' = false ->
     shown (Response ok status body) (Response ok' status' body')
     = Some "Failed to load county data: Failed to fetch county data")
  /\ (forall status status' geoData,
        shown (Response true status (Ok None)) (Response true status' (Ok geoData))
        = Some "Failed to load county data: Invalid statistics data received")
  /\ (forall status status' geoData t,
        (length t < 2)%nat ->
        shown (Response true status (Ok (Some t))) (Response true status' (Ok geoData))
        = Some "Failed to load county data: Invalid statistics data received").
Proof.
  intros shown. subst shown. cbv beta.
  unfold HousingStats.handleCountySelect_settle, HousingStats.tryCatchFinally,
    HousingStats.andThen, HousingStats.await, HousingStats.throw, HousingStats.ret,
    HousingStats.set, HousingStats.responseOf, HousingStats.promiseAll.
  repeat apply conj.
  - intros ok status body ok' status' body' Hok.
    destruct ok, ok'; try discriminate Hok; reflexivity.
  - intros status status' geoData. reflexivity.
  - intros status status' geoData t Hlen.
    destruct t as [|headers [|countyRow rest]]; [reflexivity | reflexivity|].
    simpl in Hlen. lia.
Qed.
